(** * PravdaPlus: the news gateway and the satirical transformer

    A shallow embedding of [services/api/main.py] (the gateway: feed
    fetching, the [/news] endpoints and the relay to the transformer) and of
    [services/transformer/main.py] (the transformer: the seeded mock generator,
    the backend reply parser and the [/transform] endpoint), followed by the
    properties of both services.

    A Python [str] is modelled by the [string] of the bytes of its UTF-8
    encoding; a lone surrogate (U+D800 to U+DFFF), which UTF-8 has no place
    for, is modelled by the three bytes its code point would take.  ASCII
    text is therefore itself, and [str.encode()] returns the bytes of the
    model unless a surrogate is among the characters.  Python integers are
    [Z].  Exceptions are explicit: a computation that can raise returns a
    [result]. *)

From Stdlib Require Import ZArith List String Ascii Bool Lia.
From Stdlib Require Import Numbers.DecimalString.
Import ListNotations.

Set Warnings "-register-all".

Local Open Scope string_scope.
Local Open Scope Z_scope.

(* ================================================================== *)
(** * Python built-ins used by the two services *)
(* ================================================================== *)

Module Py.

(** The one-character strings that cannot be written inside a literal. *)
Definition chr (n : nat) : string := String (ascii_of_nat n) EmptyString.
Definition nl : string := chr 10.
Definition dq : string := chr 34.

(** ** Exceptions

    [TimeoutError] is [asyncio.TimeoutError]; [HTTPException] is the web
    framework's exception, which the framework turns into a response with
    that status; [Exception] stands for every other subclass of Python's
    [Exception] (named, with its message). *)
Inductive exn : Type :=
| TimeoutError
| HTTPException (status_code : Z) (detail : string)
| Exception (name msg : string).

Inductive result (A : Type) : Type :=
| Ok (a : A)
| Raise (e : exn).
Arguments Ok {A} a.
Arguments Raise {A} e.

Definition bind {A B} (m : result A) (k : A -> result B) : result B :=
  match m with
  | Ok a => k a
  | Raise e => Raise e
  end.

(** [try: m  except Exception as e: h e] *)
Definition try_except {A} (m : result A) (h : exn -> result A) : result A :=
  match m with
  | Ok a => Ok a
  | Raise e => h e
  end.

(** [str(n)] for an integer. *)
Definition str_of_int (n : Z) : string := NilZero.string_of_int (Z.to_int n).

(** [str(e)]: an [HTTPException] prints as its status and detail. *)
Definition exn_str (e : exn) : string :=
  match e with
  | TimeoutError => ""
  | HTTPException s d => str_of_int s ++ ": " ++ d
  | Exception _ msg => msg
  end.

(** ** The characters of a text *)

Definition in_range (lo hi : nat) (c : ascii) : bool :=
  let n := nat_of_ascii c in (Nat.leb lo n && Nat.leb n hi)%bool.

Definition is_ascii (c : ascii) : bool := Nat.ltb (nat_of_ascii c) 128.

(** The bytes 80..BF continue the character that a byte before them
    started. *)
Definition is_continuation (c : ascii) : bool := in_range 128 191 c.

Definition starts_continuation (s : string) : bool :=
  match s with
  | String c _ => is_continuation c
  | EmptyString => false
  end.

(** The characters of a text, each one as its bytes: a byte that is not
    ASCII takes the continuation bytes that follow it. *)
Fixpoint chars (s : string) : list string :=
  match s with
  | EmptyString => []
  | String c r =>
      match chars r with
      | h :: t =>
          if (negb (is_ascii c) && starts_continuation h)%bool
          then String c h :: t
          else String c EmptyString :: h :: t
      | [] => [String c EmptyString]
      end
  end.

Fixpoint cat (l : list string) : string :=
  match l with
  | [] => EmptyString
  | x :: r => x ++ cat r
  end.

(** [len(s)] *)
Definition len (s : string) : nat := List.length (chars s).

(** The integers of the bytes. *)
Fixpoint byte_values (s : string) : list Z :=
  match s with
  | EmptyString => []
  | String c r => Z.of_nat (nat_of_ascii c) :: byte_values r
  end.

(** ** [str.encode()]

    The default codec is UTF-8 and the default handler is strict:
    [UnicodeEncodeError] at the first surrogate, with the position of the
    run of surrogates that starts there. *)

Definition is_surrogate (ch : string) : bool :=
  match ch with
  | String c1 (String c2 (String c3 EmptyString)) =>
      (Nat.eqb (nat_of_ascii c1) 237 && in_range 160 191 c2 &&
       is_continuation c3)%bool
  | _ => false
  end.

Definition encodable (s : string) : bool :=
  forallb (fun ch => negb (is_surrogate ch)) (chars s).

Definition hex_digit (n : Z) : ascii :=
  if n <? 10 then ascii_of_nat (Z.to_nat n + 48)
  else ascii_of_nat (Z.to_nat n + 87).

(** The code point of a surrogate, as Python prints it: a backslash, [u]
    and four hexadecimal digits. *)
Definition surrogate_repr (ch : string) : string :=
  match ch with
  | String _ (String c2 (String c3 _)) =>
      let n := 64 * (Z.of_nat (nat_of_ascii c2) - 128) +
               (Z.of_nat (nat_of_ascii c3) - 128) in
      "\ud" ++ String (hex_digit (n / 256))
                 (String (hex_digit (n / 16 mod 16))
                    (String (hex_digit (n mod 16)) EmptyString))
  | _ => EmptyString
  end.

Fixpoint surrogate_run (l : list string) : nat :=
  match l with
  | ch :: r => if is_surrogate ch then S (surrogate_run r) else O
  | [] => O
  end.

Definition unicode_encode_error (i : nat) (ch : string) (more : nat) : exn :=
  Exception "UnicodeEncodeError"
    (match more with
     | O => "'utf-8' codec can't encode character '" ++ surrogate_repr ch ++
            "' in position " ++ str_of_int (Z.of_nat i)
     | _ => "'utf-8' codec can't encode characters in position " ++
            str_of_int (Z.of_nat i) ++ "-" ++ str_of_int (Z.of_nat (i + more))
     end ++ ": surrogates not allowed").

Fixpoint encode_error (i : nat) (l : list string) : option exn :=
  match l with
  | [] => None
  | ch :: r =>
      if is_surrogate ch
      then Some (unicode_encode_error i ch (surrogate_run r))
      else encode_error (S i) r
  end.

Definition encode (s : string) : result (list Z) :=
  match encode_error 0 (chars s) with
  | Some e => Raise e
  | None => Ok (byte_values s)
  end.

(** ** [str] methods *)

Definition lower_char (c : ascii) : ascii :=
  if in_range 65 90 c then ascii_of_nat (nat_of_ascii c + 32) else c.

Definition upper_char (c : ascii) : ascii :=
  if in_range 97 122 c then ascii_of_nat (nat_of_ascii c - 32) else c.

Fixpoint map_str (f : ascii -> ascii) (s : string) : string :=
  match s with
  | EmptyString => EmptyString
  | String c r => String (f c) (map_str f r)
  end.

Fixpoint lookup {A} (t : list (string * A)) (ch : string) : option A :=
  match t with
  | [] => None
  | (k, v) :: r => if String.eqb k ch then Some v else lookup r ch
  end.

(** The code point of a character. *)
Definition code_point (ch : string) : Z :=
  match byte_values ch with
  | [a] => a
  | [a; b] => 64 * (a - 192) + (b - 128)
  | [a; b; c] => 4096 * (a - 224) + 64 * (b - 128) + (c - 128)
  | [a; b; c; d] =>
      262144 * (a - 240) + 4096 * (b - 128) + 64 * (c - 128) + (d - 128)
  | _ => -1
  end.

Definition in_ranges (rs : list (Z * Z)) (n : Z) : bool :=
  existsb (fun '(lo, hi) => ((lo <=? n) && (n <=? hi))%bool) rs.

(** [s.lower()]: the characters other than A to Z whose lower case differs
    from them, with their lower case (Unicode 14.0). *)
Definition lower_table : list (string * string) :=
  [("À", "à"); ("Á", "á"); ("Â", "â"); ("Ã", "ã"); ("Ä", "ä"); ("Å", "å");
   ("Æ", "æ"); ("Ç", "ç"); ("È", "è"); ("É", "é"); ("Ê", "ê"); ("Ë", "ë");
   ("Ì", "ì"); ("Í", "í"); ("Î", "î"); ("Ï", "ï"); ("Ð", "ð"); ("Ñ", "ñ");
   ("Ò", "ò"); ("Ó", "ó"); ("Ô", "ô"); ("Õ", "õ"); ("Ö", "ö"); ("Ø", "ø");
   ("Ù", "ù"); ("Ú", "ú"); ("Û", "û"); ("Ü", "ü"); ("Ý", "ý"); ("Þ", "þ");
   ("Ā", "ā"); ("Ă", "ă"); ("Ą", "ą"); ("Ć", "ć"); ("Ĉ", "ĉ"); ("Ċ", "ċ");
   ("Č", "č"); ("Ď", "ď"); ("Đ", "đ"); ("Ē", "ē"); ("Ĕ", "ĕ"); ("Ė", "ė");
   ("Ę", "ę"); ("Ě", "ě"); ("Ĝ", "ĝ"); ("Ğ", "ğ"); ("Ġ", "ġ"); ("Ģ", "ģ");
   ("Ĥ", "ĥ"); ("Ħ", "ħ"); ("Ĩ", "ĩ"); ("Ī", "ī"); ("Ĭ", "ĭ"); ("Į", "į");
   ("İ", "i̇"); ("Ĳ", "ĳ"); ("Ĵ", "ĵ"); ("Ķ", "ķ"); ("Ĺ", "ĺ"); ("Ļ", "ļ");
   ("Ľ", "ľ"); ("Ŀ", "ŀ"); ("Ł", "ł"); ("Ń", "ń"); ("Ņ", "ņ"); ("Ň", "ň");
   ("Ŋ", "ŋ"); ("Ō", "ō"); ("Ŏ", "ŏ"); ("Ő", "ő"); ("Œ", "œ"); ("Ŕ", "ŕ");
   ("Ŗ", "ŗ"); ("Ř", "ř"); ("Ś", "ś"); ("Ŝ", "ŝ"); ("Ş", "ş"); ("Š", "š");
   ("Ţ", "ţ"); ("Ť", "ť"); ("Ŧ", "ŧ"); ("Ũ", "ũ"); ("Ū", "ū"); ("Ŭ", "ŭ");
   ("Ů", "ů"); ("Ű", "ű"); ("Ų", "ų"); ("Ŵ", "ŵ"); ("Ŷ", "ŷ"); ("Ÿ", "ÿ");
   ("Ź", "ź"); ("Ż", "ż"); ("Ž", "ž"); ("Ɓ", "ɓ"); ("Ƃ", "ƃ"); ("Ƅ", "ƅ");
   ("Ɔ", "ɔ"); ("Ƈ", "ƈ"); ("Ɖ", "ɖ"); ("Ɗ", "ɗ"); ("Ƌ", "ƌ"); ("Ǝ", "ǝ");
   ("Ə", "ə"); ("Ɛ", "ɛ"); ("Ƒ", "ƒ"); ("Ɠ", "ɠ"); ("Ɣ", "ɣ"); ("Ɩ", "ɩ");
   ("Ɨ", "ɨ"); ("Ƙ", "ƙ"); ("Ɯ", "ɯ"); ("Ɲ", "ɲ"); ("Ɵ", "ɵ"); ("Ơ", "ơ");
   ("Ƣ", "ƣ"); ("Ƥ", "ƥ"); ("Ʀ", "ʀ"); ("Ƨ", "ƨ"); ("Ʃ", "ʃ"); ("Ƭ", "ƭ");
   ("Ʈ", "ʈ"); ("Ư", "ư"); ("Ʊ", "ʊ"); ("Ʋ", "ʋ"); ("Ƴ", "ƴ"); ("Ƶ", "ƶ");
   ("Ʒ", "ʒ"); ("Ƹ", "ƹ"); ("Ƽ", "ƽ"); ("Ǆ", "ǆ"); ("ǅ", "ǆ"); ("Ǉ", "ǉ");
   ("ǈ", "ǉ"); ("Ǌ", "ǌ"); ("ǋ", "ǌ"); ("Ǎ", "ǎ"); ("Ǐ", "ǐ"); ("Ǒ", "ǒ");
   ("Ǔ", "ǔ"); ("Ǖ", "ǖ"); ("Ǘ", "ǘ"); ("Ǚ", "ǚ"); ("Ǜ", "ǜ"); ("Ǟ", "ǟ");
   ("Ǡ", "ǡ"); ("Ǣ", "ǣ"); ("Ǥ", "ǥ"); ("Ǧ", "ǧ"); ("Ǩ", "ǩ"); ("Ǫ", "ǫ");
   ("Ǭ", "ǭ"); ("Ǯ", "ǯ"); ("Ǳ", "ǳ"); ("ǲ", "ǳ"); ("Ǵ", "ǵ"); ("Ƕ", "ƕ");
   ("Ƿ", "ƿ"); ("Ǹ", "ǹ"); ("Ǻ", "ǻ"); ("Ǽ", "ǽ"); ("Ǿ", "ǿ"); ("Ȁ", "ȁ");
   ("Ȃ", "ȃ"); ("Ȅ", "ȅ"); ("Ȇ", "ȇ"); ("Ȉ", "ȉ"); ("Ȋ", "ȋ"); ("Ȍ", "ȍ");
   ("Ȏ", "ȏ"); ("Ȑ", "ȑ"); ("Ȓ", "ȓ"); ("Ȕ", "ȕ"); ("Ȗ", "ȗ"); ("Ș", "ș");
   ("Ț", "ț"); ("Ȝ", "ȝ"); ("Ȟ", "ȟ"); ("Ƞ", "ƞ"); ("Ȣ", "ȣ"); ("Ȥ", "ȥ");
   ("Ȧ", "ȧ"); ("Ȩ", "ȩ"); ("Ȫ", "ȫ"); ("Ȭ", "ȭ"); ("Ȯ", "ȯ"); ("Ȱ", "ȱ");
   ("Ȳ", "ȳ"); ("Ⱥ", "ⱥ"); ("Ȼ", "ȼ"); ("Ƚ", "ƚ"); ("Ⱦ", "ⱦ"); ("Ɂ", "ɂ");
   ("Ƀ", "ƀ"); ("Ʉ", "ʉ"); ("Ʌ", "ʌ"); ("Ɇ", "ɇ"); ("Ɉ", "ɉ"); ("Ɋ", "ɋ");
   ("Ɍ", "ɍ"); ("Ɏ", "ɏ"); ("Ͱ", "ͱ"); ("Ͳ", "ͳ"); ("Ͷ", "ͷ"); ("Ϳ", "ϳ");
   ("Ά", "ά"); ("Έ", "έ"); ("Ή", "ή"); ("Ί", "ί"); ("Ό", "ό"); ("Ύ", "ύ");
   ("Ώ", "ώ"); ("Α", "α"); ("Β", "β"); ("Γ", "γ"); ("Δ", "δ"); ("Ε", "ε");
   ("Ζ", "ζ"); ("Η", "η"); ("Θ", "θ"); ("Ι", "ι"); ("Κ", "κ"); ("Λ", "λ");
   ("Μ", "μ"); ("Ν", "ν"); ("Ξ", "ξ"); ("Ο", "ο"); ("Π", "π"); ("Ρ", "ρ");
   ("Σ", "σ"); ("Τ", "τ"); ("Υ", "υ"); ("Φ", "φ"); ("Χ", "χ"); ("Ψ", "ψ");
   ("Ω", "ω"); ("Ϊ", "ϊ"); ("Ϋ", "ϋ"); ("Ϗ", "ϗ"); ("Ϙ", "ϙ"); ("Ϛ", "ϛ");
   ("Ϝ", "ϝ"); ("Ϟ", "ϟ"); ("Ϡ", "ϡ"); ("Ϣ", "ϣ"); ("Ϥ", "ϥ"); ("Ϧ", "ϧ");
   ("Ϩ", "ϩ"); ("Ϫ", "ϫ"); ("Ϭ", "ϭ"); ("Ϯ", "ϯ"); ("ϴ", "θ"); ("Ϸ", "ϸ");
   ("Ϲ", "ϲ"); ("Ϻ", "ϻ"); ("Ͻ", "ͻ"); ("Ͼ", "ͼ"); ("Ͽ", "ͽ"); ("Ѐ", "ѐ");
   ("Ё", "ё"); ("Ђ", "ђ"); ("Ѓ", "ѓ"); ("Є", "є"); ("Ѕ", "ѕ"); ("І", "і");
   ("Ї", "ї"); ("Ј", "ј"); ("Љ", "љ"); ("Њ", "њ"); ("Ћ", "ћ"); ("Ќ", "ќ");
   ("Ѝ", "ѝ"); ("Ў", "ў"); ("Џ", "џ"); ("А", "а"); ("Б", "б"); ("В", "в");
   ("Г", "г"); ("Д", "д"); ("Е", "е"); ("Ж", "ж"); ("З", "з"); ("И", "и");
   ("Й", "й"); ("К", "к"); ("Л", "л"); ("М", "м"); ("Н", "н"); ("О", "о");
   ("П", "п"); ("Р", "р"); ("С", "с"); ("Т", "т"); ("У", "у"); ("Ф", "ф");
   ("Х", "х"); ("Ц", "ц"); ("Ч", "ч"); ("Ш", "ш"); ("Щ", "щ"); ("Ъ", "ъ");
   ("Ы", "ы"); ("Ь", "ь"); ("Э", "э"); ("Ю", "ю"); ("Я", "я"); ("Ѡ", "ѡ");
   ("Ѣ", "ѣ"); ("Ѥ", "ѥ"); ("Ѧ", "ѧ"); ("Ѩ", "ѩ"); ("Ѫ", "ѫ"); ("Ѭ", "ѭ");
   ("Ѯ", "ѯ"); ("Ѱ", "ѱ"); ("Ѳ", "ѳ"); ("Ѵ", "ѵ"); ("Ѷ", "ѷ"); ("Ѹ", "ѹ");
   ("Ѻ", "ѻ"); ("Ѽ", "ѽ"); ("Ѿ", "ѿ"); ("Ҁ", "ҁ"); ("Ҋ", "ҋ"); ("Ҍ", "ҍ");
   ("Ҏ", "ҏ"); ("Ґ", "ґ"); ("Ғ", "ғ"); ("Ҕ", "ҕ"); ("Җ", "җ"); ("Ҙ", "ҙ");
   ("Қ", "қ"); ("Ҝ", "ҝ"); ("Ҟ", "ҟ"); ("Ҡ", "ҡ"); ("Ң", "ң"); ("Ҥ", "ҥ");
   ("Ҧ", "ҧ"); ("Ҩ", "ҩ"); ("Ҫ", "ҫ"); ("Ҭ", "ҭ"); ("Ү", "ү"); ("Ұ", "ұ");
   ("Ҳ", "ҳ"); ("Ҵ", "ҵ"); ("Ҷ", "ҷ"); ("Ҹ", "ҹ"); ("Һ", "һ"); ("Ҽ", "ҽ");
   ("Ҿ", "ҿ"); ("Ӏ", "ӏ"); ("Ӂ", "ӂ"); ("Ӄ", "ӄ"); ("Ӆ", "ӆ"); ("Ӈ", "ӈ");
   ("Ӊ", "ӊ"); ("Ӌ", "ӌ"); ("Ӎ", "ӎ"); ("Ӑ", "ӑ"); ("Ӓ", "ӓ"); ("Ӕ", "ӕ");
   ("Ӗ", "ӗ"); ("Ә", "ә"); ("Ӛ", "ӛ"); ("Ӝ", "ӝ"); ("Ӟ", "ӟ"); ("Ӡ", "ӡ");
   ("Ӣ", "ӣ"); ("Ӥ", "ӥ"); ("Ӧ", "ӧ"); ("Ө", "ө"); ("Ӫ", "ӫ"); ("Ӭ", "ӭ");
   ("Ӯ", "ӯ"); ("Ӱ", "ӱ"); ("Ӳ", "ӳ"); ("Ӵ", "ӵ"); ("Ӷ", "ӷ"); ("Ӹ", "ӹ");
   ("Ӻ", "ӻ"); ("Ӽ", "ӽ"); ("Ӿ", "ӿ"); ("Ԁ", "ԁ"); ("Ԃ", "ԃ"); ("Ԅ", "ԅ");
   ("Ԇ", "ԇ"); ("Ԉ", "ԉ"); ("Ԋ", "ԋ"); ("Ԍ", "ԍ"); ("Ԏ", "ԏ"); ("Ԑ", "ԑ");
   ("Ԓ", "ԓ"); ("Ԕ", "ԕ"); ("Ԗ", "ԗ"); ("Ԙ", "ԙ"); ("Ԛ", "ԛ"); ("Ԝ", "ԝ");
   ("Ԟ", "ԟ"); ("Ԡ", "ԡ"); ("Ԣ", "ԣ"); ("Ԥ", "ԥ"); ("Ԧ", "ԧ"); ("Ԩ", "ԩ");
   ("Ԫ", "ԫ"); ("Ԭ", "ԭ"); ("Ԯ", "ԯ"); ("Ա", "ա"); ("Բ", "բ"); ("Գ", "գ");
   ("Դ", "դ"); ("Ե", "ե"); ("Զ", "զ"); ("Է", "է"); ("Ը", "ը"); ("Թ", "թ");
   ("Ժ", "ժ"); ("Ի", "ի"); ("Լ", "լ"); ("Խ", "խ"); ("Ծ", "ծ"); ("Կ", "կ");
   ("Հ", "հ"); ("Ձ", "ձ"); ("Ղ", "ղ"); ("Ճ", "ճ"); ("Մ", "մ"); ("Յ", "յ");
   ("Ն", "ն"); ("Շ", "շ"); ("Ո", "ո"); ("Չ", "չ"); ("Պ", "պ"); ("Ջ", "ջ");
   ("Ռ", "ռ"); ("Ս", "ս"); ("Վ", "վ"); ("Տ", "տ"); ("Ր", "ր"); ("Ց", "ց");
   ("Ւ", "ւ"); ("Փ", "փ"); ("Ք", "ք"); ("Օ", "օ"); ("Ֆ", "ֆ"); ("Ⴀ", "ⴀ");
   ("Ⴁ", "ⴁ"); ("Ⴂ", "ⴂ"); ("Ⴃ", "ⴃ"); ("Ⴄ", "ⴄ"); ("Ⴅ", "ⴅ"); ("Ⴆ", "ⴆ");
   ("Ⴇ", "ⴇ"); ("Ⴈ", "ⴈ"); ("Ⴉ", "ⴉ"); ("Ⴊ", "ⴊ"); ("Ⴋ", "ⴋ"); ("Ⴌ", "ⴌ");
   ("Ⴍ", "ⴍ"); ("Ⴎ", "ⴎ"); ("Ⴏ", "ⴏ"); ("Ⴐ", "ⴐ"); ("Ⴑ", "ⴑ"); ("Ⴒ", "ⴒ");
   ("Ⴓ", "ⴓ"); ("Ⴔ", "ⴔ"); ("Ⴕ", "ⴕ"); ("Ⴖ", "ⴖ"); ("Ⴗ", "ⴗ"); ("Ⴘ", "ⴘ");
   ("Ⴙ", "ⴙ"); ("Ⴚ", "ⴚ"); ("Ⴛ", "ⴛ"); ("Ⴜ", "ⴜ"); ("Ⴝ", "ⴝ"); ("Ⴞ", "ⴞ");
   ("Ⴟ", "ⴟ"); ("Ⴠ", "ⴠ"); ("Ⴡ", "ⴡ"); ("Ⴢ", "ⴢ"); ("Ⴣ", "ⴣ"); ("Ⴤ", "ⴤ");
   ("Ⴥ", "ⴥ"); ("Ⴧ", "ⴧ"); ("Ⴭ", "ⴭ"); ("Ꭰ", "ꭰ"); ("Ꭱ", "ꭱ"); ("Ꭲ", "ꭲ");
   ("Ꭳ", "ꭳ"); ("Ꭴ", "ꭴ"); ("Ꭵ", "ꭵ"); ("Ꭶ", "ꭶ"); ("Ꭷ", "ꭷ"); ("Ꭸ", "ꭸ");
   ("Ꭹ", "ꭹ"); ("Ꭺ", "ꭺ"); ("Ꭻ", "ꭻ"); ("Ꭼ", "ꭼ"); ("Ꭽ", "ꭽ"); ("Ꭾ", "ꭾ");
   ("Ꭿ", "ꭿ"); ("Ꮀ", "ꮀ"); ("Ꮁ", "ꮁ"); ("Ꮂ", "ꮂ"); ("Ꮃ", "ꮃ"); ("Ꮄ", "ꮄ");
   ("Ꮅ", "ꮅ"); ("Ꮆ", "ꮆ"); ("Ꮇ", "ꮇ"); ("Ꮈ", "ꮈ"); ("Ꮉ", "ꮉ"); ("Ꮊ", "ꮊ");
   ("Ꮋ", "ꮋ"); ("Ꮌ", "ꮌ"); ("Ꮍ", "ꮍ"); ("Ꮎ", "ꮎ"); ("Ꮏ", "ꮏ"); ("Ꮐ", "ꮐ");
   ("Ꮑ", "ꮑ"); ("Ꮒ", "ꮒ"); ("Ꮓ", "ꮓ"); ("Ꮔ", "ꮔ"); ("Ꮕ", "ꮕ"); ("Ꮖ", "ꮖ");
   ("Ꮗ", "ꮗ"); ("Ꮘ", "ꮘ"); ("Ꮙ", "ꮙ"); ("Ꮚ", "ꮚ"); ("Ꮛ", "ꮛ"); ("Ꮜ", "ꮜ");
   ("Ꮝ", "ꮝ"); ("Ꮞ", "ꮞ"); ("Ꮟ", "ꮟ"); ("Ꮠ", "ꮠ"); ("Ꮡ", "ꮡ"); ("Ꮢ", "ꮢ");
   ("Ꮣ", "ꮣ"); ("Ꮤ", "ꮤ"); ("Ꮥ", "ꮥ"); ("Ꮦ", "ꮦ"); ("Ꮧ", "ꮧ"); ("Ꮨ", "ꮨ");
   ("Ꮩ", "ꮩ"); ("Ꮪ", "ꮪ"); ("Ꮫ", "ꮫ"); ("Ꮬ", "ꮬ"); ("Ꮭ", "ꮭ"); ("Ꮮ", "ꮮ");
   ("Ꮯ", "ꮯ"); ("Ꮰ", "ꮰ"); ("Ꮱ", "ꮱ"); ("Ꮲ", "ꮲ"); ("Ꮳ", "ꮳ"); ("Ꮴ", "ꮴ");
   ("Ꮵ", "ꮵ"); ("Ꮶ", "ꮶ"); ("Ꮷ", "ꮷ"); ("Ꮸ", "ꮸ"); ("Ꮹ", "ꮹ"); ("Ꮺ", "ꮺ");
   ("Ꮻ", "ꮻ"); ("Ꮼ", "ꮼ"); ("Ꮽ", "ꮽ"); ("Ꮾ", "ꮾ"); ("Ꮿ", "ꮿ"); ("Ᏸ", "ᏸ");
   ("Ᏹ", "ᏹ"); ("Ᏺ", "ᏺ"); ("Ᏻ", "ᏻ"); ("Ᏼ", "ᏼ"); ("Ᏽ", "ᏽ"); ("Ა", "ა");
   ("Ბ", "ბ"); ("Გ", "გ"); ("Დ", "დ"); ("Ე", "ე"); ("Ვ", "ვ"); ("Ზ", "ზ");
   ("Თ", "თ"); ("Ი", "ი"); ("Კ", "კ"); ("Ლ", "ლ"); ("Მ", "მ"); ("Ნ", "ნ");
   ("Ო", "ო"); ("Პ", "პ"); ("Ჟ", "ჟ"); ("Რ", "რ"); ("Ს", "ს"); ("Ტ", "ტ");
   ("Უ", "უ"); ("Ფ", "ფ"); ("Ქ", "ქ"); ("Ღ", "ღ"); ("Ყ", "ყ"); ("Შ", "შ");
   ("Ჩ", "ჩ"); ("Ც", "ც"); ("Ძ", "ძ"); ("Წ", "წ"); ("Ჭ", "ჭ"); ("Ხ", "ხ");
   ("Ჯ", "ჯ"); ("Ჰ", "ჰ"); ("Ჱ", "ჱ"); ("Ჲ", "ჲ"); ("Ჳ", "ჳ"); ("Ჴ", "ჴ");
   ("Ჵ", "ჵ"); ("Ჶ", "ჶ"); ("Ჷ", "ჷ"); ("Ჸ", "ჸ"); ("Ჹ", "ჹ"); ("Ჺ", "ჺ");
   ("Ჽ", "ჽ"); ("Ჾ", "ჾ"); ("Ჿ", "ჿ"); ("Ḁ", "ḁ"); ("Ḃ", "ḃ"); ("Ḅ", "ḅ");
   ("Ḇ", "ḇ"); ("Ḉ", "ḉ"); ("Ḋ", "ḋ"); ("Ḍ", "ḍ"); ("Ḏ", "ḏ"); ("Ḑ", "ḑ");
   ("Ḓ", "ḓ"); ("Ḕ", "ḕ"); ("Ḗ", "ḗ"); ("Ḙ", "ḙ"); ("Ḛ", "ḛ"); ("Ḝ", "ḝ");
   ("Ḟ", "ḟ"); ("Ḡ", "ḡ"); ("Ḣ", "ḣ"); ("Ḥ", "ḥ"); ("Ḧ", "ḧ"); ("Ḩ", "ḩ");
   ("Ḫ", "ḫ"); ("Ḭ", "ḭ"); ("Ḯ", "ḯ"); ("Ḱ", "ḱ"); ("Ḳ", "ḳ"); ("Ḵ", "ḵ");
   ("Ḷ", "ḷ"); ("Ḹ", "ḹ"); ("Ḻ", "ḻ"); ("Ḽ", "ḽ"); ("Ḿ", "ḿ"); ("Ṁ", "ṁ");
   ("Ṃ", "ṃ"); ("Ṅ", "ṅ"); ("Ṇ", "ṇ"); ("Ṉ", "ṉ"); ("Ṋ", "ṋ"); ("Ṍ", "ṍ");
   ("Ṏ", "ṏ"); ("Ṑ", "ṑ"); ("Ṓ", "ṓ"); ("Ṕ", "ṕ"); ("Ṗ", "ṗ"); ("Ṙ", "ṙ");
   ("Ṛ", "ṛ"); ("Ṝ", "ṝ"); ("Ṟ", "ṟ"); ("Ṡ", "ṡ"); ("Ṣ", "ṣ"); ("Ṥ", "ṥ");
   ("Ṧ", "ṧ"); ("Ṩ", "ṩ"); ("Ṫ", "ṫ"); ("Ṭ", "ṭ"); ("Ṯ", "ṯ"); ("Ṱ", "ṱ");
   ("Ṳ", "ṳ"); ("Ṵ", "ṵ"); ("Ṷ", "ṷ"); ("Ṹ", "ṹ"); ("Ṻ", "ṻ"); ("Ṽ", "ṽ");
   ("Ṿ", "ṿ"); ("Ẁ", "ẁ"); ("Ẃ", "ẃ"); ("Ẅ", "ẅ"); ("Ẇ", "ẇ"); ("Ẉ", "ẉ");
   ("Ẋ", "ẋ"); ("Ẍ", "ẍ"); ("Ẏ", "ẏ"); ("Ẑ", "ẑ"); ("Ẓ", "ẓ"); ("Ẕ", "ẕ");
   ("ẞ", "ß"); ("Ạ", "ạ"); ("Ả", "ả"); ("Ấ", "ấ"); ("Ầ", "ầ"); ("Ẩ", "ẩ");
   ("Ẫ", "ẫ"); ("Ậ", "ậ"); ("Ắ", "ắ"); ("Ằ", "ằ"); ("Ẳ", "ẳ"); ("Ẵ", "ẵ");
   ("Ặ", "ặ"); ("Ẹ", "ẹ"); ("Ẻ", "ẻ"); ("Ẽ", "ẽ"); ("Ế", "ế"); ("Ề", "ề");
   ("Ể", "ể"); ("Ễ", "ễ"); ("Ệ", "ệ"); ("Ỉ", "ỉ"); ("Ị", "ị"); ("Ọ", "ọ");
   ("Ỏ", "ỏ"); ("Ố", "ố"); ("Ồ", "ồ"); ("Ổ", "ổ"); ("Ỗ", "ỗ"); ("Ộ", "ộ");
   ("Ớ", "ớ"); ("Ờ", "ờ"); ("Ở", "ở"); ("Ỡ", "ỡ"); ("Ợ", "ợ"); ("Ụ", "ụ");
   ("Ủ", "ủ"); ("Ứ", "ứ"); ("Ừ", "ừ"); ("Ử", "ử"); ("Ữ", "ữ"); ("Ự", "ự");
   ("Ỳ", "ỳ"); ("Ỵ", "ỵ"); ("Ỷ", "ỷ"); ("Ỹ", "ỹ"); ("Ỻ", "ỻ"); ("Ỽ", "ỽ");
   ("Ỿ", "ỿ"); ("Ἀ", "ἀ"); ("Ἁ", "ἁ"); ("Ἂ", "ἂ"); ("Ἃ", "ἃ"); ("Ἄ", "ἄ");
   ("Ἅ", "ἅ"); ("Ἆ", "ἆ"); ("Ἇ", "ἇ"); ("Ἐ", "ἐ"); ("Ἑ", "ἑ"); ("Ἒ", "ἒ");
   ("Ἓ", "ἓ"); ("Ἔ", "ἔ"); ("Ἕ", "ἕ"); ("Ἠ", "ἠ"); ("Ἡ", "ἡ"); ("Ἢ", "ἢ");
   ("Ἣ", "ἣ"); ("Ἤ", "ἤ"); ("Ἥ", "ἥ"); ("Ἦ", "ἦ"); ("Ἧ", "ἧ"); ("Ἰ", "ἰ");
   ("Ἱ", "ἱ"); ("Ἲ", "ἲ"); ("Ἳ", "ἳ"); ("Ἴ", "ἴ"); ("Ἵ", "ἵ"); ("Ἶ", "ἶ");
   ("Ἷ", "ἷ"); ("Ὀ", "ὀ"); ("Ὁ", "ὁ"); ("Ὂ", "ὂ"); ("Ὃ", "ὃ"); ("Ὄ", "ὄ");
   ("Ὅ", "ὅ"); ("Ὑ", "ὑ"); ("Ὓ", "ὓ"); ("Ὕ", "ὕ"); ("Ὗ", "ὗ"); ("Ὠ", "ὠ");
   ("Ὡ", "ὡ"); ("Ὢ", "ὢ"); ("Ὣ", "ὣ"); ("Ὤ", "ὤ"); ("Ὥ", "ὥ"); ("Ὦ", "ὦ");
   ("Ὧ", "ὧ"); ("ᾈ", "ᾀ"); ("ᾉ", "ᾁ"); ("ᾊ", "ᾂ"); ("ᾋ", "ᾃ"); ("ᾌ", "ᾄ");
   ("ᾍ", "ᾅ"); ("ᾎ", "ᾆ"); ("ᾏ", "ᾇ"); ("ᾘ", "ᾐ"); ("ᾙ", "ᾑ"); ("ᾚ", "ᾒ");
   ("ᾛ", "ᾓ"); ("ᾜ", "ᾔ"); ("ᾝ", "ᾕ"); ("ᾞ", "ᾖ"); ("ᾟ", "ᾗ"); ("ᾨ", "ᾠ");
   ("ᾩ", "ᾡ"); ("ᾪ", "ᾢ"); ("ᾫ", "ᾣ"); ("ᾬ", "ᾤ"); ("ᾭ", "ᾥ"); ("ᾮ", "ᾦ");
   ("ᾯ", "ᾧ"); ("Ᾰ", "ᾰ"); ("Ᾱ", "ᾱ"); ("Ὰ", "ὰ"); ("Ά", "ά"); ("ᾼ", "ᾳ");
   ("Ὲ", "ὲ"); ("Έ", "έ"); ("Ὴ", "ὴ"); ("Ή", "ή"); ("ῌ", "ῃ"); ("Ῐ", "ῐ");
   ("Ῑ", "ῑ"); ("Ὶ", "ὶ"); ("Ί", "ί"); ("Ῠ", "ῠ"); ("Ῡ", "ῡ"); ("Ὺ", "ὺ");
   ("Ύ", "ύ"); ("Ῥ", "ῥ"); ("Ὸ", "ὸ"); ("Ό", "ό"); ("Ὼ", "ὼ"); ("Ώ", "ώ");
   ("ῼ", "ῳ"); ("Ω", "ω"); ("K", "k"); ("Å", "å"); ("Ⅎ", "ⅎ"); ("Ⅰ", "ⅰ");
   ("Ⅱ", "ⅱ"); ("Ⅲ", "ⅲ"); ("Ⅳ", "ⅳ"); ("Ⅴ", "ⅴ"); ("Ⅵ", "ⅵ"); ("Ⅶ", "ⅶ");
   ("Ⅷ", "ⅷ"); ("Ⅸ", "ⅸ"); ("Ⅹ", "ⅹ"); ("Ⅺ", "ⅺ"); ("Ⅻ", "ⅻ"); ("Ⅼ", "ⅼ");
   ("Ⅽ", "ⅽ"); ("Ⅾ", "ⅾ"); ("Ⅿ", "ⅿ"); ("Ↄ", "ↄ"); ("Ⓐ", "ⓐ"); ("Ⓑ", "ⓑ");
   ("Ⓒ", "ⓒ"); ("Ⓓ", "ⓓ"); ("Ⓔ", "ⓔ"); ("Ⓕ", "ⓕ"); ("Ⓖ", "ⓖ"); ("Ⓗ", "ⓗ");
   ("Ⓘ", "ⓘ"); ("Ⓙ", "ⓙ"); ("Ⓚ", "ⓚ"); ("Ⓛ", "ⓛ"); ("Ⓜ", "ⓜ"); ("Ⓝ", "ⓝ");
   ("Ⓞ", "ⓞ"); ("Ⓟ", "ⓟ"); ("Ⓠ", "ⓠ"); ("Ⓡ", "ⓡ"); ("Ⓢ", "ⓢ"); ("Ⓣ", "ⓣ");
   ("Ⓤ", "ⓤ"); ("Ⓥ", "ⓥ"); ("Ⓦ", "ⓦ"); ("Ⓧ", "ⓧ"); ("Ⓨ", "ⓨ"); ("Ⓩ", "ⓩ");
   ("Ⰰ", "ⰰ"); ("Ⰱ", "ⰱ"); ("Ⰲ", "ⰲ"); ("Ⰳ", "ⰳ"); ("Ⰴ", "ⰴ"); ("Ⰵ", "ⰵ");
   ("Ⰶ", "ⰶ"); ("Ⰷ", "ⰷ"); ("Ⰸ", "ⰸ"); ("Ⰹ", "ⰹ"); ("Ⰺ", "ⰺ"); ("Ⰻ", "ⰻ");
   ("Ⰼ", "ⰼ"); ("Ⰽ", "ⰽ"); ("Ⰾ", "ⰾ"); ("Ⰿ", "ⰿ"); ("Ⱀ", "ⱀ"); ("Ⱁ", "ⱁ");
   ("Ⱂ", "ⱂ"); ("Ⱃ", "ⱃ"); ("Ⱄ", "ⱄ"); ("Ⱅ", "ⱅ"); ("Ⱆ", "ⱆ"); ("Ⱇ", "ⱇ");
   ("Ⱈ", "ⱈ"); ("Ⱉ", "ⱉ"); ("Ⱊ", "ⱊ"); ("Ⱋ", "ⱋ"); ("Ⱌ", "ⱌ"); ("Ⱍ", "ⱍ");
   ("Ⱎ", "ⱎ"); ("Ⱏ", "ⱏ"); ("Ⱐ", "ⱐ"); ("Ⱑ", "ⱑ"); ("Ⱒ", "ⱒ"); ("Ⱓ", "ⱓ");
   ("Ⱔ", "ⱔ"); ("Ⱕ", "ⱕ"); ("Ⱖ", "ⱖ"); ("Ⱗ", "ⱗ"); ("Ⱘ", "ⱘ"); ("Ⱙ", "ⱙ");
   ("Ⱚ", "ⱚ"); ("Ⱛ", "ⱛ"); ("Ⱜ", "ⱜ"); ("Ⱝ", "ⱝ"); ("Ⱞ", "ⱞ"); ("Ⱟ", "ⱟ");
   ("Ⱡ", "ⱡ"); ("Ɫ", "ɫ"); ("Ᵽ", "ᵽ"); ("Ɽ", "ɽ"); ("Ⱨ", "ⱨ"); ("Ⱪ", "ⱪ");
   ("Ⱬ", "ⱬ"); ("Ɑ", "ɑ"); ("Ɱ", "ɱ"); ("Ɐ", "ɐ"); ("Ɒ", "ɒ"); ("Ⱳ", "ⱳ");
   ("Ⱶ", "ⱶ"); ("Ȿ", "ȿ"); ("Ɀ", "ɀ"); ("Ⲁ", "ⲁ"); ("Ⲃ", "ⲃ"); ("Ⲅ", "ⲅ");
   ("Ⲇ", "ⲇ"); ("Ⲉ", "ⲉ"); ("Ⲋ", "ⲋ"); ("Ⲍ", "ⲍ"); ("Ⲏ", "ⲏ"); ("Ⲑ", "ⲑ");
   ("Ⲓ", "ⲓ"); ("Ⲕ", "ⲕ"); ("Ⲗ", "ⲗ"); ("Ⲙ", "ⲙ"); ("Ⲛ", "ⲛ"); ("Ⲝ", "ⲝ");
   ("Ⲟ", "ⲟ"); ("Ⲡ", "ⲡ"); ("Ⲣ", "ⲣ"); ("Ⲥ", "ⲥ"); ("Ⲧ", "ⲧ"); ("Ⲩ", "ⲩ");
   ("Ⲫ", "ⲫ"); ("Ⲭ", "ⲭ"); ("Ⲯ", "ⲯ"); ("Ⲱ", "ⲱ"); ("Ⲳ", "ⲳ"); ("Ⲵ", "ⲵ");
   ("Ⲷ", "ⲷ"); ("Ⲹ", "ⲹ"); ("Ⲻ", "ⲻ"); ("Ⲽ", "ⲽ"); ("Ⲿ", "ⲿ"); ("Ⳁ", "ⳁ");
   ("Ⳃ", "ⳃ"); ("Ⳅ", "ⳅ"); ("Ⳇ", "ⳇ"); ("Ⳉ", "ⳉ"); ("Ⳋ", "ⳋ"); ("Ⳍ", "ⳍ");
   ("Ⳏ", "ⳏ"); ("Ⳑ", "ⳑ"); ("Ⳓ", "ⳓ"); ("Ⳕ", "ⳕ"); ("Ⳗ", "ⳗ"); ("Ⳙ", "ⳙ");
   ("Ⳛ", "ⳛ"); ("Ⳝ", "ⳝ"); ("Ⳟ", "ⳟ"); ("Ⳡ", "ⳡ"); ("Ⳣ", "ⳣ"); ("Ⳬ", "ⳬ");
   ("Ⳮ", "ⳮ"); ("Ⳳ", "ⳳ"); ("Ꙁ", "ꙁ"); ("Ꙃ", "ꙃ"); ("Ꙅ", "ꙅ"); ("Ꙇ", "ꙇ");
   ("Ꙉ", "ꙉ"); ("Ꙋ", "ꙋ"); ("Ꙍ", "ꙍ"); ("Ꙏ", "ꙏ"); ("Ꙑ", "ꙑ"); ("Ꙓ", "ꙓ");
   ("Ꙕ", "ꙕ"); ("Ꙗ", "ꙗ"); ("Ꙙ", "ꙙ"); ("Ꙛ", "ꙛ"); ("Ꙝ", "ꙝ"); ("Ꙟ", "ꙟ");
   ("Ꙡ", "ꙡ"); ("Ꙣ", "ꙣ"); ("Ꙥ", "ꙥ"); ("Ꙧ", "ꙧ"); ("Ꙩ", "ꙩ"); ("Ꙫ", "ꙫ");
   ("Ꙭ", "ꙭ"); ("Ꚁ", "ꚁ"); ("Ꚃ", "ꚃ"); ("Ꚅ", "ꚅ"); ("Ꚇ", "ꚇ"); ("Ꚉ", "ꚉ");
   ("Ꚋ", "ꚋ"); ("Ꚍ", "ꚍ"); ("Ꚏ", "ꚏ"); ("Ꚑ", "ꚑ"); ("Ꚓ", "ꚓ"); ("Ꚕ", "ꚕ");
   ("Ꚗ", "ꚗ"); ("Ꚙ", "ꚙ"); ("Ꚛ", "ꚛ"); ("Ꜣ", "ꜣ"); ("Ꜥ", "ꜥ"); ("Ꜧ", "ꜧ");
   ("Ꜩ", "ꜩ"); ("Ꜫ", "ꜫ"); ("Ꜭ", "ꜭ"); ("Ꜯ", "ꜯ"); ("Ꜳ", "ꜳ"); ("Ꜵ", "ꜵ");
   ("Ꜷ", "ꜷ"); ("Ꜹ", "ꜹ"); ("Ꜻ", "ꜻ"); ("Ꜽ", "ꜽ"); ("Ꜿ", "ꜿ"); ("Ꝁ", "ꝁ");
   ("Ꝃ", "ꝃ"); ("Ꝅ", "ꝅ"); ("Ꝇ", "ꝇ"); ("Ꝉ", "ꝉ"); ("Ꝋ", "ꝋ"); ("Ꝍ", "ꝍ");
   ("Ꝏ", "ꝏ"); ("Ꝑ", "ꝑ"); ("Ꝓ", "ꝓ"); ("Ꝕ", "ꝕ"); ("Ꝗ", "ꝗ"); ("Ꝙ", "ꝙ");
   ("Ꝛ", "ꝛ"); ("Ꝝ", "ꝝ"); ("Ꝟ", "ꝟ"); ("Ꝡ", "ꝡ"); ("Ꝣ", "ꝣ"); ("Ꝥ", "ꝥ");
   ("Ꝧ", "ꝧ"); ("Ꝩ", "ꝩ"); ("Ꝫ", "ꝫ"); ("Ꝭ", "ꝭ"); ("Ꝯ", "ꝯ"); ("Ꝺ", "ꝺ");
   ("Ꝼ", "ꝼ"); ("Ᵹ", "ᵹ"); ("Ꝿ", "ꝿ"); ("Ꞁ", "ꞁ"); ("Ꞃ", "ꞃ"); ("Ꞅ", "ꞅ");
   ("Ꞇ", "ꞇ"); ("Ꞌ", "ꞌ"); ("Ɥ", "ɥ"); ("Ꞑ", "ꞑ"); ("Ꞓ", "ꞓ"); ("Ꞗ", "ꞗ");
   ("Ꞙ", "ꞙ"); ("Ꞛ", "ꞛ"); ("Ꞝ", "ꞝ"); ("Ꞟ", "ꞟ"); ("Ꞡ", "ꞡ"); ("Ꞣ", "ꞣ");
   ("Ꞥ", "ꞥ"); ("Ꞧ", "ꞧ"); ("Ꞩ", "ꞩ"); ("Ɦ", "ɦ"); ("Ɜ", "ɜ"); ("Ɡ", "ɡ");
   ("Ɬ", "ɬ"); ("Ɪ", "ɪ"); ("Ʞ", "ʞ"); ("Ʇ", "ʇ"); ("Ʝ", "ʝ"); ("Ꭓ", "ꭓ");
   ("Ꞵ", "ꞵ"); ("Ꞷ", "ꞷ"); ("Ꞹ", "ꞹ"); ("Ꞻ", "ꞻ"); ("Ꞽ", "ꞽ"); ("Ꞿ", "ꞿ");
   ("Ꟁ", "ꟁ"); ("Ꟃ", "ꟃ"); ("Ꞔ", "ꞔ"); ("Ʂ", "ʂ"); ("Ᶎ", "ᶎ"); ("Ꟈ", "ꟈ");
   ("Ꟊ", "ꟊ"); ("Ꟑ", "ꟑ"); ("Ꟗ", "ꟗ"); ("Ꟙ", "ꟙ"); ("Ꟶ", "ꟶ"); ("Ａ", "ａ");
   ("Ｂ", "ｂ"); ("Ｃ", "ｃ"); ("Ｄ", "ｄ"); ("Ｅ", "ｅ"); ("Ｆ", "ｆ"); ("Ｇ", "ｇ");
   ("Ｈ", "ｈ"); ("Ｉ", "ｉ"); ("Ｊ", "ｊ"); ("Ｋ", "ｋ"); ("Ｌ", "ｌ"); ("Ｍ", "ｍ");
   ("Ｎ", "ｎ"); ("Ｏ", "ｏ"); ("Ｐ", "ｐ"); ("Ｑ", "ｑ"); ("Ｒ", "ｒ"); ("Ｓ", "ｓ");
   ("Ｔ", "ｔ"); ("Ｕ", "ｕ"); ("Ｖ", "ｖ"); ("Ｗ", "ｗ"); ("Ｘ", "ｘ"); ("Ｙ", "ｙ");
   ("Ｚ", "ｚ"); ("𐐀", "𐐨"); ("𐐁", "𐐩"); ("𐐂", "𐐪"); ("𐐃", "𐐫"); ("𐐄", "𐐬");
   ("𐐅", "𐐭"); ("𐐆", "𐐮"); ("𐐇", "𐐯"); ("𐐈", "𐐰"); ("𐐉", "𐐱"); ("𐐊", "𐐲");
   ("𐐋", "𐐳"); ("𐐌", "𐐴"); ("𐐍", "𐐵"); ("𐐎", "𐐶"); ("𐐏", "𐐷"); ("𐐐", "𐐸");
   ("𐐑", "𐐹"); ("𐐒", "𐐺"); ("𐐓", "𐐻"); ("𐐔", "𐐼"); ("𐐕", "𐐽"); ("𐐖", "𐐾");
   ("𐐗", "𐐿"); ("𐐘", "𐑀"); ("𐐙", "𐑁"); ("𐐚", "𐑂"); ("𐐛", "𐑃"); ("𐐜", "𐑄");
   ("𐐝", "𐑅"); ("𐐞", "𐑆"); ("𐐟", "𐑇"); ("𐐠", "𐑈"); ("𐐡", "𐑉"); ("𐐢", "𐑊");
   ("𐐣", "𐑋"); ("𐐤", "𐑌"); ("𐐥", "𐑍"); ("𐐦", "𐑎"); ("𐐧", "𐑏"); ("𐒰", "𐓘");
   ("𐒱", "𐓙"); ("𐒲", "𐓚"); ("𐒳", "𐓛"); ("𐒴", "𐓜"); ("𐒵", "𐓝"); ("𐒶", "𐓞");
   ("𐒷", "𐓟"); ("𐒸", "𐓠"); ("𐒹", "𐓡"); ("𐒺", "𐓢"); ("𐒻", "𐓣"); ("𐒼", "𐓤");
   ("𐒽", "𐓥"); ("𐒾", "𐓦"); ("𐒿", "𐓧"); ("𐓀", "𐓨"); ("𐓁", "𐓩"); ("𐓂", "𐓪");
   ("𐓃", "𐓫"); ("𐓄", "𐓬"); ("𐓅", "𐓭"); ("𐓆", "𐓮"); ("𐓇", "𐓯"); ("𐓈", "𐓰");
   ("𐓉", "𐓱"); ("𐓊", "𐓲"); ("𐓋", "𐓳"); ("𐓌", "𐓴"); ("𐓍", "𐓵"); ("𐓎", "𐓶");
   ("𐓏", "𐓷"); ("𐓐", "𐓸"); ("𐓑", "𐓹"); ("𐓒", "𐓺"); ("𐓓", "𐓻"); ("𐕰", "𐖗");
   ("𐕱", "𐖘"); ("𐕲", "𐖙"); ("𐕳", "𐖚"); ("𐕴", "𐖛"); ("𐕵", "𐖜"); ("𐕶", "𐖝");
   ("𐕷", "𐖞"); ("𐕸", "𐖟"); ("𐕹", "𐖠"); ("𐕺", "𐖡"); ("𐕼", "𐖣"); ("𐕽", "𐖤");
   ("𐕾", "𐖥"); ("𐕿", "𐖦"); ("𐖀", "𐖧"); ("𐖁", "𐖨"); ("𐖂", "𐖩"); ("𐖃", "𐖪");
   ("𐖄", "𐖫"); ("𐖅", "𐖬"); ("𐖆", "𐖭"); ("𐖇", "𐖮"); ("𐖈", "𐖯"); ("𐖉", "𐖰");
   ("𐖊", "𐖱"); ("𐖌", "𐖳"); ("𐖍", "𐖴"); ("𐖎", "𐖵"); ("𐖏", "𐖶"); ("𐖐", "𐖷");
   ("𐖑", "𐖸"); ("𐖒", "𐖹"); ("𐖔", "𐖻"); ("𐖕", "𐖼"); ("𐲀", "𐳀"); ("𐲁", "𐳁");
   ("𐲂", "𐳂"); ("𐲃", "𐳃"); ("𐲄", "𐳄"); ("𐲅", "𐳅"); ("𐲆", "𐳆"); ("𐲇", "𐳇");
   ("𐲈", "𐳈"); ("𐲉", "𐳉"); ("𐲊", "𐳊"); ("𐲋", "𐳋"); ("𐲌", "𐳌"); ("𐲍", "𐳍");
   ("𐲎", "𐳎"); ("𐲏", "𐳏"); ("𐲐", "𐳐"); ("𐲑", "𐳑"); ("𐲒", "𐳒"); ("𐲓", "𐳓");
   ("𐲔", "𐳔"); ("𐲕", "𐳕"); ("𐲖", "𐳖"); ("𐲗", "𐳗"); ("𐲘", "𐳘"); ("𐲙", "𐳙");
   ("𐲚", "𐳚"); ("𐲛", "𐳛"); ("𐲜", "𐳜"); ("𐲝", "𐳝"); ("𐲞", "𐳞"); ("𐲟", "𐳟");
   ("𐲠", "𐳠"); ("𐲡", "𐳡"); ("𐲢", "𐳢"); ("𐲣", "𐳣"); ("𐲤", "𐳤"); ("𐲥", "𐳥");
   ("𐲦", "𐳦"); ("𐲧", "𐳧"); ("𐲨", "𐳨"); ("𐲩", "𐳩"); ("𐲪", "𐳪"); ("𐲫", "𐳫");
   ("𐲬", "𐳬"); ("𐲭", "𐳭"); ("𐲮", "𐳮"); ("𐲯", "𐳯"); ("𐲰", "𐳰"); ("𐲱", "𐳱");
   ("𐲲", "𐳲"); ("𑢠", "𑣀"); ("𑢡", "𑣁"); ("𑢢", "𑣂"); ("𑢣", "𑣃"); ("𑢤", "𑣄");
   ("𑢥", "𑣅"); ("𑢦", "𑣆"); ("𑢧", "𑣇"); ("𑢨", "𑣈"); ("𑢩", "𑣉"); ("𑢪", "𑣊");
   ("𑢫", "𑣋"); ("𑢬", "𑣌"); ("𑢭", "𑣍"); ("𑢮", "𑣎"); ("𑢯", "𑣏"); ("𑢰", "𑣐");
   ("𑢱", "𑣑"); ("𑢲", "𑣒"); ("𑢳", "𑣓"); ("𑢴", "𑣔"); ("𑢵", "𑣕"); ("𑢶", "𑣖");
   ("𑢷", "𑣗"); ("𑢸", "𑣘"); ("𑢹", "𑣙"); ("𑢺", "𑣚"); ("𑢻", "𑣛"); ("𑢼", "𑣜");
   ("𑢽", "𑣝"); ("𑢾", "𑣞"); ("𑢿", "𑣟"); ("𖹀", "𖹠"); ("𖹁", "𖹡"); ("𖹂", "𖹢");
   ("𖹃", "𖹣"); ("𖹄", "𖹤"); ("𖹅", "𖹥"); ("𖹆", "𖹦"); ("𖹇", "𖹧"); ("𖹈", "𖹨");
   ("𖹉", "𖹩"); ("𖹊", "𖹪"); ("𖹋", "𖹫"); ("𖹌", "𖹬"); ("𖹍", "𖹭"); ("𖹎", "𖹮");
   ("𖹏", "𖹯"); ("𖹐", "𖹰"); ("𖹑", "𖹱"); ("𖹒", "𖹲"); ("𖹓", "𖹳"); ("𖹔", "𖹴");
   ("𖹕", "𖹵"); ("𖹖", "𖹶"); ("𖹗", "𖹷"); ("𖹘", "𖹸"); ("𖹙", "𖹹"); ("𖹚", "𖹺");
   ("𖹛", "𖹻"); ("𖹜", "𖹼"); ("𖹝", "𖹽"); ("𖹞", "𖹾"); ("𖹟", "𖹿"); ("𞤀", "𞤢");
   ("𞤁", "𞤣"); ("𞤂", "𞤤"); ("𞤃", "𞤥"); ("𞤄", "𞤦"); ("𞤅", "𞤧"); ("𞤆", "𞤨");
   ("𞤇", "𞤩"); ("𞤈", "𞤪"); ("𞤉", "𞤫"); ("𞤊", "𞤬"); ("𞤋", "𞤭"); ("𞤌", "𞤮");
   ("𞤍", "𞤯"); ("𞤎", "𞤰"); ("𞤏", "𞤱"); ("𞤐", "𞤲"); ("𞤑", "𞤳"); ("𞤒", "𞤴");
   ("𞤓", "𞤵"); ("𞤔", "𞤶"); ("𞤕", "𞤷"); ("𞤖", "𞤸"); ("𞤗", "𞤹"); ("𞤘", "𞤺");
   ("𞤙", "𞤻"); ("𞤚", "𞤼"); ("𞤛", "𞤽"); ("𞤜", "𞤾"); ("𞤝", "𞤿"); ("𞤞", "𞥀");
   ("𞤟", "𞥁"); ("𞤠", "𞥂"); ("𞤡", "𞥃")].

(** The capital sigma is lowered to the final form when a cased character
    comes before it and none comes after it, the case-ignorable characters
    in between being passed over.  The code points of the case-ignorable
    characters, and those of the cased characters that are not
    case-ignorable: *)
Definition case_ignorable_ranges : list (Z * Z) :=
  [(39, 39); (46, 46); (58, 58); (94, 94); (96, 96); (168, 168); (173, 173);
   (175, 175); (180, 180); (183, 184); (688, 879); (884, 885); (890, 890);
   (900, 901); (903, 903); (1155, 1161); (1369, 1369); (1375, 1375);
   (1425, 1469); (1471, 1471); (1473, 1474); (1476, 1477); (1479, 1479);
   (1524, 1524); (1536, 1541); (1552, 1562); (1564, 1564); (1600, 1600);
   (1611, 1631); (1648, 1648); (1750, 1757); (1759, 1768); (1770, 1773);
   (1807, 1807); (1809, 1809); (1840, 1866); (1958, 1968); (2027, 2037);
   (2042, 2042); (2045, 2045); (2070, 2093); (2137, 2139); (2184, 2184);
   (2192, 2193); (2200, 2207); (2249, 2306); (2362, 2362); (2364, 2364);
   (2369, 2376); (2381, 2381); (2385, 2391); (2402, 2403); (2417, 2417);
   (2433, 2433); (2492, 2492); (2497, 2500); (2509, 2509); (2530, 2531);
   (2558, 2558); (2561, 2562); (2620, 2620); (2625, 2626); (2631, 2632);
   (2635, 2637); (2641, 2641); (2672, 2673); (2677, 2677); (2689, 2690);
   (2748, 2748); (2753, 2757); (2759, 2760); (2765, 2765); (2786, 2787);
   (2810, 2815); (2817, 2817); (2876, 2876); (2879, 2879); (2881, 2884);
   (2893, 2893); (2901, 2902); (2914, 2915); (2946, 2946); (3008, 3008);
   (3021, 3021); (3072, 3072); (3076, 3076); (3132, 3132); (3134, 3136);
   (3142, 3144); (3146, 3149); (3157, 3158); (3170, 3171); (3201, 3201);
   (3260, 3260); (3263, 3263); (3270, 3270); (3276, 3277); (3298, 3299);
   (3328, 3329); (3387, 3388); (3393, 3396); (3405, 3405); (3426, 3427);
   (3457, 3457); (3530, 3530); (3538, 3540); (3542, 3542); (3633, 3633);
   (3636, 3642); (3654, 3662); (3761, 3761); (3764, 3772); (3782, 3782);
   (3784, 3789); (3864, 3865); (3893, 3893); (3895, 3895); (3897, 3897);
   (3953, 3966); (3968, 3972); (3974, 3975); (3981, 3991); (3993, 4028);
   (4038, 4038); (4141, 4144); (4146, 4151); (4153, 4154); (4157, 4158);
   (4184, 4185); (4190, 4192); (4209, 4212); (4226, 4226); (4229, 4230);
   (4237, 4237); (4253, 4253); (4348, 4348); (4957, 4959); (5906, 5908);
   (5938, 5939); (5970, 5971); (6002, 6003); (6068, 6069); (6071, 6077);
   (6086, 6086); (6089, 6099); (6103, 6103); (6109, 6109); (6155, 6159);
   (6211, 6211); (6277, 6278); (6313, 6313); (6432, 6434); (6439, 6440);
   (6450, 6450); (6457, 6459); (6679, 6680); (6683, 6683); (6742, 6742);
   (6744, 6750); (6752, 6752); (6754, 6754); (6757, 6764); (6771, 6780);
   (6783, 6783); (6823, 6823); (6832, 6862); (6912, 6915); (6964, 6964);
   (6966, 6970); (6972, 6972); (6978, 6978); (7019, 7027); (7040, 7041);
   (7074, 7077); (7080, 7081); (7083, 7085); (7142, 7142); (7144, 7145);
   (7149, 7149); (7151, 7153); (7212, 7219); (7222, 7223); (7288, 7293);
   (7376, 7378); (7380, 7392); (7394, 7400); (7405, 7405); (7412, 7412);
   (7416, 7417); (7468, 7530); (7544, 7544); (7579, 7679); (8125, 8125);
   (8127, 8129); (8141, 8143); (8157, 8159); (8173, 8175); (8189, 8190);
   (8203, 8207); (8216, 8217); (8228, 8228); (8231, 8231); (8234, 8238);
   (8288, 8292); (8294, 8303); (8305, 8305); (8319, 8319); (8336, 8348);
   (8400, 8432); (11388, 11389); (11503, 11505); (11631, 11631);
   (11647, 11647); (11744, 11775); (11823, 11823); (12293, 12293);
   (12330, 12333); (12337, 12341); (12347, 12347); (12441, 12446);
   (12540, 12542); (40981, 40981); (42232, 42237); (42508, 42508);
   (42607, 42610); (42612, 42621); (42623, 42623); (42652, 42655);
   (42736, 42737); (42752, 42785); (42864, 42864); (42888, 42890);
   (42994, 42996); (43000, 43001); (43010, 43010); (43014, 43014);
   (43019, 43019); (43045, 43046); (43052, 43052); (43204, 43205);
   (43232, 43249); (43263, 43263); (43302, 43309); (43335, 43345);
   (43392, 43394); (43443, 43443); (43446, 43449); (43452, 43453);
   (43471, 43471); (43493, 43494); (43561, 43566); (43569, 43570);
   (43573, 43574); (43587, 43587); (43596, 43596); (43632, 43632);
   (43644, 43644); (43696, 43696); (43698, 43700); (43703, 43704);
   (43710, 43711); (43713, 43713); (43741, 43741); (43756, 43757);
   (43763, 43764); (43766, 43766); (43867, 43871); (43881, 43883);
   (44005, 44005); (44008, 44008); (44013, 44013); (64286, 64286);
   (64434, 64450); (65024, 65039); (65043, 65043); (65056, 65071);
   (65106, 65106); (65109, 65109); (65279, 65279); (65287, 65287);
   (65294, 65294); (65306, 65306); (65342, 65342); (65344, 65344);
   (65392, 65392); (65438, 65439); (65507, 65507); (65529, 65531);
   (66045, 66045); (66272, 66272); (66422, 66426); (67456, 67461);
   (67463, 67504); (67506, 67514); (68097, 68099); (68101, 68102);
   (68108, 68111); (68152, 68154); (68159, 68159); (68325, 68326);
   (68900, 68903); (69291, 69292); (69446, 69456); (69506, 69509);
   (69633, 69633); (69688, 69702); (69744, 69744); (69747, 69748);
   (69759, 69761); (69811, 69814); (69817, 69818); (69821, 69821);
   (69826, 69826); (69837, 69837); (69888, 69890); (69927, 69931);
   (69933, 69940); (70003, 70003); (70016, 70017); (70070, 70078);
   (70089, 70092); (70095, 70095); (70191, 70193); (70196, 70196);
   (70198, 70199); (70206, 70206); (70367, 70367); (70371, 70378);
   (70400, 70401); (70459, 70460); (70464, 70464); (70502, 70508);
   (70512, 70516); (70712, 70719); (70722, 70724); (70726, 70726);
   (70750, 70750); (70835, 70840); (70842, 70842); (70847, 70848);
   (70850, 70851); (71090, 71093); (71100, 71101); (71103, 71104);
   (71132, 71133); (71219, 71226); (71229, 71229); (71231, 71232);
   (71339, 71339); (71341, 71341); (71344, 71349); (71351, 71351);
   (71453, 71455); (71458, 71461); (71463, 71467); (71727, 71735);
   (71737, 71738); (71995, 71996); (71998, 71998); (72003, 72003);
   (72148, 72151); (72154, 72155); (72160, 72160); (72193, 72202);
   (72243, 72248); (72251, 72254); (72263, 72263); (72273, 72278);
   (72281, 72283); (72330, 72342); (72344, 72345); (72752, 72758);
   (72760, 72765); (72767, 72767); (72850, 72871); (72874, 72880);
   (72882, 72883); (72885, 72886); (73009, 73014); (73018, 73018);
   (73020, 73021); (73023, 73029); (73031, 73031); (73104, 73105);
   (73109, 73109); (73111, 73111); (73459, 73460); (78896, 78904);
   (92912, 92916); (92976, 92982); (92992, 92995); (94031, 94031);
   (94095, 94111); (94176, 94177); (94179, 94180); (110576, 110579);
   (110581, 110587); (110589, 110590); (113821, 113822); (113824, 113827);
   (118528, 118573); (118576, 118598); (119143, 119145); (119155, 119170);
   (119173, 119179); (119210, 119213); (119362, 119364); (121344, 121398);
   (121403, 121452); (121461, 121461); (121476, 121476); (121499, 121503);
   (121505, 121519); (122880, 122886); (122888, 122904); (122907, 122913);
   (122915, 122916); (122918, 122922); (123184, 123197); (123566, 123566);
   (123628, 123631); (125136, 125142); (125252, 125259); (127995, 127999);
   (917505, 917505); (917536, 917631); (917760, 917999)].

Definition cased_ranges : list (Z * Z) :=
  [(65, 90); (97, 122); (170, 170); (181, 181); (186, 186); (192, 214);
   (216, 246); (248, 442); (444, 447); (452, 659); (661, 687); (880, 883);
   (886, 887); (891, 893); (895, 895); (902, 902); (904, 906); (908, 908);
   (910, 929); (931, 1013); (1015, 1153); (1162, 1327); (1329, 1366);
   (1376, 1416); (4256, 4293); (4295, 4295); (4301, 4301); (4304, 4346);
   (4349, 4351); (5024, 5109); (5112, 5117); (7296, 7304); (7312, 7354);
   (7357, 7359); (7424, 7467); (7531, 7543); (7545, 7578); (7680, 7957);
   (7960, 7965); (7968, 8005); (8008, 8013); (8016, 8023); (8025, 8025);
   (8027, 8027); (8029, 8029); (8031, 8061); (8064, 8116); (8118, 8124);
   (8126, 8126); (8130, 8132); (8134, 8140); (8144, 8147); (8150, 8155);
   (8160, 8172); (8178, 8180); (8182, 8188); (8450, 8450); (8455, 8455);
   (8458, 8467); (8469, 8469); (8473, 8477); (8484, 8484); (8486, 8486);
   (8488, 8488); (8490, 8493); (8495, 8500); (8505, 8505); (8508, 8511);
   (8517, 8521); (8526, 8526); (8544, 8575); (8579, 8580); (9398, 9449);
   (11264, 11387); (11390, 11492); (11499, 11502); (11506, 11507);
   (11520, 11557); (11559, 11559); (11565, 11565); (42560, 42605);
   (42624, 42651); (42786, 42863); (42865, 42887); (42891, 42894);
   (42896, 42954); (42960, 42961); (42963, 42963); (42965, 42969);
   (42997, 42998); (43002, 43002); (43824, 43866); (43872, 43880);
   (43888, 43967); (64256, 64262); (64275, 64279); (65313, 65338);
   (65345, 65370); (66560, 66639); (66736, 66771); (66776, 66811);
   (66928, 66938); (66940, 66954); (66956, 66962); (66964, 66965);
   (66967, 66977); (66979, 66993); (66995, 67001); (67003, 67004);
   (68736, 68786); (68800, 68850); (71840, 71903); (93760, 93823);
   (119808, 119892); (119894, 119964); (119966, 119967); (119970, 119970);
   (119973, 119974); (119977, 119980); (119982, 119993); (119995, 119995);
   (119997, 120003); (120005, 120069); (120071, 120074); (120077, 120084);
   (120086, 120092); (120094, 120121); (120123, 120126); (120128, 120132);
   (120134, 120134); (120138, 120144); (120146, 120485); (120488, 120512);
   (120514, 120538); (120540, 120570); (120572, 120596); (120598, 120628);
   (120630, 120654); (120656, 120686); (120688, 120712); (120714, 120744);
   (120746, 120770); (120772, 120779); (122624, 122633); (122635, 122654);
   (125184, 125251); (127280, 127305); (127312, 127337); (127344, 127369)].

Definition case_ignorable (ch : string) : bool :=
  in_ranges case_ignorable_ranges (code_point ch).

Definition cased (ch : string) : bool := in_ranges cased_ranges (code_point ch).

Fixpoint skip_ignorable (l : list string) : list string :=
  match l with
  | ch :: r => if case_ignorable ch then skip_ignorable r else l
  | [] => []
  end.

(** [before] holds the characters before the sigma, the nearest first. *)
Definition final_sigma (before after : list string) : bool :=
  (match skip_ignorable before with
   | ch :: _ => cased ch
   | [] => false
   end &&
   match skip_ignorable after with
   | ch :: _ => negb (cased ch)
   | [] => true
   end)%bool.

Definition lower_of (ch : string) : string :=
  match ch with
  | String c EmptyString => String (lower_char c) EmptyString
  | _ => match lookup lower_table ch with
         | Some v => v
         | None => ch
         end
  end.

Fixpoint lower_chars (before l : list string) : list string :=
  match l with
  | [] => []
  | ch :: r =>
      (if String.eqb ch "Σ"
       then (if final_sigma before r then "ς" else "σ")
       else lower_of ch) :: lower_chars (ch :: before) r
  end.

Definition lower (s : string) : string := cat (lower_chars [] (chars s)).

(** [s.upper()]: the characters other than a to z whose upper case differs
    from them, with their upper case (Unicode 14.0, the special casings
    included: one character can become two or three). *)
Definition upper_table : list (string * string) :=
  [("µ", "Μ"); ("ß", "SS"); ("à", "À"); ("á", "Á"); ("â", "Â"); ("ã", "Ã");
   ("ä", "Ä"); ("å", "Å"); ("æ", "Æ"); ("ç", "Ç"); ("è", "È"); ("é", "É");
   ("ê", "Ê"); ("ë", "Ë"); ("ì", "Ì"); ("í", "Í"); ("î", "Î"); ("ï", "Ï");
   ("ð", "Ð"); ("ñ", "Ñ"); ("ò", "Ò"); ("ó", "Ó"); ("ô", "Ô"); ("õ", "Õ");
   ("ö", "Ö"); ("ø", "Ø"); ("ù", "Ù"); ("ú", "Ú"); ("û", "Û"); ("ü", "Ü");
   ("ý", "Ý"); ("þ", "Þ"); ("ÿ", "Ÿ"); ("ā", "Ā"); ("ă", "Ă"); ("ą", "Ą");
   ("ć", "Ć"); ("ĉ", "Ĉ"); ("ċ", "Ċ"); ("č", "Č"); ("ď", "Ď"); ("đ", "Đ");
   ("ē", "Ē"); ("ĕ", "Ĕ"); ("ė", "Ė"); ("ę", "Ę"); ("ě", "Ě"); ("ĝ", "Ĝ");
   ("ğ", "Ğ"); ("ġ", "Ġ"); ("ģ", "Ģ"); ("ĥ", "Ĥ"); ("ħ", "Ħ"); ("ĩ", "Ĩ");
   ("ī", "Ī"); ("ĭ", "Ĭ"); ("į", "Į"); ("ı", "I"); ("ĳ", "Ĳ"); ("ĵ", "Ĵ");
   ("ķ", "Ķ"); ("ĺ", "Ĺ"); ("ļ", "Ļ"); ("ľ", "Ľ"); ("ŀ", "Ŀ"); ("ł", "Ł");
   ("ń", "Ń"); ("ņ", "Ņ"); ("ň", "Ň"); ("ŉ", "ʼN"); ("ŋ", "Ŋ"); ("ō", "Ō");
   ("ŏ", "Ŏ"); ("ő", "Ő"); ("œ", "Œ"); ("ŕ", "Ŕ"); ("ŗ", "Ŗ"); ("ř", "Ř");
   ("ś", "Ś"); ("ŝ", "Ŝ"); ("ş", "Ş"); ("š", "Š"); ("ţ", "Ţ"); ("ť", "Ť");
   ("ŧ", "Ŧ"); ("ũ", "Ũ"); ("ū", "Ū"); ("ŭ", "Ŭ"); ("ů", "Ů"); ("ű", "Ű");
   ("ų", "Ų"); ("ŵ", "Ŵ"); ("ŷ", "Ŷ"); ("ź", "Ź"); ("ż", "Ż"); ("ž", "Ž");
   ("ſ", "S"); ("ƀ", "Ƀ"); ("ƃ", "Ƃ"); ("ƅ", "Ƅ"); ("ƈ", "Ƈ"); ("ƌ", "Ƌ");
   ("ƒ", "Ƒ"); ("ƕ", "Ƕ"); ("ƙ", "Ƙ"); ("ƚ", "Ƚ"); ("ƞ", "Ƞ"); ("ơ", "Ơ");
   ("ƣ", "Ƣ"); ("ƥ", "Ƥ"); ("ƨ", "Ƨ"); ("ƭ", "Ƭ"); ("ư", "Ư"); ("ƴ", "Ƴ");
   ("ƶ", "Ƶ"); ("ƹ", "Ƹ"); ("ƽ", "Ƽ"); ("ƿ", "Ƿ"); ("ǅ", "Ǆ"); ("ǆ", "Ǆ");
   ("ǈ", "Ǉ"); ("ǉ", "Ǉ"); ("ǋ", "Ǌ"); ("ǌ", "Ǌ"); ("ǎ", "Ǎ"); ("ǐ", "Ǐ");
   ("ǒ", "Ǒ"); ("ǔ", "Ǔ"); ("ǖ", "Ǖ"); ("ǘ", "Ǘ"); ("ǚ", "Ǚ"); ("ǜ", "Ǜ");
   ("ǝ", "Ǝ"); ("ǟ", "Ǟ"); ("ǡ", "Ǡ"); ("ǣ", "Ǣ"); ("ǥ", "Ǥ"); ("ǧ", "Ǧ");
   ("ǩ", "Ǩ"); ("ǫ", "Ǫ"); ("ǭ", "Ǭ"); ("ǯ", "Ǯ"); ("ǰ", "J̌"); ("ǲ", "Ǳ");
   ("ǳ", "Ǳ"); ("ǵ", "Ǵ"); ("ǹ", "Ǹ"); ("ǻ", "Ǻ"); ("ǽ", "Ǽ"); ("ǿ", "Ǿ");
   ("ȁ", "Ȁ"); ("ȃ", "Ȃ"); ("ȅ", "Ȅ"); ("ȇ", "Ȇ"); ("ȉ", "Ȉ"); ("ȋ", "Ȋ");
   ("ȍ", "Ȍ"); ("ȏ", "Ȏ"); ("ȑ", "Ȑ"); ("ȓ", "Ȓ"); ("ȕ", "Ȕ"); ("ȗ", "Ȗ");
   ("ș", "Ș"); ("ț", "Ț"); ("ȝ", "Ȝ"); ("ȟ", "Ȟ"); ("ȣ", "Ȣ"); ("ȥ", "Ȥ");
   ("ȧ", "Ȧ"); ("ȩ", "Ȩ"); ("ȫ", "Ȫ"); ("ȭ", "Ȭ"); ("ȯ", "Ȯ"); ("ȱ", "Ȱ");
   ("ȳ", "Ȳ"); ("ȼ", "Ȼ"); ("ȿ", "Ȿ"); ("ɀ", "Ɀ"); ("ɂ", "Ɂ"); ("ɇ", "Ɇ");
   ("ɉ", "Ɉ"); ("ɋ", "Ɋ"); ("ɍ", "Ɍ"); ("ɏ", "Ɏ"); ("ɐ", "Ɐ"); ("ɑ", "Ɑ");
   ("ɒ", "Ɒ"); ("ɓ", "Ɓ"); ("ɔ", "Ɔ"); ("ɖ", "Ɖ"); ("ɗ", "Ɗ"); ("ə", "Ə");
   ("ɛ", "Ɛ"); ("ɜ", "Ɜ"); ("ɠ", "Ɠ"); ("ɡ", "Ɡ"); ("ɣ", "Ɣ"); ("ɥ", "Ɥ");
   ("ɦ", "Ɦ"); ("ɨ", "Ɨ"); ("ɩ", "Ɩ"); ("ɪ", "Ɪ"); ("ɫ", "Ɫ"); ("ɬ", "Ɬ");
   ("ɯ", "Ɯ"); ("ɱ", "Ɱ"); ("ɲ", "Ɲ"); ("ɵ", "Ɵ"); ("ɽ", "Ɽ"); ("ʀ", "Ʀ");
   ("ʂ", "Ʂ"); ("ʃ", "Ʃ"); ("ʇ", "Ʇ"); ("ʈ", "Ʈ"); ("ʉ", "Ʉ"); ("ʊ", "Ʊ");
   ("ʋ", "Ʋ"); ("ʌ", "Ʌ"); ("ʒ", "Ʒ"); ("ʝ", "Ʝ"); ("ʞ", "Ʞ"); ("ͅ", "Ι");
   ("ͱ", "Ͱ"); ("ͳ", "Ͳ"); ("ͷ", "Ͷ"); ("ͻ", "Ͻ"); ("ͼ", "Ͼ"); ("ͽ", "Ͽ");
   ("ΐ", "Ϊ́"); ("ά", "Ά"); ("έ", "Έ"); ("ή", "Ή"); ("ί", "Ί"); ("ΰ", "Ϋ́");
   ("α", "Α"); ("β", "Β"); ("γ", "Γ"); ("δ", "Δ"); ("ε", "Ε"); ("ζ", "Ζ");
   ("η", "Η"); ("θ", "Θ"); ("ι", "Ι"); ("κ", "Κ"); ("λ", "Λ"); ("μ", "Μ");
   ("ν", "Ν"); ("ξ", "Ξ"); ("ο", "Ο"); ("π", "Π"); ("ρ", "Ρ"); ("ς", "Σ");
   ("σ", "Σ"); ("τ", "Τ"); ("υ", "Υ"); ("φ", "Φ"); ("χ", "Χ"); ("ψ", "Ψ");
   ("ω", "Ω"); ("ϊ", "Ϊ"); ("ϋ", "Ϋ"); ("ό", "Ό"); ("ύ", "Ύ"); ("ώ", "Ώ");
   ("ϐ", "Β"); ("ϑ", "Θ"); ("ϕ", "Φ"); ("ϖ", "Π"); ("ϗ", "Ϗ"); ("ϙ", "Ϙ");
   ("ϛ", "Ϛ"); ("ϝ", "Ϝ"); ("ϟ", "Ϟ"); ("ϡ", "Ϡ"); ("ϣ", "Ϣ"); ("ϥ", "Ϥ");
   ("ϧ", "Ϧ"); ("ϩ", "Ϩ"); ("ϫ", "Ϫ"); ("ϭ", "Ϭ"); ("ϯ", "Ϯ"); ("ϰ", "Κ");
   ("ϱ", "Ρ"); ("ϲ", "Ϲ"); ("ϳ", "Ϳ"); ("ϵ", "Ε"); ("ϸ", "Ϸ"); ("ϻ", "Ϻ");
   ("а", "А"); ("б", "Б"); ("в", "В"); ("г", "Г"); ("д", "Д"); ("е", "Е");
   ("ж", "Ж"); ("з", "З"); ("и", "И"); ("й", "Й"); ("к", "К"); ("л", "Л");
   ("м", "М"); ("н", "Н"); ("о", "О"); ("п", "П"); ("р", "Р"); ("с", "С");
   ("т", "Т"); ("у", "У"); ("ф", "Ф"); ("х", "Х"); ("ц", "Ц"); ("ч", "Ч");
   ("ш", "Ш"); ("щ", "Щ"); ("ъ", "Ъ"); ("ы", "Ы"); ("ь", "Ь"); ("э", "Э");
   ("ю", "Ю"); ("я", "Я"); ("ѐ", "Ѐ"); ("ё", "Ё"); ("ђ", "Ђ"); ("ѓ", "Ѓ");
   ("є", "Є"); ("ѕ", "Ѕ"); ("і", "І"); ("ї", "Ї"); ("ј", "Ј"); ("љ", "Љ");
   ("њ", "Њ"); ("ћ", "Ћ"); ("ќ", "Ќ"); ("ѝ", "Ѝ"); ("ў", "Ў"); ("џ", "Џ");
   ("ѡ", "Ѡ"); ("ѣ", "Ѣ"); ("ѥ", "Ѥ"); ("ѧ", "Ѧ"); ("ѩ", "Ѩ"); ("ѫ", "Ѫ");
   ("ѭ", "Ѭ"); ("ѯ", "Ѯ"); ("ѱ", "Ѱ"); ("ѳ", "Ѳ"); ("ѵ", "Ѵ"); ("ѷ", "Ѷ");
   ("ѹ", "Ѹ"); ("ѻ", "Ѻ"); ("ѽ", "Ѽ"); ("ѿ", "Ѿ"); ("ҁ", "Ҁ"); ("ҋ", "Ҋ");
   ("ҍ", "Ҍ"); ("ҏ", "Ҏ"); ("ґ", "Ґ"); ("ғ", "Ғ"); ("ҕ", "Ҕ"); ("җ", "Җ");
   ("ҙ", "Ҙ"); ("қ", "Қ"); ("ҝ", "Ҝ"); ("ҟ", "Ҟ"); ("ҡ", "Ҡ"); ("ң", "Ң");
   ("ҥ", "Ҥ"); ("ҧ", "Ҧ"); ("ҩ", "Ҩ"); ("ҫ", "Ҫ"); ("ҭ", "Ҭ"); ("ү", "Ү");
   ("ұ", "Ұ"); ("ҳ", "Ҳ"); ("ҵ", "Ҵ"); ("ҷ", "Ҷ"); ("ҹ", "Ҹ"); ("һ", "Һ");
   ("ҽ", "Ҽ"); ("ҿ", "Ҿ"); ("ӂ", "Ӂ"); ("ӄ", "Ӄ"); ("ӆ", "Ӆ"); ("ӈ", "Ӈ");
   ("ӊ", "Ӊ"); ("ӌ", "Ӌ"); ("ӎ", "Ӎ"); ("ӏ", "Ӏ"); ("ӑ", "Ӑ"); ("ӓ", "Ӓ");
   ("ӕ", "Ӕ"); ("ӗ", "Ӗ"); ("ә", "Ә"); ("ӛ", "Ӛ"); ("ӝ", "Ӝ"); ("ӟ", "Ӟ");
   ("ӡ", "Ӡ"); ("ӣ", "Ӣ"); ("ӥ", "Ӥ"); ("ӧ", "Ӧ"); ("ө", "Ө"); ("ӫ", "Ӫ");
   ("ӭ", "Ӭ"); ("ӯ", "Ӯ"); ("ӱ", "Ӱ"); ("ӳ", "Ӳ"); ("ӵ", "Ӵ"); ("ӷ", "Ӷ");
   ("ӹ", "Ӹ"); ("ӻ", "Ӻ"); ("ӽ", "Ӽ"); ("ӿ", "Ӿ"); ("ԁ", "Ԁ"); ("ԃ", "Ԃ");
   ("ԅ", "Ԅ"); ("ԇ", "Ԇ"); ("ԉ", "Ԉ"); ("ԋ", "Ԋ"); ("ԍ", "Ԍ"); ("ԏ", "Ԏ");
   ("ԑ", "Ԑ"); ("ԓ", "Ԓ"); ("ԕ", "Ԕ"); ("ԗ", "Ԗ"); ("ԙ", "Ԙ"); ("ԛ", "Ԛ");
   ("ԝ", "Ԝ"); ("ԟ", "Ԟ"); ("ԡ", "Ԡ"); ("ԣ", "Ԣ"); ("ԥ", "Ԥ"); ("ԧ", "Ԧ");
   ("ԩ", "Ԩ"); ("ԫ", "Ԫ"); ("ԭ", "Ԭ"); ("ԯ", "Ԯ"); ("ա", "Ա"); ("բ", "Բ");
   ("գ", "Գ"); ("դ", "Դ"); ("ե", "Ե"); ("զ", "Զ"); ("է", "Է"); ("ը", "Ը");
   ("թ", "Թ"); ("ժ", "Ժ"); ("ի", "Ի"); ("լ", "Լ"); ("խ", "Խ"); ("ծ", "Ծ");
   ("կ", "Կ"); ("հ", "Հ"); ("ձ", "Ձ"); ("ղ", "Ղ"); ("ճ", "Ճ"); ("մ", "Մ");
   ("յ", "Յ"); ("ն", "Ն"); ("շ", "Շ"); ("ո", "Ո"); ("չ", "Չ"); ("պ", "Պ");
   ("ջ", "Ջ"); ("ռ", "Ռ"); ("ս", "Ս"); ("վ", "Վ"); ("տ", "Տ"); ("ր", "Ր");
   ("ց", "Ց"); ("ւ", "Ւ"); ("փ", "Փ"); ("ք", "Ք"); ("օ", "Օ"); ("ֆ", "Ֆ");
   ("և", "ԵՒ"); ("ა", "Ა"); ("ბ", "Ბ"); ("გ", "Გ"); ("დ", "Დ"); ("ე", "Ე");
   ("ვ", "Ვ"); ("ზ", "Ზ"); ("თ", "Თ"); ("ი", "Ი"); ("კ", "Კ"); ("ლ", "Ლ");
   ("მ", "Მ"); ("ნ", "Ნ"); ("ო", "Ო"); ("პ", "Პ"); ("ჟ", "Ჟ"); ("რ", "Რ");
   ("ს", "Ს"); ("ტ", "Ტ"); ("უ", "Უ"); ("ფ", "Ფ"); ("ქ", "Ქ"); ("ღ", "Ღ");
   ("ყ", "Ყ"); ("შ", "Შ"); ("ჩ", "Ჩ"); ("ც", "Ც"); ("ძ", "Ძ"); ("წ", "Წ");
   ("ჭ", "Ჭ"); ("ხ", "Ხ"); ("ჯ", "Ჯ"); ("ჰ", "Ჰ"); ("ჱ", "Ჱ"); ("ჲ", "Ჲ");
   ("ჳ", "Ჳ"); ("ჴ", "Ჴ"); ("ჵ", "Ჵ"); ("ჶ", "Ჶ"); ("ჷ", "Ჷ"); ("ჸ", "Ჸ");
   ("ჹ", "Ჹ"); ("ჺ", "Ჺ"); ("ჽ", "Ჽ"); ("ჾ", "Ჾ"); ("ჿ", "Ჿ"); ("ᏸ", "Ᏸ");
   ("ᏹ", "Ᏹ"); ("ᏺ", "Ᏺ"); ("ᏻ", "Ᏻ"); ("ᏼ", "Ᏼ"); ("ᏽ", "Ᏽ"); ("ᲀ", "В");
   ("ᲁ", "Д"); ("ᲂ", "О"); ("ᲃ", "С"); ("ᲄ", "Т"); ("ᲅ", "Т"); ("ᲆ", "Ъ");
   ("ᲇ", "Ѣ"); ("ᲈ", "Ꙋ"); ("ᵹ", "Ᵹ"); ("ᵽ", "Ᵽ"); ("ᶎ", "Ᶎ"); ("ḁ", "Ḁ");
   ("ḃ", "Ḃ"); ("ḅ", "Ḅ"); ("ḇ", "Ḇ"); ("ḉ", "Ḉ"); ("ḋ", "Ḋ"); ("ḍ", "Ḍ");
   ("ḏ", "Ḏ"); ("ḑ", "Ḑ"); ("ḓ", "Ḓ"); ("ḕ", "Ḕ"); ("ḗ", "Ḗ"); ("ḙ", "Ḙ");
   ("ḛ", "Ḛ"); ("ḝ", "Ḝ"); ("ḟ", "Ḟ"); ("ḡ", "Ḡ"); ("ḣ", "Ḣ"); ("ḥ", "Ḥ");
   ("ḧ", "Ḧ"); ("ḩ", "Ḩ"); ("ḫ", "Ḫ"); ("ḭ", "Ḭ"); ("ḯ", "Ḯ"); ("ḱ", "Ḱ");
   ("ḳ", "Ḳ"); ("ḵ", "Ḵ"); ("ḷ", "Ḷ"); ("ḹ", "Ḹ"); ("ḻ", "Ḻ"); ("ḽ", "Ḽ");
   ("ḿ", "Ḿ"); ("ṁ", "Ṁ"); ("ṃ", "Ṃ"); ("ṅ", "Ṅ"); ("ṇ", "Ṇ"); ("ṉ", "Ṉ");
   ("ṋ", "Ṋ"); ("ṍ", "Ṍ"); ("ṏ", "Ṏ"); ("ṑ", "Ṑ"); ("ṓ", "Ṓ"); ("ṕ", "Ṕ");
   ("ṗ", "Ṗ"); ("ṙ", "Ṙ"); ("ṛ", "Ṛ"); ("ṝ", "Ṝ"); ("ṟ", "Ṟ"); ("ṡ", "Ṡ");
   ("ṣ", "Ṣ"); ("ṥ", "Ṥ"); ("ṧ", "Ṧ"); ("ṩ", "Ṩ"); ("ṫ", "Ṫ"); ("ṭ", "Ṭ");
   ("ṯ", "Ṯ"); ("ṱ", "Ṱ"); ("ṳ", "Ṳ"); ("ṵ", "Ṵ"); ("ṷ", "Ṷ"); ("ṹ", "Ṹ");
   ("ṻ", "Ṻ"); ("ṽ", "Ṽ"); ("ṿ", "Ṿ"); ("ẁ", "Ẁ"); ("ẃ", "Ẃ"); ("ẅ", "Ẅ");
   ("ẇ", "Ẇ"); ("ẉ", "Ẉ"); ("ẋ", "Ẋ"); ("ẍ", "Ẍ"); ("ẏ", "Ẏ"); ("ẑ", "Ẑ");
   ("ẓ", "Ẓ"); ("ẕ", "Ẕ"); ("ẖ", "H̱"); ("ẗ", "T̈"); ("ẘ", "W̊"); ("ẙ", "Y̊");
   ("ẚ", "Aʾ"); ("ẛ", "Ṡ"); ("ạ", "Ạ"); ("ả", "Ả"); ("ấ", "Ấ"); ("ầ", "Ầ");
   ("ẩ", "Ẩ"); ("ẫ", "Ẫ"); ("ậ", "Ậ"); ("ắ", "Ắ"); ("ằ", "Ằ"); ("ẳ", "Ẳ");
   ("ẵ", "Ẵ"); ("ặ", "Ặ"); ("ẹ", "Ẹ"); ("ẻ", "Ẻ"); ("ẽ", "Ẽ"); ("ế", "Ế");
   ("ề", "Ề"); ("ể", "Ể"); ("ễ", "Ễ"); ("ệ", "Ệ"); ("ỉ", "Ỉ"); ("ị", "Ị");
   ("ọ", "Ọ"); ("ỏ", "Ỏ"); ("ố", "Ố"); ("ồ", "Ồ"); ("ổ", "Ổ"); ("ỗ", "Ỗ");
   ("ộ", "Ộ"); ("ớ", "Ớ"); ("ờ", "Ờ"); ("ở", "Ở"); ("ỡ", "Ỡ"); ("ợ", "Ợ");
   ("ụ", "Ụ"); ("ủ", "Ủ"); ("ứ", "Ứ"); ("ừ", "Ừ"); ("ử", "Ử"); ("ữ", "Ữ");
   ("ự", "Ự"); ("ỳ", "Ỳ"); ("ỵ", "Ỵ"); ("ỷ", "Ỷ"); ("ỹ", "Ỹ"); ("ỻ", "Ỻ");
   ("ỽ", "Ỽ"); ("ỿ", "Ỿ"); ("ἀ", "Ἀ"); ("ἁ", "Ἁ"); ("ἂ", "Ἂ"); ("ἃ", "Ἃ");
   ("ἄ", "Ἄ"); ("ἅ", "Ἅ"); ("ἆ", "Ἆ"); ("ἇ", "Ἇ"); ("ἐ", "Ἐ"); ("ἑ", "Ἑ");
   ("ἒ", "Ἒ"); ("ἓ", "Ἓ"); ("ἔ", "Ἔ"); ("ἕ", "Ἕ"); ("ἠ", "Ἠ"); ("ἡ", "Ἡ");
   ("ἢ", "Ἢ"); ("ἣ", "Ἣ"); ("ἤ", "Ἤ"); ("ἥ", "Ἥ"); ("ἦ", "Ἦ"); ("ἧ", "Ἧ");
   ("ἰ", "Ἰ"); ("ἱ", "Ἱ"); ("ἲ", "Ἲ"); ("ἳ", "Ἳ"); ("ἴ", "Ἴ"); ("ἵ", "Ἵ");
   ("ἶ", "Ἶ"); ("ἷ", "Ἷ"); ("ὀ", "Ὀ"); ("ὁ", "Ὁ"); ("ὂ", "Ὂ"); ("ὃ", "Ὃ");
   ("ὄ", "Ὄ"); ("ὅ", "Ὅ"); ("ὐ", "Υ̓"); ("ὑ", "Ὑ"); ("ὒ", "Υ̓̀"); ("ὓ", "Ὓ");
   ("ὔ", "Υ̓́"); ("ὕ", "Ὕ"); ("ὖ", "Υ̓͂"); ("ὗ", "Ὗ"); ("ὠ", "Ὠ"); ("ὡ", "Ὡ");
   ("ὢ", "Ὢ"); ("ὣ", "Ὣ"); ("ὤ", "Ὤ"); ("ὥ", "Ὥ"); ("ὦ", "Ὦ"); ("ὧ", "Ὧ");
   ("ὰ", "Ὰ"); ("ά", "Ά"); ("ὲ", "Ὲ"); ("έ", "Έ"); ("ὴ", "Ὴ"); ("ή", "Ή");
   ("ὶ", "Ὶ"); ("ί", "Ί"); ("ὸ", "Ὸ"); ("ό", "Ό"); ("ὺ", "Ὺ"); ("ύ", "Ύ");
   ("ὼ", "Ὼ"); ("ώ", "Ώ"); ("ᾀ", "ἈΙ"); ("ᾁ", "ἉΙ"); ("ᾂ", "ἊΙ"); ("ᾃ", "ἋΙ");
   ("ᾄ", "ἌΙ"); ("ᾅ", "ἍΙ"); ("ᾆ", "ἎΙ"); ("ᾇ", "ἏΙ"); ("ᾈ", "ἈΙ");
   ("ᾉ", "ἉΙ"); ("ᾊ", "ἊΙ"); ("ᾋ", "ἋΙ"); ("ᾌ", "ἌΙ"); ("ᾍ", "ἍΙ");
   ("ᾎ", "ἎΙ"); ("ᾏ", "ἏΙ"); ("ᾐ", "ἨΙ"); ("ᾑ", "ἩΙ"); ("ᾒ", "ἪΙ");
   ("ᾓ", "ἫΙ"); ("ᾔ", "ἬΙ"); ("ᾕ", "ἭΙ"); ("ᾖ", "ἮΙ"); ("ᾗ", "ἯΙ");
   ("ᾘ", "ἨΙ"); ("ᾙ", "ἩΙ"); ("ᾚ", "ἪΙ"); ("ᾛ", "ἫΙ"); ("ᾜ", "ἬΙ");
   ("ᾝ", "ἭΙ"); ("ᾞ", "ἮΙ"); ("ᾟ", "ἯΙ"); ("ᾠ", "ὨΙ"); ("ᾡ", "ὩΙ");
   ("ᾢ", "ὪΙ"); ("ᾣ", "ὫΙ"); ("ᾤ", "ὬΙ"); ("ᾥ", "ὭΙ"); ("ᾦ", "ὮΙ");
   ("ᾧ", "ὯΙ"); ("ᾨ", "ὨΙ"); ("ᾩ", "ὩΙ"); ("ᾪ", "ὪΙ"); ("ᾫ", "ὫΙ");
   ("ᾬ", "ὬΙ"); ("ᾭ", "ὭΙ"); ("ᾮ", "ὮΙ"); ("ᾯ", "ὯΙ"); ("ᾰ", "Ᾰ"); ("ᾱ", "Ᾱ");
   ("ᾲ", "ᾺΙ"); ("ᾳ", "ΑΙ"); ("ᾴ", "ΆΙ"); ("ᾶ", "Α͂"); ("ᾷ", "Α͂Ι");
   ("ᾼ", "ΑΙ"); ("ι", "Ι"); ("ῂ", "ῊΙ"); ("ῃ", "ΗΙ"); ("ῄ", "ΉΙ");
   ("ῆ", "Η͂"); ("ῇ", "Η͂Ι"); ("ῌ", "ΗΙ"); ("ῐ", "Ῐ"); ("ῑ", "Ῑ");
   ("ῒ", "Ϊ̀"); ("ΐ", "Ϊ́"); ("ῖ", "Ι͂"); ("ῗ", "Ϊ͂"); ("ῠ", "Ῠ");
   ("ῡ", "Ῡ"); ("ῢ", "Ϋ̀"); ("ΰ", "Ϋ́"); ("ῤ", "Ρ̓"); ("ῥ", "Ῥ");
   ("ῦ", "Υ͂"); ("ῧ", "Ϋ͂"); ("ῲ", "ῺΙ"); ("ῳ", "ΩΙ"); ("ῴ", "ΏΙ");
   ("ῶ", "Ω͂"); ("ῷ", "Ω͂Ι"); ("ῼ", "ΩΙ"); ("ⅎ", "Ⅎ"); ("ⅰ", "Ⅰ"); ("ⅱ", "Ⅱ");
   ("ⅲ", "Ⅲ"); ("ⅳ", "Ⅳ"); ("ⅴ", "Ⅴ"); ("ⅵ", "Ⅵ"); ("ⅶ", "Ⅶ"); ("ⅷ", "Ⅷ");
   ("ⅸ", "Ⅸ"); ("ⅹ", "Ⅹ"); ("ⅺ", "Ⅺ"); ("ⅻ", "Ⅻ"); ("ⅼ", "Ⅼ"); ("ⅽ", "Ⅽ");
   ("ⅾ", "Ⅾ"); ("ⅿ", "Ⅿ"); ("ↄ", "Ↄ"); ("ⓐ", "Ⓐ"); ("ⓑ", "Ⓑ"); ("ⓒ", "Ⓒ");
   ("ⓓ", "Ⓓ"); ("ⓔ", "Ⓔ"); ("ⓕ", "Ⓕ"); ("ⓖ", "Ⓖ"); ("ⓗ", "Ⓗ"); ("ⓘ", "Ⓘ");
   ("ⓙ", "Ⓙ"); ("ⓚ", "Ⓚ"); ("ⓛ", "Ⓛ"); ("ⓜ", "Ⓜ"); ("ⓝ", "Ⓝ"); ("ⓞ", "Ⓞ");
   ("ⓟ", "Ⓟ"); ("ⓠ", "Ⓠ"); ("ⓡ", "Ⓡ"); ("ⓢ", "Ⓢ"); ("ⓣ", "Ⓣ"); ("ⓤ", "Ⓤ");
   ("ⓥ", "Ⓥ"); ("ⓦ", "Ⓦ"); ("ⓧ", "Ⓧ"); ("ⓨ", "Ⓨ"); ("ⓩ", "Ⓩ"); ("ⰰ", "Ⰰ");
   ("ⰱ", "Ⰱ"); ("ⰲ", "Ⰲ"); ("ⰳ", "Ⰳ"); ("ⰴ", "Ⰴ"); ("ⰵ", "Ⰵ"); ("ⰶ", "Ⰶ");
   ("ⰷ", "Ⰷ"); ("ⰸ", "Ⰸ"); ("ⰹ", "Ⰹ"); ("ⰺ", "Ⰺ"); ("ⰻ", "Ⰻ"); ("ⰼ", "Ⰼ");
   ("ⰽ", "Ⰽ"); ("ⰾ", "Ⰾ"); ("ⰿ", "Ⰿ"); ("ⱀ", "Ⱀ"); ("ⱁ", "Ⱁ"); ("ⱂ", "Ⱂ");
   ("ⱃ", "Ⱃ"); ("ⱄ", "Ⱄ"); ("ⱅ", "Ⱅ"); ("ⱆ", "Ⱆ"); ("ⱇ", "Ⱇ"); ("ⱈ", "Ⱈ");
   ("ⱉ", "Ⱉ"); ("ⱊ", "Ⱊ"); ("ⱋ", "Ⱋ"); ("ⱌ", "Ⱌ"); ("ⱍ", "Ⱍ"); ("ⱎ", "Ⱎ");
   ("ⱏ", "Ⱏ"); ("ⱐ", "Ⱐ"); ("ⱑ", "Ⱑ"); ("ⱒ", "Ⱒ"); ("ⱓ", "Ⱓ"); ("ⱔ", "Ⱔ");
   ("ⱕ", "Ⱕ"); ("ⱖ", "Ⱖ"); ("ⱗ", "Ⱗ"); ("ⱘ", "Ⱘ"); ("ⱙ", "Ⱙ"); ("ⱚ", "Ⱚ");
   ("ⱛ", "Ⱛ"); ("ⱜ", "Ⱜ"); ("ⱝ", "Ⱝ"); ("ⱞ", "Ⱞ"); ("ⱟ", "Ⱟ"); ("ⱡ", "Ⱡ");
   ("ⱥ", "Ⱥ"); ("ⱦ", "Ⱦ"); ("ⱨ", "Ⱨ"); ("ⱪ", "Ⱪ"); ("ⱬ", "Ⱬ"); ("ⱳ", "Ⱳ");
   ("ⱶ", "Ⱶ"); ("ⲁ", "Ⲁ"); ("ⲃ", "Ⲃ"); ("ⲅ", "Ⲅ"); ("ⲇ", "Ⲇ"); ("ⲉ", "Ⲉ");
   ("ⲋ", "Ⲋ"); ("ⲍ", "Ⲍ"); ("ⲏ", "Ⲏ"); ("ⲑ", "Ⲑ"); ("ⲓ", "Ⲓ"); ("ⲕ", "Ⲕ");
   ("ⲗ", "Ⲗ"); ("ⲙ", "Ⲙ"); ("ⲛ", "Ⲛ"); ("ⲝ", "Ⲝ"); ("ⲟ", "Ⲟ"); ("ⲡ", "Ⲡ");
   ("ⲣ", "Ⲣ"); ("ⲥ", "Ⲥ"); ("ⲧ", "Ⲧ"); ("ⲩ", "Ⲩ"); ("ⲫ", "Ⲫ"); ("ⲭ", "Ⲭ");
   ("ⲯ", "Ⲯ"); ("ⲱ", "Ⲱ"); ("ⲳ", "Ⲳ"); ("ⲵ", "Ⲵ"); ("ⲷ", "Ⲷ"); ("ⲹ", "Ⲹ");
   ("ⲻ", "Ⲻ"); ("ⲽ", "Ⲽ"); ("ⲿ", "Ⲿ"); ("ⳁ", "Ⳁ"); ("ⳃ", "Ⳃ"); ("ⳅ", "Ⳅ");
   ("ⳇ", "Ⳇ"); ("ⳉ", "Ⳉ"); ("ⳋ", "Ⳋ"); ("ⳍ", "Ⳍ"); ("ⳏ", "Ⳏ"); ("ⳑ", "Ⳑ");
   ("ⳓ", "Ⳓ"); ("ⳕ", "Ⳕ"); ("ⳗ", "Ⳗ"); ("ⳙ", "Ⳙ"); ("ⳛ", "Ⳛ"); ("ⳝ", "Ⳝ");
   ("ⳟ", "Ⳟ"); ("ⳡ", "Ⳡ"); ("ⳣ", "Ⳣ"); ("ⳬ", "Ⳬ"); ("ⳮ", "Ⳮ"); ("ⳳ", "Ⳳ");
   ("ⴀ", "Ⴀ"); ("ⴁ", "Ⴁ"); ("ⴂ", "Ⴂ"); ("ⴃ", "Ⴃ"); ("ⴄ", "Ⴄ"); ("ⴅ", "Ⴅ");
   ("ⴆ", "Ⴆ"); ("ⴇ", "Ⴇ"); ("ⴈ", "Ⴈ"); ("ⴉ", "Ⴉ"); ("ⴊ", "Ⴊ"); ("ⴋ", "Ⴋ");
   ("ⴌ", "Ⴌ"); ("ⴍ", "Ⴍ"); ("ⴎ", "Ⴎ"); ("ⴏ", "Ⴏ"); ("ⴐ", "Ⴐ"); ("ⴑ", "Ⴑ");
   ("ⴒ", "Ⴒ"); ("ⴓ", "Ⴓ"); ("ⴔ", "Ⴔ"); ("ⴕ", "Ⴕ"); ("ⴖ", "Ⴖ"); ("ⴗ", "Ⴗ");
   ("ⴘ", "Ⴘ"); ("ⴙ", "Ⴙ"); ("ⴚ", "Ⴚ"); ("ⴛ", "Ⴛ"); ("ⴜ", "Ⴜ"); ("ⴝ", "Ⴝ");
   ("ⴞ", "Ⴞ"); ("ⴟ", "Ⴟ"); ("ⴠ", "Ⴠ"); ("ⴡ", "Ⴡ"); ("ⴢ", "Ⴢ"); ("ⴣ", "Ⴣ");
   ("ⴤ", "Ⴤ"); ("ⴥ", "Ⴥ"); ("ⴧ", "Ⴧ"); ("ⴭ", "Ⴭ"); ("ꙁ", "Ꙁ"); ("ꙃ", "Ꙃ");
   ("ꙅ", "Ꙅ"); ("ꙇ", "Ꙇ"); ("ꙉ", "Ꙉ"); ("ꙋ", "Ꙋ"); ("ꙍ", "Ꙍ"); ("ꙏ", "Ꙏ");
   ("ꙑ", "Ꙑ"); ("ꙓ", "Ꙓ"); ("ꙕ", "Ꙕ"); ("ꙗ", "Ꙗ"); ("ꙙ", "Ꙙ"); ("ꙛ", "Ꙛ");
   ("ꙝ", "Ꙝ"); ("ꙟ", "Ꙟ"); ("ꙡ", "Ꙡ"); ("ꙣ", "Ꙣ"); ("ꙥ", "Ꙥ"); ("ꙧ", "Ꙧ");
   ("ꙩ", "Ꙩ"); ("ꙫ", "Ꙫ"); ("ꙭ", "Ꙭ"); ("ꚁ", "Ꚁ"); ("ꚃ", "Ꚃ"); ("ꚅ", "Ꚅ");
   ("ꚇ", "Ꚇ"); ("ꚉ", "Ꚉ"); ("ꚋ", "Ꚋ"); ("ꚍ", "Ꚍ"); ("ꚏ", "Ꚏ"); ("ꚑ", "Ꚑ");
   ("ꚓ", "Ꚓ"); ("ꚕ", "Ꚕ"); ("ꚗ", "Ꚗ"); ("ꚙ", "Ꚙ"); ("ꚛ", "Ꚛ"); ("ꜣ", "Ꜣ");
   ("ꜥ", "Ꜥ"); ("ꜧ", "Ꜧ"); ("ꜩ", "Ꜩ"); ("ꜫ", "Ꜫ"); ("ꜭ", "Ꜭ"); ("ꜯ", "Ꜯ");
   ("ꜳ", "Ꜳ"); ("ꜵ", "Ꜵ"); ("ꜷ", "Ꜷ"); ("ꜹ", "Ꜹ"); ("ꜻ", "Ꜻ"); ("ꜽ", "Ꜽ");
   ("ꜿ", "Ꜿ"); ("ꝁ", "Ꝁ"); ("ꝃ", "Ꝃ"); ("ꝅ", "Ꝅ"); ("ꝇ", "Ꝇ"); ("ꝉ", "Ꝉ");
   ("ꝋ", "Ꝋ"); ("ꝍ", "Ꝍ"); ("ꝏ", "Ꝏ"); ("ꝑ", "Ꝑ"); ("ꝓ", "Ꝓ"); ("ꝕ", "Ꝕ");
   ("ꝗ", "Ꝗ"); ("ꝙ", "Ꝙ"); ("ꝛ", "Ꝛ"); ("ꝝ", "Ꝝ"); ("ꝟ", "Ꝟ"); ("ꝡ", "Ꝡ");
   ("ꝣ", "Ꝣ"); ("ꝥ", "Ꝥ"); ("ꝧ", "Ꝧ"); ("ꝩ", "Ꝩ"); ("ꝫ", "Ꝫ"); ("ꝭ", "Ꝭ");
   ("ꝯ", "Ꝯ"); ("ꝺ", "Ꝺ"); ("ꝼ", "Ꝼ"); ("ꝿ", "Ꝿ"); ("ꞁ", "Ꞁ"); ("ꞃ", "Ꞃ");
   ("ꞅ", "Ꞅ"); ("ꞇ", "Ꞇ"); ("ꞌ", "Ꞌ"); ("ꞑ", "Ꞑ"); ("ꞓ", "Ꞓ"); ("ꞔ", "Ꞔ");
   ("ꞗ", "Ꞗ"); ("ꞙ", "Ꞙ"); ("ꞛ", "Ꞛ"); ("ꞝ", "Ꞝ"); ("ꞟ", "Ꞟ"); ("ꞡ", "Ꞡ");
   ("ꞣ", "Ꞣ"); ("ꞥ", "Ꞥ"); ("ꞧ", "Ꞧ"); ("ꞩ", "Ꞩ"); ("ꞵ", "Ꞵ"); ("ꞷ", "Ꞷ");
   ("ꞹ", "Ꞹ"); ("ꞻ", "Ꞻ"); ("ꞽ", "Ꞽ"); ("ꞿ", "Ꞿ"); ("ꟁ", "Ꟁ"); ("ꟃ", "Ꟃ");
   ("ꟈ", "Ꟈ"); ("ꟊ", "Ꟊ"); ("ꟑ", "Ꟑ"); ("ꟗ", "Ꟗ"); ("ꟙ", "Ꟙ"); ("ꟶ", "Ꟶ");
   ("ꭓ", "Ꭓ"); ("ꭰ", "Ꭰ"); ("ꭱ", "Ꭱ"); ("ꭲ", "Ꭲ"); ("ꭳ", "Ꭳ"); ("ꭴ", "Ꭴ");
   ("ꭵ", "Ꭵ"); ("ꭶ", "Ꭶ"); ("ꭷ", "Ꭷ"); ("ꭸ", "Ꭸ"); ("ꭹ", "Ꭹ"); ("ꭺ", "Ꭺ");
   ("ꭻ", "Ꭻ"); ("ꭼ", "Ꭼ"); ("ꭽ", "Ꭽ"); ("ꭾ", "Ꭾ"); ("ꭿ", "Ꭿ"); ("ꮀ", "Ꮀ");
   ("ꮁ", "Ꮁ"); ("ꮂ", "Ꮂ"); ("ꮃ", "Ꮃ"); ("ꮄ", "Ꮄ"); ("ꮅ", "Ꮅ"); ("ꮆ", "Ꮆ");
   ("ꮇ", "Ꮇ"); ("ꮈ", "Ꮈ"); ("ꮉ", "Ꮉ"); ("ꮊ", "Ꮊ"); ("ꮋ", "Ꮋ"); ("ꮌ", "Ꮌ");
   ("ꮍ", "Ꮍ"); ("ꮎ", "Ꮎ"); ("ꮏ", "Ꮏ"); ("ꮐ", "Ꮐ"); ("ꮑ", "Ꮑ"); ("ꮒ", "Ꮒ");
   ("ꮓ", "Ꮓ"); ("ꮔ", "Ꮔ"); ("ꮕ", "Ꮕ"); ("ꮖ", "Ꮖ"); ("ꮗ", "Ꮗ"); ("ꮘ", "Ꮘ");
   ("ꮙ", "Ꮙ"); ("ꮚ", "Ꮚ"); ("ꮛ", "Ꮛ"); ("ꮜ", "Ꮜ"); ("ꮝ", "Ꮝ"); ("ꮞ", "Ꮞ");
   ("ꮟ", "Ꮟ"); ("ꮠ", "Ꮠ"); ("ꮡ", "Ꮡ"); ("ꮢ", "Ꮢ"); ("ꮣ", "Ꮣ"); ("ꮤ", "Ꮤ");
   ("ꮥ", "Ꮥ"); ("ꮦ", "Ꮦ"); ("ꮧ", "Ꮧ"); ("ꮨ", "Ꮨ"); ("ꮩ", "Ꮩ"); ("ꮪ", "Ꮪ");
   ("ꮫ", "Ꮫ"); ("ꮬ", "Ꮬ"); ("ꮭ", "Ꮭ"); ("ꮮ", "Ꮮ"); ("ꮯ", "Ꮯ"); ("ꮰ", "Ꮰ");
   ("ꮱ", "Ꮱ"); ("ꮲ", "Ꮲ"); ("ꮳ", "Ꮳ"); ("ꮴ", "Ꮴ"); ("ꮵ", "Ꮵ"); ("ꮶ", "Ꮶ");
   ("ꮷ", "Ꮷ"); ("ꮸ", "Ꮸ"); ("ꮹ", "Ꮹ"); ("ꮺ", "Ꮺ"); ("ꮻ", "Ꮻ"); ("ꮼ", "Ꮼ");
   ("ꮽ", "Ꮽ"); ("ꮾ", "Ꮾ"); ("ꮿ", "Ꮿ"); ("ﬀ", "FF"); ("ﬁ", "FI"); ("ﬂ", "FL");
   ("ﬃ", "FFI"); ("ﬄ", "FFL"); ("ﬅ", "ST"); ("ﬆ", "ST"); ("ﬓ", "ՄՆ");
   ("ﬔ", "ՄԵ"); ("ﬕ", "ՄԻ"); ("ﬖ", "ՎՆ"); ("ﬗ", "ՄԽ"); ("ａ", "Ａ"); ("ｂ", "Ｂ");
   ("ｃ", "Ｃ"); ("ｄ", "Ｄ"); ("ｅ", "Ｅ"); ("ｆ", "Ｆ"); ("ｇ", "Ｇ"); ("ｈ", "Ｈ");
   ("ｉ", "Ｉ"); ("ｊ", "Ｊ"); ("ｋ", "Ｋ"); ("ｌ", "Ｌ"); ("ｍ", "Ｍ"); ("ｎ", "Ｎ");
   ("ｏ", "Ｏ"); ("ｐ", "Ｐ"); ("ｑ", "Ｑ"); ("ｒ", "Ｒ"); ("ｓ", "Ｓ"); ("ｔ", "Ｔ");
   ("ｕ", "Ｕ"); ("ｖ", "Ｖ"); ("ｗ", "Ｗ"); ("ｘ", "Ｘ"); ("ｙ", "Ｙ"); ("ｚ", "Ｚ");
   ("𐐨", "𐐀"); ("𐐩", "𐐁"); ("𐐪", "𐐂"); ("𐐫", "𐐃"); ("𐐬", "𐐄"); ("𐐭", "𐐅");
   ("𐐮", "𐐆"); ("𐐯", "𐐇"); ("𐐰", "𐐈"); ("𐐱", "𐐉"); ("𐐲", "𐐊"); ("𐐳", "𐐋");
   ("𐐴", "𐐌"); ("𐐵", "𐐍"); ("𐐶", "𐐎"); ("𐐷", "𐐏"); ("𐐸", "𐐐"); ("𐐹", "𐐑");
   ("𐐺", "𐐒"); ("𐐻", "𐐓"); ("𐐼", "𐐔"); ("𐐽", "𐐕"); ("𐐾", "𐐖"); ("𐐿", "𐐗");
   ("𐑀", "𐐘"); ("𐑁", "𐐙"); ("𐑂", "𐐚"); ("𐑃", "𐐛"); ("𐑄", "𐐜"); ("𐑅", "𐐝");
   ("𐑆", "𐐞"); ("𐑇", "𐐟"); ("𐑈", "𐐠"); ("𐑉", "𐐡"); ("𐑊", "𐐢"); ("𐑋", "𐐣");
   ("𐑌", "𐐤"); ("𐑍", "𐐥"); ("𐑎", "𐐦"); ("𐑏", "𐐧"); ("𐓘", "𐒰"); ("𐓙", "𐒱");
   ("𐓚", "𐒲"); ("𐓛", "𐒳"); ("𐓜", "𐒴"); ("𐓝", "𐒵"); ("𐓞", "𐒶"); ("𐓟", "𐒷");
   ("𐓠", "𐒸"); ("𐓡", "𐒹"); ("𐓢", "𐒺"); ("𐓣", "𐒻"); ("𐓤", "𐒼"); ("𐓥", "𐒽");
   ("𐓦", "𐒾"); ("𐓧", "𐒿"); ("𐓨", "𐓀"); ("𐓩", "𐓁"); ("𐓪", "𐓂"); ("𐓫", "𐓃");
   ("𐓬", "𐓄"); ("𐓭", "𐓅"); ("𐓮", "𐓆"); ("𐓯", "𐓇"); ("𐓰", "𐓈"); ("𐓱", "𐓉");
   ("𐓲", "𐓊"); ("𐓳", "𐓋"); ("𐓴", "𐓌"); ("𐓵", "𐓍"); ("𐓶", "𐓎"); ("𐓷", "𐓏");
   ("𐓸", "𐓐"); ("𐓹", "𐓑"); ("𐓺", "𐓒"); ("𐓻", "𐓓"); ("𐖗", "𐕰"); ("𐖘", "𐕱");
   ("𐖙", "𐕲"); ("𐖚", "𐕳"); ("𐖛", "𐕴"); ("𐖜", "𐕵"); ("𐖝", "𐕶"); ("𐖞", "𐕷");
   ("𐖟", "𐕸"); ("𐖠", "𐕹"); ("𐖡", "𐕺"); ("𐖣", "𐕼"); ("𐖤", "𐕽"); ("𐖥", "𐕾");
   ("𐖦", "𐕿"); ("𐖧", "𐖀"); ("𐖨", "𐖁"); ("𐖩", "𐖂"); ("𐖪", "𐖃"); ("𐖫", "𐖄");
   ("𐖬", "𐖅"); ("𐖭", "𐖆"); ("𐖮", "𐖇"); ("𐖯", "𐖈"); ("𐖰", "𐖉"); ("𐖱", "𐖊");
   ("𐖳", "𐖌"); ("𐖴", "𐖍"); ("𐖵", "𐖎"); ("𐖶", "𐖏"); ("𐖷", "𐖐"); ("𐖸", "𐖑");
   ("𐖹", "𐖒"); ("𐖻", "𐖔"); ("𐖼", "𐖕"); ("𐳀", "𐲀"); ("𐳁", "𐲁"); ("𐳂", "𐲂");
   ("𐳃", "𐲃"); ("𐳄", "𐲄"); ("𐳅", "𐲅"); ("𐳆", "𐲆"); ("𐳇", "𐲇"); ("𐳈", "𐲈");
   ("𐳉", "𐲉"); ("𐳊", "𐲊"); ("𐳋", "𐲋"); ("𐳌", "𐲌"); ("𐳍", "𐲍"); ("𐳎", "𐲎");
   ("𐳏", "𐲏"); ("𐳐", "𐲐"); ("𐳑", "𐲑"); ("𐳒", "𐲒"); ("𐳓", "𐲓"); ("𐳔", "𐲔");
   ("𐳕", "𐲕"); ("𐳖", "𐲖"); ("𐳗", "𐲗"); ("𐳘", "𐲘"); ("𐳙", "𐲙"); ("𐳚", "𐲚");
   ("𐳛", "𐲛"); ("𐳜", "𐲜"); ("𐳝", "𐲝"); ("𐳞", "𐲞"); ("𐳟", "𐲟"); ("𐳠", "𐲠");
   ("𐳡", "𐲡"); ("𐳢", "𐲢"); ("𐳣", "𐲣"); ("𐳤", "𐲤"); ("𐳥", "𐲥"); ("𐳦", "𐲦");
   ("𐳧", "𐲧"); ("𐳨", "𐲨"); ("𐳩", "𐲩"); ("𐳪", "𐲪"); ("𐳫", "𐲫"); ("𐳬", "𐲬");
   ("𐳭", "𐲭"); ("𐳮", "𐲮"); ("𐳯", "𐲯"); ("𐳰", "𐲰"); ("𐳱", "𐲱"); ("𐳲", "𐲲");
   ("𑣀", "𑢠"); ("𑣁", "𑢡"); ("𑣂", "𑢢"); ("𑣃", "𑢣"); ("𑣄", "𑢤"); ("𑣅", "𑢥");
   ("𑣆", "𑢦"); ("𑣇", "𑢧"); ("𑣈", "𑢨"); ("𑣉", "𑢩"); ("𑣊", "𑢪"); ("𑣋", "𑢫");
   ("𑣌", "𑢬"); ("𑣍", "𑢭"); ("𑣎", "𑢮"); ("𑣏", "𑢯"); ("𑣐", "𑢰"); ("𑣑", "𑢱");
   ("𑣒", "𑢲"); ("𑣓", "𑢳"); ("𑣔", "𑢴"); ("𑣕", "𑢵"); ("𑣖", "𑢶"); ("𑣗", "𑢷");
   ("𑣘", "𑢸"); ("𑣙", "𑢹"); ("𑣚", "𑢺"); ("𑣛", "𑢻"); ("𑣜", "𑢼"); ("𑣝", "𑢽");
   ("𑣞", "𑢾"); ("𑣟", "𑢿"); ("𖹠", "𖹀"); ("𖹡", "𖹁"); ("𖹢", "𖹂"); ("𖹣", "𖹃");
   ("𖹤", "𖹄"); ("𖹥", "𖹅"); ("𖹦", "𖹆"); ("𖹧", "𖹇"); ("𖹨", "𖹈"); ("𖹩", "𖹉");
   ("𖹪", "𖹊"); ("𖹫", "𖹋"); ("𖹬", "𖹌"); ("𖹭", "𖹍"); ("𖹮", "𖹎"); ("𖹯", "𖹏");
   ("𖹰", "𖹐"); ("𖹱", "𖹑"); ("𖹲", "𖹒"); ("𖹳", "𖹓"); ("𖹴", "𖹔"); ("𖹵", "𖹕");
   ("𖹶", "𖹖"); ("𖹷", "𖹗"); ("𖹸", "𖹘"); ("𖹹", "𖹙"); ("𖹺", "𖹚"); ("𖹻", "𖹛");
   ("𖹼", "𖹜"); ("𖹽", "𖹝"); ("𖹾", "𖹞"); ("𖹿", "𖹟"); ("𞤢", "𞤀"); ("𞤣", "𞤁");
   ("𞤤", "𞤂"); ("𞤥", "𞤃"); ("𞤦", "𞤄"); ("𞤧", "𞤅"); ("𞤨", "𞤆"); ("𞤩", "𞤇");
   ("𞤪", "𞤈"); ("𞤫", "𞤉"); ("𞤬", "𞤊"); ("𞤭", "𞤋"); ("𞤮", "𞤌"); ("𞤯", "𞤍");
   ("𞤰", "𞤎"); ("𞤱", "𞤏"); ("𞤲", "𞤐"); ("𞤳", "𞤑"); ("𞤴", "𞤒"); ("𞤵", "𞤓");
   ("𞤶", "𞤔"); ("𞤷", "𞤕"); ("𞤸", "𞤖"); ("𞤹", "𞤗"); ("𞤺", "𞤘"); ("𞤻", "𞤙");
   ("𞤼", "𞤚"); ("𞤽", "𞤛"); ("𞤾", "𞤜"); ("𞤿", "𞤝"); ("𞥀", "𞤞"); ("𞥁", "𞤟");
   ("𞥂", "𞤠"); ("𞥃", "𞤡")].

Definition upper_of (ch : string) : string :=
  match ch with
  | String c EmptyString => String (upper_char c) EmptyString
  | _ => match lookup upper_table ch with
         | Some u => u
         | None => ch
         end
  end.

Definition upper (s : string) : string := cat (map upper_of (chars s)).

(** [s.startswith(p)] *)
Definition startswith (s p : string) : bool := prefix p s.

(** [needle in hay] *)
Fixpoint str_in (needle hay : string) : bool :=
  (prefix needle hay ||
   match hay with
   | EmptyString => false
   | String _ r => str_in needle r
   end)%bool.

(** The ASCII characters that are white space: tab, line feed, vertical
    tab, form feed, carriage return, the four separators 28..31 and the
    space. *)
Definition isspace (c : ascii) : bool :=
  (in_range 9 13 c || in_range 28 32 c)%bool.

Definition byte_is (n : nat) (c : ascii) : bool := Nat.eqb (nat_of_ascii c) n.

(** [ch.isspace()] for one character, the characters [str.strip()] removes:
    the ASCII ones and U+0085, U+00A0, U+1680, U+2000 to U+200A, U+2028,
    U+2029, U+202F, U+205F and U+3000. *)
Definition isspace_char (ch : string) : bool :=
  match ch with
  | String c EmptyString => isspace c
  | String c1 (String c2 EmptyString) =>
      (byte_is 194 c1 && (byte_is 133 c2 || byte_is 160 c2))%bool
  | String c1 (String c2 (String c3 EmptyString)) =>
      ((byte_is 225 c1 && byte_is 154 c2 && byte_is 128 c3) ||
       (byte_is 226 c1 && byte_is 128 c2 &&
        (in_range 128 138 c3 || in_range 168 169 c3 || byte_is 175 c3)) ||
       (byte_is 226 c1 && byte_is 129 c2 && byte_is 159 c3) ||
       (byte_is 227 c1 && byte_is 128 c2 && byte_is 128 c3))%bool
  | _ => false
  end.

Fixpoint lstrip_chars (l : list string) : list string :=
  match l with
  | [] => []
  | ch :: r => if isspace_char ch then lstrip_chars r else l
  end.

Fixpoint rstrip_chars (l : list string) : list string :=
  match l with
  | [] => []
  | ch :: r =>
      match rstrip_chars r with
      | [] => if isspace_char ch then [] else [ch]
      | r' => ch :: r'
      end
  end.

(** [s.lstrip()], [s.rstrip()] and [s.strip()] *)
Definition lstrip (s : string) : string := cat (lstrip_chars (chars s)).
Definition rstrip (s : string) : string := cat (rstrip_chars (chars s)).
Definition strip (s : string) : string :=
  cat (rstrip_chars (lstrip_chars (chars s))).

(** The decimal digits other than 0 to 9 (the characters of the category
    Nd of Unicode 14.0), with their values. *)
Definition digit_table : list (string * Z) :=
  [("٠", 0); ("١", 1); ("٢", 2); ("٣", 3); ("٤", 4); ("٥", 5); ("٦", 6);
   ("٧", 7); ("٨", 8); ("٩", 9); ("۰", 0); ("۱", 1); ("۲", 2); ("۳", 3);
   ("۴", 4); ("۵", 5); ("۶", 6); ("۷", 7); ("۸", 8); ("۹", 9); ("߀", 0);
   ("߁", 1); ("߂", 2); ("߃", 3); ("߄", 4); ("߅", 5); ("߆", 6); ("߇", 7);
   ("߈", 8); ("߉", 9); ("०", 0); ("१", 1); ("२", 2); ("३", 3); ("४", 4);
   ("५", 5); ("६", 6); ("७", 7); ("८", 8); ("९", 9); ("০", 0); ("১", 1);
   ("২", 2); ("৩", 3); ("৪", 4); ("৫", 5); ("৬", 6); ("৭", 7); ("৮", 8);
   ("৯", 9); ("੦", 0); ("੧", 1); ("੨", 2); ("੩", 3); ("੪", 4); ("੫", 5);
   ("੬", 6); ("੭", 7); ("੮", 8); ("੯", 9); ("૦", 0); ("૧", 1); ("૨", 2);
   ("૩", 3); ("૪", 4); ("૫", 5); ("૬", 6); ("૭", 7); ("૮", 8); ("૯", 9);
   ("୦", 0); ("୧", 1); ("୨", 2); ("୩", 3); ("୪", 4); ("୫", 5); ("୬", 6);
   ("୭", 7); ("୮", 8); ("୯", 9); ("௦", 0); ("௧", 1); ("௨", 2); ("௩", 3);
   ("௪", 4); ("௫", 5); ("௬", 6); ("௭", 7); ("௮", 8); ("௯", 9); ("౦", 0);
   ("౧", 1); ("౨", 2); ("౩", 3); ("౪", 4); ("౫", 5); ("౬", 6); ("౭", 7);
   ("౮", 8); ("౯", 9); ("೦", 0); ("೧", 1); ("೨", 2); ("೩", 3); ("೪", 4);
   ("೫", 5); ("೬", 6); ("೭", 7); ("೮", 8); ("೯", 9); ("൦", 0); ("൧", 1);
   ("൨", 2); ("൩", 3); ("൪", 4); ("൫", 5); ("൬", 6); ("൭", 7); ("൮", 8);
   ("൯", 9); ("෦", 0); ("෧", 1); ("෨", 2); ("෩", 3); ("෪", 4); ("෫", 5);
   ("෬", 6); ("෭", 7); ("෮", 8); ("෯", 9); ("๐", 0); ("๑", 1); ("๒", 2);
   ("๓", 3); ("๔", 4); ("๕", 5); ("๖", 6); ("๗", 7); ("๘", 8); ("๙", 9);
   ("໐", 0); ("໑", 1); ("໒", 2); ("໓", 3); ("໔", 4); ("໕", 5); ("໖", 6);
   ("໗", 7); ("໘", 8); ("໙", 9); ("༠", 0); ("༡", 1); ("༢", 2); ("༣", 3);
   ("༤", 4); ("༥", 5); ("༦", 6); ("༧", 7); ("༨", 8); ("༩", 9); ("၀", 0);
   ("၁", 1); ("၂", 2); ("၃", 3); ("၄", 4); ("၅", 5); ("၆", 6); ("၇", 7);
   ("၈", 8); ("၉", 9); ("႐", 0); ("႑", 1); ("႒", 2); ("႓", 3); ("႔", 4);
   ("႕", 5); ("႖", 6); ("႗", 7); ("႘", 8); ("႙", 9); ("០", 0); ("១", 1);
   ("២", 2); ("៣", 3); ("៤", 4); ("៥", 5); ("៦", 6); ("៧", 7); ("៨", 8);
   ("៩", 9); ("᠐", 0); ("᠑", 1); ("᠒", 2); ("᠓", 3); ("᠔", 4); ("᠕", 5);
   ("᠖", 6); ("᠗", 7); ("᠘", 8); ("᠙", 9); ("᥆", 0); ("᥇", 1); ("᥈", 2);
   ("᥉", 3); ("᥊", 4); ("᥋", 5); ("᥌", 6); ("᥍", 7); ("᥎", 8); ("᥏", 9);
   ("᧐", 0); ("᧑", 1); ("᧒", 2); ("᧓", 3); ("᧔", 4); ("᧕", 5); ("᧖", 6);
   ("᧗", 7); ("᧘", 8); ("᧙", 9); ("᪀", 0); ("᪁", 1); ("᪂", 2); ("᪃", 3);
   ("᪄", 4); ("᪅", 5); ("᪆", 6); ("᪇", 7); ("᪈", 8); ("᪉", 9); ("᪐", 0);
   ("᪑", 1); ("᪒", 2); ("᪓", 3); ("᪔", 4); ("᪕", 5); ("᪖", 6); ("᪗", 7);
   ("᪘", 8); ("᪙", 9); ("᭐", 0); ("᭑", 1); ("᭒", 2); ("᭓", 3); ("᭔", 4);
   ("᭕", 5); ("᭖", 6); ("᭗", 7); ("᭘", 8); ("᭙", 9); ("᮰", 0); ("᮱", 1);
   ("᮲", 2); ("᮳", 3); ("᮴", 4); ("᮵", 5); ("᮶", 6); ("᮷", 7); ("᮸", 8);
   ("᮹", 9); ("᱀", 0); ("᱁", 1); ("᱂", 2); ("᱃", 3); ("᱄", 4); ("᱅", 5);
   ("᱆", 6); ("᱇", 7); ("᱈", 8); ("᱉", 9); ("᱐", 0); ("᱑", 1); ("᱒", 2);
   ("᱓", 3); ("᱔", 4); ("᱕", 5); ("᱖", 6); ("᱗", 7); ("᱘", 8); ("᱙", 9);
   ("꘠", 0); ("꘡", 1); ("꘢", 2); ("꘣", 3); ("꘤", 4); ("꘥", 5); ("꘦", 6);
   ("꘧", 7); ("꘨", 8); ("꘩", 9); ("꣐", 0); ("꣑", 1); ("꣒", 2); ("꣓", 3);
   ("꣔", 4); ("꣕", 5); ("꣖", 6); ("꣗", 7); ("꣘", 8); ("꣙", 9); ("꤀", 0);
   ("꤁", 1); ("꤂", 2); ("꤃", 3); ("꤄", 4); ("꤅", 5); ("꤆", 6); ("꤇", 7);
   ("꤈", 8); ("꤉", 9); ("꧐", 0); ("꧑", 1); ("꧒", 2); ("꧓", 3); ("꧔", 4);
   ("꧕", 5); ("꧖", 6); ("꧗", 7); ("꧘", 8); ("꧙", 9); ("꧰", 0); ("꧱", 1);
   ("꧲", 2); ("꧳", 3); ("꧴", 4); ("꧵", 5); ("꧶", 6); ("꧷", 7); ("꧸", 8);
   ("꧹", 9); ("꩐", 0); ("꩑", 1); ("꩒", 2); ("꩓", 3); ("꩔", 4); ("꩕", 5);
   ("꩖", 6); ("꩗", 7); ("꩘", 8); ("꩙", 9); ("꯰", 0); ("꯱", 1); ("꯲", 2);
   ("꯳", 3); ("꯴", 4); ("꯵", 5); ("꯶", 6); ("꯷", 7); ("꯸", 8); ("꯹", 9);
   ("０", 0); ("１", 1); ("２", 2); ("３", 3); ("４", 4); ("５", 5); ("６", 6);
   ("７", 7); ("８", 8); ("９", 9); ("𐒠", 0); ("𐒡", 1); ("𐒢", 2); ("𐒣", 3);
   ("𐒤", 4); ("𐒥", 5); ("𐒦", 6); ("𐒧", 7); ("𐒨", 8); ("𐒩", 9); ("𐴰", 0);
   ("𐴱", 1); ("𐴲", 2); ("𐴳", 3); ("𐴴", 4); ("𐴵", 5); ("𐴶", 6); ("𐴷", 7);
   ("𐴸", 8); ("𐴹", 9); ("𑁦", 0); ("𑁧", 1); ("𑁨", 2); ("𑁩", 3); ("𑁪", 4);
   ("𑁫", 5); ("𑁬", 6); ("𑁭", 7); ("𑁮", 8); ("𑁯", 9); ("𑃰", 0); ("𑃱", 1);
   ("𑃲", 2); ("𑃳", 3); ("𑃴", 4); ("𑃵", 5); ("𑃶", 6); ("𑃷", 7); ("𑃸", 8);
   ("𑃹", 9); ("𑄶", 0); ("𑄷", 1); ("𑄸", 2); ("𑄹", 3); ("𑄺", 4); ("𑄻", 5);
   ("𑄼", 6); ("𑄽", 7); ("𑄾", 8); ("𑄿", 9); ("𑇐", 0); ("𑇑", 1); ("𑇒", 2);
   ("𑇓", 3); ("𑇔", 4); ("𑇕", 5); ("𑇖", 6); ("𑇗", 7); ("𑇘", 8); ("𑇙", 9);
   ("𑋰", 0); ("𑋱", 1); ("𑋲", 2); ("𑋳", 3); ("𑋴", 4); ("𑋵", 5); ("𑋶", 6);
   ("𑋷", 7); ("𑋸", 8); ("𑋹", 9); ("𑑐", 0); ("𑑑", 1); ("𑑒", 2); ("𑑓", 3);
   ("𑑔", 4); ("𑑕", 5); ("𑑖", 6); ("𑑗", 7); ("𑑘", 8); ("𑑙", 9); ("𑓐", 0);
   ("𑓑", 1); ("𑓒", 2); ("𑓓", 3); ("𑓔", 4); ("𑓕", 5); ("𑓖", 6); ("𑓗", 7);
   ("𑓘", 8); ("𑓙", 9); ("𑙐", 0); ("𑙑", 1); ("𑙒", 2); ("𑙓", 3); ("𑙔", 4);
   ("𑙕", 5); ("𑙖", 6); ("𑙗", 7); ("𑙘", 8); ("𑙙", 9); ("𑛀", 0); ("𑛁", 1);
   ("𑛂", 2); ("𑛃", 3); ("𑛄", 4); ("𑛅", 5); ("𑛆", 6); ("𑛇", 7); ("𑛈", 8);
   ("𑛉", 9); ("𑜰", 0); ("𑜱", 1); ("𑜲", 2); ("𑜳", 3); ("𑜴", 4); ("𑜵", 5);
   ("𑜶", 6); ("𑜷", 7); ("𑜸", 8); ("𑜹", 9); ("𑣠", 0); ("𑣡", 1); ("𑣢", 2);
   ("𑣣", 3); ("𑣤", 4); ("𑣥", 5); ("𑣦", 6); ("𑣧", 7); ("𑣨", 8); ("𑣩", 9);
   ("𑥐", 0); ("𑥑", 1); ("𑥒", 2); ("𑥓", 3); ("𑥔", 4); ("𑥕", 5); ("𑥖", 6);
   ("𑥗", 7); ("𑥘", 8); ("𑥙", 9); ("𑱐", 0); ("𑱑", 1); ("𑱒", 2); ("𑱓", 3);
   ("𑱔", 4); ("𑱕", 5); ("𑱖", 6); ("𑱗", 7); ("𑱘", 8); ("𑱙", 9); ("𑵐", 0);
   ("𑵑", 1); ("𑵒", 2); ("𑵓", 3); ("𑵔", 4); ("𑵕", 5); ("𑵖", 6); ("𑵗", 7);
   ("𑵘", 8); ("𑵙", 9); ("𑶠", 0); ("𑶡", 1); ("𑶢", 2); ("𑶣", 3); ("𑶤", 4);
   ("𑶥", 5); ("𑶦", 6); ("𑶧", 7); ("𑶨", 8); ("𑶩", 9); ("𖩠", 0); ("𖩡", 1);
   ("𖩢", 2); ("𖩣", 3); ("𖩤", 4); ("𖩥", 5); ("𖩦", 6); ("𖩧", 7); ("𖩨", 8);
   ("𖩩", 9); ("𖫀", 0); ("𖫁", 1); ("𖫂", 2); ("𖫃", 3); ("𖫄", 4); ("𖫅", 5);
   ("𖫆", 6); ("𖫇", 7); ("𖫈", 8); ("𖫉", 9); ("𖭐", 0); ("𖭑", 1); ("𖭒", 2);
   ("𖭓", 3); ("𖭔", 4); ("𖭕", 5); ("𖭖", 6); ("𖭗", 7); ("𖭘", 8); ("𖭙", 9);
   ("𝟎", 0); ("𝟏", 1); ("𝟐", 2); ("𝟑", 3); ("𝟒", 4); ("𝟓", 5); ("𝟔", 6);
   ("𝟕", 7); ("𝟖", 8); ("𝟗", 9); ("𝟘", 0); ("𝟙", 1); ("𝟚", 2); ("𝟛", 3);
   ("𝟜", 4); ("𝟝", 5); ("𝟞", 6); ("𝟟", 7); ("𝟠", 8); ("𝟡", 9); ("𝟢", 0);
   ("𝟣", 1); ("𝟤", 2); ("𝟥", 3); ("𝟦", 4); ("𝟧", 5); ("𝟨", 6); ("𝟩", 7);
   ("𝟪", 8); ("𝟫", 9); ("𝟬", 0); ("𝟭", 1); ("𝟮", 2); ("𝟯", 3); ("𝟰", 4);
   ("𝟱", 5); ("𝟲", 6); ("𝟳", 7); ("𝟴", 8); ("𝟵", 9); ("𝟶", 0); ("𝟷", 1);
   ("𝟸", 2); ("𝟹", 3); ("𝟺", 4); ("𝟻", 5); ("𝟼", 6); ("𝟽", 7); ("𝟾", 8);
   ("𝟿", 9); ("𞅀", 0); ("𞅁", 1); ("𞅂", 2); ("𞅃", 3); ("𞅄", 4); ("𞅅", 5);
   ("𞅆", 6); ("𞅇", 7); ("𞅈", 8); ("𞅉", 9); ("𞋰", 0); ("𞋱", 1); ("𞋲", 2);
   ("𞋳", 3); ("𞋴", 4); ("𞋵", 5); ("𞋶", 6); ("𞋷", 7); ("𞋸", 8); ("𞋹", 9);
   ("𞥐", 0); ("𞥑", 1); ("𞥒", 2); ("𞥓", 3); ("𞥔", 4); ("𞥕", 5); ("𞥖", 6);
   ("𞥗", 7); ("𞥘", 8); ("𞥙", 9); ("🯰", 0); ("🯱", 1); ("🯲", 2); ("🯳", 3);
   ("🯴", 4); ("🯵", 5); ("🯶", 6); ("🯷", 7); ("🯸", 8); ("🯹", 9)].

(** The value of a decimal digit, as [int] reads it and as a regular
    expression takes it for [\d]. *)
Definition digit_value (ch : string) : option Z :=
  match ch with
  | String c EmptyString =>
      if in_range 48 57 c then Some (Z.of_nat (nat_of_ascii c) - 48) else None
  | _ => lookup digit_table ch
  end.

(** [bool(s)] *)
Definition truthy (s : string) : bool :=
  match s with EmptyString => false | _ => true end.

(** [s.split(sep)] for a non-empty separator: [skip] counts the characters
    of a separator found earlier that are still to be passed over. *)
Fixpoint split_go (sep : string) (skip : nat) (s : string) : list string :=
  match s with
  | EmptyString => [EmptyString]
  | String c r =>
      match skip with
      | S k => split_go sep k r
      | O =>
          if prefix sep s
          then EmptyString :: split_go sep (String.length sep - 1) r
          else match split_go sep 0 r with
               | h :: t => String c h :: t
               | [] => [String c EmptyString]
               end
      end
  end.

Definition split (s sep : string) : list string := split_go sep 0 s.

(** [s.replace(old, new)] for a non-empty [old]. *)
Fixpoint replace_go (old new : string) (skip : nat) (s : string) : string :=
  match s with
  | EmptyString => EmptyString
  | String c r =>
      match skip with
      | S k => replace_go old new k r
      | O =>
          if prefix old s
          then new ++ replace_go old new (String.length old - 1) r
          else String c (replace_go old new 0 r)
      end
  end.

Definition replace (s old new : string) : string := replace_go old new 0 s.

(** [sep.join(l)] *)
Fixpoint join (sep : string) (l : list string) : string :=
  match l with
  | [] => EmptyString
  | [x] => x
  | x :: r => x ++ sep ++ join sep r
  end.

(** [s[:n]] for a constant [n >= 0]: the first [n] characters. *)
Definition str_upto (n : nat) (s : string) : string := cat (firstn n (chars s)).

(** [l[:n]]: a negative [n] counts from the end of the list. *)
Definition slice_upto {A} (n : Z) (l : list A) : list A :=
  if 0 <=? n then firstn (Z.to_nat n) l
  else firstn (Z.to_nat (Z.of_nat (List.length l) + n)) l.

(** [int(s, 16)] on a string of hexadecimal digits; [ValueError] otherwise.
    (Python also accepts a sign, a [0x] prefix and underscores, which a
    hexadecimal digest never contains.) *)
Definition hex_value (c : ascii) : option Z :=
  let n := nat_of_ascii c in
  if in_range 48 57 c then Some (Z.of_nat n - 48)
  else if in_range 97 102 c then Some (Z.of_nat n - 87)
  else if in_range 65 70 c then Some (Z.of_nat n - 55)
  else None.

Fixpoint int16_go (acc : Z) (s : string) : option Z :=
  match s with
  | EmptyString => Some acc
  | String c r =>
      match hex_value c with
      | Some d => int16_go (16 * acc + d) r
      | None => None
      end
  end.

Definition int16 (s : string) : result Z :=
  match s with
  | EmptyString => Raise (Exception "ValueError" "invalid literal for int() with base 16")
  | _ => match int16_go 0 s with
         | Some v => Ok v
         | None => Raise (Exception "ValueError" "invalid literal for int() with base 16")
         end
  end.

End Py.

(** The web framework: the response sent for what an endpoint returned or
    raised. *)
Module Http.
Import Py.

Definition http_status {A} (r : result A) : Z :=
  match r with
  | Ok _ => 200
  | Raise (HTTPException s _) => s
  | Raise _ => 500
  end.

Definition http_detail {A} (r : result A) : option string :=
  match r with
  | Raise (HTTPException _ d) => Some d
  | _ => None
  end.

End Http.

Notation "x <- m ;; k" := (Py.bind m (fun x => k))
  (at level 61, m at next level, right associativity).

(* ================================================================== *)
(** * [hashlib.md5] *)
(* ================================================================== *)

Module Hashlib.

Definition mask32 : Z := 4294967295.

Definition add32 (a b : Z) : Z := Z.land (a + b) mask32.
Definition not32 (a : Z) : Z := Z.lxor a mask32.
Definition rotl32 (x c : Z) : Z :=
  Z.land (Z.lor (Z.shiftl x c) (Z.shiftr x (32 - c))) mask32.

(** [floor (2^32 * |sin (i + 1)|)] for [i = 0 .. 63]. *)
Definition K : list Z :=
  [3614090360; 3905402710; 606105819; 3250441966; 4118548399; 1200080426;
   2821735955; 4249261313; 1770035416; 2336552879; 4294925233; 2304563134;
   1804603682; 4254626195; 2792965006; 1236535329; 4129170786; 3225465664;
   643717713; 3921069994; 3593408605; 38016083; 3634488961; 3889429448;
   568446438; 3275163606; 4107603335; 1163531501; 2850285829; 4243563512;
   1735328473; 2368359562; 4294588738; 2272392833; 1839030562; 4259657740;
   2763975236; 1272893353; 4139469664; 3200236656; 681279174; 3936430074;
   3572445317; 76029189; 3654602809; 3873151461; 530742520; 3299628645;
   4096336452; 1126891415; 2878612391; 4237533241; 1700485571; 2399980690;
   4293915773; 2240044497; 1873313359; 4264355552; 2734768916; 1309151649;
   4149444226; 3174756917; 718787259; 3951481745].

Definition shifts : list Z :=
  [7; 12; 17; 22; 7; 12; 17; 22; 7; 12; 17; 22; 7; 12; 17; 22;
   5; 9; 14; 20; 5; 9; 14; 20; 5; 9; 14; 20; 5; 9; 14; 20;
   4; 11; 16; 23; 4; 11; 16; 23; 4; 11; 16; 23; 4; 11; 16; 23;
   6; 10; 15; 21; 6; 10; 15; 21; 6; 10; 15; 21; 6; 10; 15; 21].

Record state : Type := mkState { sA : Z; sB : Z; sC : Z; sD : Z }.

Definition init : state :=
  mkState 1732584193 4023233417 2562383102 271733878.

(** One of the 64 operations of a block, on the block's 16 words [m]. *)
Definition step (m : list Z) (st : state) (i : nat) : state :=
  let '(mkState a b c d) := st in
  let iz := Z.of_nat i in
  let '(f, g) :=
    if iz <? 16 then (Z.lor (Z.land b c) (Z.land (not32 b) d), iz)
    else if iz <? 32 then (Z.lor (Z.land d b) (Z.land (not32 d) c), (5 * iz + 1) mod 16)
    else if iz <? 48 then (Z.lxor (Z.lxor b c) d, (3 * iz + 5) mod 16)
    else (Z.lxor c (Z.lor b (not32 d)), (7 * iz) mod 16) in
  let f' := add32 (add32 (add32 f a) (nth i K 0)) (nth (Z.to_nat g) m 0) in
  mkState d (add32 b (rotl32 f' (nth i shifts 0))) b c.

Definition compress (st : state) (m : list Z) : state :=
  let st' := fold_left (step m) (seq 0 64) st in
  mkState (add32 (sA st) (sA st')) (add32 (sB st) (sB st'))
          (add32 (sC st) (sC st')) (add32 (sD st) (sD st')).

(** Little-endian bytes of a word, and back. *)
Definition le_bytes (n : nat) (w : Z) : list Z :=
  map (fun k => Z.land (Z.shiftr w (8 * Z.of_nat k)) 255) (seq 0 n).

Fixpoint le_word (bs : list Z) : Z :=
  match bs with
  | [] => 0
  | b :: r => b + 256 * le_word r
  end.

Fixpoint words (n : nat) (bs : list Z) : list Z :=
  match n with
  | O => []
  | S k => le_word (firstn 4 bs) :: words k (skipn 4 bs)
  end.

Definition pad (msg : list Z) : list Z :=
  let len := Z.of_nat (List.length msg) in
  let zeros := Z.to_nat ((55 - len) mod 64) in
  (msg ++ [128] ++ repeat 0 zeros ++ le_bytes 8 ((8 * len) mod 2 ^ 64))%list.

Fixpoint blocks (n : nat) (st : state) (bs : list Z) : state :=
  match n with
  | O => st
  | S k => blocks k (compress st (words 16 (firstn 64 bs))) (skipn 64 bs)
  end.

(** [hashlib.md5(msg).digest()], as 16 bytes. *)
Definition md5 (msg : list Z) : list Z :=
  let p := pad msg in
  let st := blocks (List.length p / 64) init p in
  (le_bytes 4 (sA st) ++ le_bytes 4 (sB st) ++
   le_bytes 4 (sC st) ++ le_bytes 4 (sD st))%list.

Fixpoint hex (bs : list Z) : string :=
  match bs with
  | [] => EmptyString
  | b :: r =>
      String (Py.hex_digit (b / 16)) (String (Py.hex_digit (b mod 16)) (hex r))
  end.

(** [hashlib.md5(msg).hexdigest()] *)
Definition md5_hexdigest (msg : list Z) : string := hex (md5 msg).

End Hashlib.

(* ================================================================== *)
(** * [random]: the module-level generator *)
(* ================================================================== *)

Module Random.

(** What the services use of Python's [random] module: the hidden
    generator's state, [random.seed(n)] for an integer [n], and the internal
    [_randbelow(n)] that [choice] and [randint] draw from. *)
Class RandomGen : Type := {
  rng : Type;
  seed : Z -> rng;
  randbelow : Z -> rng -> Z * rng
}.

(** [_randbelow(n)] returns an integer of [0 .. n-1]. *)
Class RandomGenLaws (R : RandomGen) : Prop := {
  randbelow_range : forall n g, 0 < n -> 0 <= fst (randbelow n g) < n
}.

Section Draws.
Context {R : RandomGen}.

(** A computation that reads and updates the module-level generator and may
    raise: the generator's state survives an exception. *)
Definition M (A : Type) : Type := rng -> Py.result A * rng.

Definition ret {A} (a : A) : M A := fun g => (Py.Ok a, g).

Definition mbind {A B} (m : M A) (k : A -> M B) : M B :=
  fun g => match m g with
           | (Py.Ok a, g') => k a g'
           | (Py.Raise e, g') => (Py.Raise e, g')
           end.

Definition lift {A} (r : Py.result A) : M A := fun g => (r, g).

(** [random.seed(n)]: the state before is forgotten. *)
Definition set_seed (n : Z) : M unit := fun _ => (Py.Ok tt, seed n).

(** [seq[i]] *)
Definition index {A} (l : list A) (i : Z) : Py.result A :=
  let len := Z.of_nat (List.length l) in
  let j := if i <? 0 then i + len else i in
  match (if j <? 0 then None else nth_error l (Z.to_nat j)) with
  | Some a => Py.Ok a
  | None => Py.Raise (Py.Exception "IndexError" "list index out of range")
  end.

(** [random.choice(seq)] *)
Definition choice {A} (l : list A) : M A :=
  fun g =>
    match l with
    | [] => (Py.Raise (Py.Exception "IndexError" "Cannot choose from an empty sequence"), g)
    | _ => let (i, g') := randbelow (Z.of_nat (List.length l)) g in (index l i, g')
    end.

(** [random.randint(a, b)], for [a <= b] *)
Definition randint (a b : Z) : M Z :=
  fun g => let (i, g') := randbelow (b + 1 - a) g in (Py.Ok (a + i), g').

End Draws.

End Random.

Notation "x <~ m ;; k" := (Random.mbind m (fun x => k))
  (at level 61, m at next level, right associativity).

(* ================================================================== *)
(** * The Mersenne Twister behind [random] *)
(* ================================================================== *)

Module MT19937.

Definition mask32 : Z := 4294967295.
Definition NN : nat := 624.
Definition MM : nat := 397.

Record state : Type := mkMT { mt : list Z; mti : nat }.

Definition get (l : list Z) (i : nat) : Z := nth i l 0.

Fixpoint set (l : list Z) (i : nat) (v : Z) : list Z :=
  match l, i with
  | [], _ => []
  | _ :: r, O => v :: r
  | x :: r, S k => x :: set r k v
  end.

Definition mix30 (x : Z) : Z := Z.lxor x (Z.shiftr x 30).

Fixpoint init_go (n : nat) (i prev : Z) : list Z :=
  match n with
  | O => []
  | S k => let v := Z.land (1812433253 * mix30 prev + i) mask32 in
           v :: init_go k (i + 1) v
  end.

Definition init_genrand (s : Z) : list Z :=
  let s0 := Z.land s mask32 in s0 :: init_go (NN - 1) 1 s0.

(** [init_by_array]: [i] walks the state, [j] the key. *)
Definition key_step (key : list Z) (st : list Z * nat * nat) (_ : nat)
  : list Z * nat * nat :=
  let '(l, i, j) := st in
  let v := Z.land (Z.lxor (get l i) (mix30 (get l (i - 1)) * 1664525)
                   + get key j + Z.of_nat j) mask32 in
  let l := set l i v in
  let i := S i in
  let j := S j in
  let '(l, i) := if Nat.leb NN i then (set l 0 (get l (NN - 1)), 1%nat) else (l, i) in
  let j := if Nat.leb (List.length key) j then 0%nat else j in
  (l, i, j).

Definition final_step (st : list Z * nat) (_ : nat) : list Z * nat :=
  let '(l, i) := st in
  let v := Z.land (Z.lxor (get l i) (mix30 (get l (i - 1)) * 1566083941)
                   - Z.of_nat i) mask32 in
  let l := set l i v in
  let i := S i in
  if Nat.leb NN i then (set l 0 (get l (NN - 1)), 1%nat) else (l, i).

Definition init_by_array (key : list Z) : state :=
  let l0 := init_genrand 19650218 in
  let '(l1, i1, _) :=
    fold_left (key_step key) (seq 0 (Nat.max NN (List.length key))) (l0, 1%nat, 0%nat) in
  let '(l2, _) := fold_left final_step (seq 0 (NN - 1)) (l1, i1) in
  mkMT (set l2 0 2147483648) NN.

(** The 32-bit words of [|n|], least significant first; one zero word for 0. *)
Fixpoint key_words (fuel : nat) (n : Z) : list Z :=
  match fuel with
  | O => []
  | S f => Z.land n mask32 ::
           (if Z.shiftr n 32 =? 0 then [] else key_words f (Z.shiftr n 32))
  end.

Definition seed (n : Z) : state :=
  let a := Z.abs n in
  init_by_array (key_words (S (Z.to_nat (Z.log2 a / 32))) a).

Definition twist_at (l : list Z) (kk : nat) : list Z :=
  let y := Z.lor (Z.land (get l kk) 2147483648)
                 (Z.land (get l (Nat.modulo (kk + 1) NN)) 2147483647) in
  let mag := if Z.testbit y 0 then 2567483615 else 0 in
  set l kk (Z.lxor (Z.lxor (get l (Nat.modulo (kk + MM) NN)) (Z.shiftr y 1)) mag).

Definition temper (y : Z) : Z :=
  let y := Z.lxor y (Z.shiftr y 11) in
  let y := Z.lxor y (Z.land (Z.shiftl y 7) 2636928640) in
  let y := Z.lxor y (Z.land (Z.shiftl y 15) 4022730752) in
  let y := Z.lxor y (Z.shiftr y 18) in
  Z.land y mask32.

Definition genrand_uint32 (g : state) : Z * state :=
  let g := if Nat.leb NN (mti g)
           then mkMT (fold_left twist_at (seq 0 NN) (mt g)) 0
           else g in
  (temper (get (mt g) (mti g)), mkMT (mt g) (S (mti g))).

(** [getrandbits(k)] for [k > 0]: [words] is the number of 32-bit words
    still to draw, the first drawn being the least significant. *)
Fixpoint getrandbits_go (words : nat) (k : Z) (g : state) : Z * state :=
  match words with
  | O => (0, g)
  | S w =>
      let (r, g1) := genrand_uint32 g in
      let r := if k <? 32 then Z.shiftr r (32 - k) else r in
      let (hi, g2) := getrandbits_go w (k - 32) g1 in
      (r + 4294967296 * hi, g2)
  end.

Definition getrandbits (k : Z) (g : state) : Z * state :=
  getrandbits_go (Z.to_nat ((k - 1) / 32 + 1)) k g.

(** [_randbelow_with_getrandbits]: draw [n.bit_length()] bits until the
    value is below [n].  The loop is cut after [fuel] further draws (each is
    rejected with probability below one half); 0 is returned then. *)
Fixpoint randbelow_go (fuel : nat) (n k : Z) (g : state) : Z * state :=
  let (r, g') := getrandbits k g in
  if r <? n then (r, g')
  else match fuel with
       | O => (0, g')
       | S f => randbelow_go f n k g'
       end.

Definition randbelow (n : Z) (g : state) : Z * state :=
  randbelow_go 4096 n (Z.log2 n + 1) g.

End MT19937.

#[export] Instance MT : Random.RandomGen := {|
  Random.rng := MT19937.state;
  Random.seed := MT19937.seed;
  Random.randbelow := MT19937.randbelow
|}.

(* ================================================================== *)
(** * [datetime] *)
(* ================================================================== *)

Module Datetime.

Record datetime : Type := mkDatetime {
  year : Z; month : Z; day : Z;
  hour : Z; minute : Z; second : Z; microsecond : Z
}.

Definition is_leap (y : Z) : bool :=
  ((y mod 4 =? 0) && (negb (y mod 100 =? 0) || (y mod 400 =? 0)))%bool.

Definition days_in_month (y m : Z) : Z :=
  if m =? 2 then (if is_leap y then 29 else 28)
  else if ((m =? 4) || (m =? 6) || (m =? 9) || (m =? 11))%bool then 30
  else 31.

(** ** [datetime.strptime(s, "%a, %d %b %Y %H:%M:%S")]

    The library turns the format into a regular expression, matched without
    regard to case: a name of a day, a comma, white space, the day, white
    space, a name of a month, white space, four digits, white space, and
    hour, minute and second between colons.  The expression reads
    characters: its [\s] is any white-space character and its [\d] any
    decimal digit, while a class written as a range, such as [0-3], holds
    ASCII digits only.  A parser returns every way to match a prefix of its
    input, the one the expression tries first at the head; the first way to
    match the whole expression is taken, and the input must end there. *)

Definition parser (A : Type) : Type := list string -> list (A * list string).

Definition pbind {A B} (p : parser A) (k : A -> parser B) : parser B :=
  fun l => flat_map (fun '(a, r) => k a r) (p l).

Definition pret {A} (a : A) : parser A := fun l => [(a, l)].

(** A class of characters: a range of ASCII codes, or [\d]. *)
Definition ascii_class (lo hi : nat) (ch : string) : bool :=
  match ch with
  | String c EmptyString => Py.in_range lo hi c
  | _ => false
  end.

Definition d0 (lo hi : nat) : string -> bool := ascii_class (48 + lo) (48 + hi).

Definition digit (ch : string) : bool :=
  match Py.digit_value ch with
  | Some _ => true
  | None => false
  end.

(** A pattern is a list of classes, one for each character. *)
Fixpoint match_classes (cs : list (string -> bool)) (l : list string)
  : option (list string * list string) :=
  match cs, l with
  | [], _ => Some ([], l)
  | _ :: _, [] => None
  | p :: cs', ch :: r =>
      if p ch
      then match match_classes cs' r with
           | Some (m, rest) => Some (ch :: m, rest)
           | None => None
           end
      else None
  end.

(** [int(m)] of the digits matched (a leading space is skipped). *)
Fixpoint digits_value (acc : Z) (m : list string) : Z :=
  match m with
  | [] => acc
  | ch :: r =>
      match Py.digit_value ch with
      | Some v => digits_value (10 * acc + v) r
      | None => digits_value acc r
      end
  end.

(** An alternation of patterns, tried in order. *)
Definition number (alts : list (list (string -> bool))) : parser Z :=
  fun l => flat_map (fun cs => match match_classes cs l with
                               | Some (m, rest) => [(digits_value 0 m, rest)]
                               | None => []
                               end) alts.

Definition p_day : parser Z :=
  number [[d0 3 3; d0 0 1]; [d0 1 2; digit]; [d0 0 0; d0 1 9]; [d0 1 9];
          [ascii_class 32 32; d0 1 9]].
Definition p_year : parser Z := number [[digit; digit; digit; digit]].
Definition p_hour : parser Z := number [[d0 2 2; d0 0 3]; [d0 0 1; digit]; [digit]].
Definition p_minute : parser Z := number [[d0 0 5; digit]; [digit]].
Definition p_second : parser Z := number [[d0 6 6; d0 0 1]; [d0 0 5; digit]; [digit]].

(** One name of a list, whatever the case of its letters; its position
    counts from 1.  (A long s or a dotless i in the place of an s or an i
    also matches the expression, and the library then fails to find the
    name in its list: [ValueError] as well.) *)
Fixpoint name_index (names : list string) (k : Z) (l : list string)
  : list (Z * list string) :=
  match names with
  | [] => []
  | n :: r =>
      (if String.eqb n (Py.lower (Py.cat (firstn (String.length n) l)))
       then [(k, skipn (String.length n) l)] else [])
      ++ name_index r (k + 1) l
  end%list.

Definition p_weekday : parser Z :=
  name_index ["mon"; "tue"; "wed"; "thu"; "fri"; "sat"; "sun"] 1.
Definition p_month : parser Z :=
  name_index ["jan"; "feb"; "mar"; "apr"; "may"; "jun";
              "jul"; "aug"; "sep"; "oct"; "nov"; "dec"] 1.

Definition p_char (c : ascii) : parser unit :=
  fun l => match l with
           | ch :: r => if String.eqb ch (String c EmptyString) then [(tt, r)] else []
           | [] => []
           end.

(** One or more white-space characters, the longest run first. *)
Fixpoint p_spaces0 (l : list string) : list (unit * list string) :=
  match l with
  | ch :: r => if Py.isspace_char ch then (p_spaces0 r ++ [(tt, l)])%list else [(tt, l)]
  | [] => [(tt, l)]
  end.

Definition p_spaces : parser unit :=
  fun l => match l with
           | ch :: r => if Py.isspace_char ch then p_spaces0 r else []
           | [] => []
           end.

Definition p_rfc : parser (Z * Z * Z * Z * Z * Z) :=
  pbind p_weekday (fun _ =>
  pbind (p_char ",") (fun _ =>
  pbind p_spaces (fun _ =>
  pbind p_day (fun d =>
  pbind p_spaces (fun _ =>
  pbind p_month (fun b =>
  pbind p_spaces (fun _ =>
  pbind p_year (fun y =>
  pbind p_spaces (fun _ =>
  pbind p_hour (fun h =>
  pbind (p_char ":") (fun _ =>
  pbind p_minute (fun mi =>
  pbind (p_char ":") (fun _ =>
  pbind p_second (fun sec =>
  pret (y, b, d, h, mi, sec))))))))))))))).

Definition value_error (msg : string) : Py.exn := Py.Exception "ValueError" msg.

Definition strptime (s : string) : Py.result datetime :=
  match p_rfc (Py.chars s) with
  | [] => Py.Raise (value_error "time data does not match format")
  | ((y, b, d, h, mi, sec), rest) :: _ =>
      match rest with
      | _ :: _ => Py.Raise (value_error "unconverted data remains")
      | [] =>
          if y <? 1 then Py.Raise (value_error "year 0 is out of range")
          else if days_in_month y b <? d
          then Py.Raise (value_error "day is out of range for month")
          else if 59 <? sec then Py.Raise (value_error "second must be in 0..59")
          else Py.Ok (mkDatetime y b d h mi sec 0)
      end
  end.

(** ** [d.isoformat()] *)

Fixpoint zeros (n : nat) : string :=
  match n with O => EmptyString | S k => String "0" (zeros k) end.

Definition zfill (width : nat) (n : Z) : string :=
  let s := Py.str_of_int n in
  zeros (width - String.length s) ++ s.

Definition isoformat (d : datetime) : string :=
  zfill 4 (year d) ++ "-" ++ zfill 2 (month d) ++ "-" ++ zfill 2 (day d) ++ "T" ++
  zfill 2 (hour d) ++ ":" ++ zfill 2 (minute d) ++ ":" ++ zfill 2 (second d) ++
  (if microsecond d =? 0 then EmptyString else "." ++ zfill 6 (microsecond d)).

End Datetime.

(* ================================================================== *)
(** * Element trees, JSON values, dictionaries *)
(* ================================================================== *)

Module ET.

(** An element of [xml.etree.ElementTree]: its tag, its text ([None] for an
    element without text) and its children in document order. *)
Inductive Element : Type :=
| Elem (tag : string) (text : option string) (children : list Element).

Definition tag (e : Element) : string := let 'Elem t _ _ := e in t.
Definition text (e : Element) : option string := let 'Elem _ x _ := e in x.
Definition children (e : Element) : list Element := let 'Elem _ _ c := e in c.

(** [e.iter()]: the element and its descendants, in document order. *)
Fixpoint iter (e : Element) : list Element :=
  match e with
  | Elem _ _ cs => e :: flat_map iter cs
  end.

(** [e.findall(".//" + name)]: every descendant of that tag. *)
Definition findall_descendants (e : Element) (name : string) : list Element :=
  filter (fun x => String.eqb (tag x) name) (flat_map iter (children e)).

(** [e.find(name)]: the first child of that tag. *)
Definition find (e : Element) (name : string) : option Element :=
  List.find (fun x => String.eqb (tag x) name) (children e).

End ET.

Module Json.

(** A JSON value; [JDec m e] is the number [m * 10 ^ e]. *)
Inductive json : Type :=
| JNull
| JBool (b : bool)
| JNum (n : Z)
| JDec (m e : Z)
| JStr (s : string)
| JArr (items : list json)
| JObj (fields : list (string * json)).

End Json.

Module Dict.

(** A [dict] with [str] keys, in insertion order. *)
Definition dict (V : Type) : Type := list (string * V).

Fixpoint get {V} (d : dict V) (k : string) : option V :=
  match d with
  | [] => None
  | (k', v) :: r => if String.eqb k' k then Some v else get r k
  end.

(** [k in d] *)
Definition mem {V} (d : dict V) (k : string) : bool :=
  match get d k with Some _ => true | None => false end.

Definition keys {V} (d : dict V) : list string := map fst d.

(** [{k: v for k, v in zip(ks, vs)}], for distinct keys. *)
Definition of_zip {V} (ks : list string) (vs : list V) : dict V := combine ks vs.

End Dict.

(* ================================================================== *)
(** * The gateway: [services/api/main.py] *)
(* ================================================================== *)

Module Gateway.
Import Py.

Record NewsItem : Type := mkNewsItem {
  title : string;
  description : string;
  link : string;
  pub_date : Datetime.datetime;
  category : string
}.

Definition BBC_FEEDS : Dict.dict string :=
  [("world", "http://feeds.bbci.co.uk/news/world/rss.xml");
   ("uk", "http://feeds.bbci.co.uk/news/uk/rss.xml");
   ("business", "http://feeds.bbci.co.uk/news/business/rss.xml");
   ("technology", "http://feeds.bbci.co.uk/news/technology/rss.xml");
   ("health", "http://feeds.bbci.co.uk/news/health/rss.xml")].

(** What a feed source answers: the status, and the body as
    [ET.fromstring(await response.text())] reads it (an exception when the
    body cannot be read or is not well-formed). *)
Record FeedResponse : Type := mkFeedResponse {
  feed_status : Z;
  feed_xml : result ET.Element
}.

Definition attribute_error : exn :=
  Exception "AttributeError" "'NoneType' object has no attribute 'strip'".

(** [e.text.strip()] *)
Definition text_strip (e : ET.Element) : result string :=
  match ET.text e with
  | Some s => Ok (strip s)
  | None => Raise attribute_error
  end.

Section FeedWorld.

(** [session_get url] is the outcome of the GET with its 30-second bound: a
    response, or the exception raised (time-out, connection error).
    [clock i] is what [datetime.now()] reads while item [i] is handled. *)
Variable session_get : string -> result FeedResponse.
Variable clock : nat -> Datetime.datetime.

(** Lines 75-80: the date of an item. *)
Definition parse_date (now : Datetime.datetime) (pub_date : option ET.Element)
  : Datetime.datetime :=
  let date_str := match pub_date with
                  | Some e => ET.text e
                  | None => None
                  end in
  match date_str with
  | Some s =>
      if truthy s
      then match Datetime.strptime (str_upto 25 s) with
           | Ok d => d
           | Raise _ => now
           end
      else now
  | None => now
  end.

(** Lines 68-88: one pass of the loop; [None] when the item is skipped. *)
Definition item_article (category : string) (i : nat) (item : ET.Element)
  : result (option NewsItem) :=
  let title := ET.find item "title" in
  let description := ET.find item "description" in
  let link := ET.find item "link" in
  let pub_date := ET.find item "pubDate" in
  match title, description, link with
  | Some title, Some description, Some link =>
      let parsed_date := parse_date (clock i) pub_date in
      t <- text_strip title ;;
      d <- text_strip description ;;
      l <- text_strip link ;;
      Ok (Some (mkNewsItem t d l parsed_date category))
  | _, _, _ => Ok None
  end.

Fixpoint articles_loop (category : string) (i : nat) (items : list ET.Element)
  (articles : list NewsItem) : result (list NewsItem) :=
  match items with
  | [] => Ok articles
  | item :: rest =>
      a <- item_article category i item ;;
      articles_loop category (S i) rest
        (match a with
         | Some x => (articles ++ [x])%list
         | None => articles
         end)
  end.

(** The body of the [try] of [fetch_bbc_feed]. *)
Definition fetch_body (category feed_url : string) (max_articles : Z)
  : result (list NewsItem) :=
  response <- session_get feed_url ;;
  if negb (feed_status response =? 200) then Ok []
  else
    root <- feed_xml response ;;
    let items := ET.findall_descendants root "item" in
    articles_loop category 0 (slice_upto max_articles items) [].

Definition fetch_bbc_feed (category feed_url : string) (max_articles : Z)
  : list NewsItem :=
  match fetch_body category feed_url max_articles with
  | Ok articles => articles
  | Raise _ => []
  end.

(** [GET /news/{category}]; [limit] is [None] when the query gives none. *)
Definition get_news_by_category (category : string) (limit : option Z)
  : result (list NewsItem) :=
  let limit := match limit with Some n => n | None => 10 end in
  match Dict.get BBC_FEEDS category with
  | None => Raise (HTTPException 404 ("Category '" ++ category ++ "' not found"))
  | Some feed_url => Ok (fetch_bbc_feed category feed_url limit)
  end.

End FeedWorld.

(** [GET /news]: one fetch per feed, all awaited together; each feed has its
    own readings of the clock. *)
Definition get_all_news (session_get : string -> result FeedResponse)
  (clock : string -> nat -> Datetime.datetime) (limit : option Z)
  : result (Dict.dict (list NewsItem)) :=
  let limit := match limit with Some n => n | None => 5 end in
  let results :=
    map (fun '(category, feed_url) =>
           fetch_bbc_feed session_get (clock category) category feed_url limit)
        BBC_FEEDS in
  Ok (Dict.of_zip (Dict.keys BBC_FEEDS) results).

Record TransformRequest : Type := mkTransformRequest {
  article : NewsItem;
  style : string
}.

(** What the transformer answers to the relay: the status and the two
    readings of the body. *)
Record RelayResponse : Type := mkRelayResponse {
  relay_status : Z;
  relay_json : result Json.json;
  relay_text : result string
}.

(** [request.article.dict()] with the date as text, and the style. *)
Definition payload (request : TransformRequest) : Json.json :=
  let a := article request in
  Json.JObj
    [("article",
      Json.JObj [("title", Json.JStr (title a));
                 ("description", Json.JStr (description a));
                 ("link", Json.JStr (link a));
                 ("pub_date", Json.JStr (Datetime.isoformat (pub_date a)));
                 ("category", Json.JStr (category a))]);
     ("style", Json.JStr (style request))].

(** The body of the [try] of [transform_article]: [session_post url body] is
    the outcome of the relay call with its 60-second bound. *)
Definition relay (transformer_url : option string)
  (session_post : string -> Json.json -> result RelayResponse)
  (request : TransformRequest) : result Json.json :=
  let transformer_url :=
    match transformer_url with
    | Some u => u
    | None => "http://transformer-service:8002"
    end in
  response <- session_post (transformer_url ++ "/transform") (payload request) ;;
  if relay_status response =? 200
  then result <- relay_json response ;; Ok result
  else
    error_text <- relay_text response ;;
    Raise (HTTPException (relay_status response)
             ("Transformer service error: " ++ error_text)).

(** [POST /transform]: the two handlers, in the order of the source. *)
Definition transform_article (transformer_url : option string)
  (session_post : string -> Json.json -> result RelayResponse)
  (request : TransformRequest) : result Json.json :=
  try_except (relay transformer_url session_post request)
    (fun e =>
       match e with
       | TimeoutError => Raise (HTTPException 504 "Transformer service timeout")
       | _ => Raise (HTTPException 500 ("Transformation failed: " ++ exn_str e))
       end).

End Gateway.

(* ================================================================== *)
(** * The transformer: [services/transformer/main.py] *)
(* ================================================================== *)

Module Transformer.
Import Py.

Record NewsItem : Type := mkNewsItem {
  title : string;
  description : string;
  link : string;
  pub_date : string;
  category : string
}.

Record TransformRequest : Type := mkTransformRequest {
  article : NewsItem;
  style : string
}.

(** The dictionary [transform_article] returns. *)
Record TransformResult : Type := mkTransformResult {
  original : NewsItem;
  transformed : Dict.dict string;
  result_style : string;
  timestamp : string;
  status : string
}.

(** Lines 48-53: [key] is [os.getenv("OPENAI_API_KEY", "")]. *)
Definition OPENAI_CONFIGURED (openai_api_key : string) : bool :=
  (truthy openai_api_key &&
   negb (String.eqb openai_api_key "sk-your-openai-api-key-here"))%bool.

(** ** The mock generator (lines 59-149) *)

Definition satirical_angles : list string :=
  ["Local Area Experts Baffled by Predictable Turn of Events";
   "Scientists Discover That Things Continue to Happen, More at 11";
   "Breaking: World Still Spinning, Residents Unimpressed";
   "Researchers Confirm Reality Still Operating Within Normal " ++
    "Parameters";
   "Local Person Shocked to Learn Universe Follows Established " ++
    "Patterns";
   "Area Officials Announce That Time Continues Moving Forward";
   "Experts Puzzled by Occurrence of Scheduled Event";
   "Community Leaders Perplexed by Entirely Foreseeable Development"].

Definition political_title : string :=
  "Local Man Discovers Politicians Still Doing Politics, Experts " ++
  "Stunned".
Definition health_title : string :=
  "Area Residents Shocked to Learn Bodies Still Require Maintenance".
Definition business_title : string :=
  "Money Continues to Exist Despite Public's Best Efforts to " ++
  "Ignore It".
Definition technology_title : string :=
  "Scientists Confirm: Computers Still Computing, Public Bewildered".

Definition descriptors : list string :=
  ["startling revelation";
   "shocking development";
   "unprecedented occurrence";
   "mind-bending discovery";
   "earth-shattering news";
   "reality-defying event"].

Definition expert_names : list string :=
  ["Dr. Sarah Mitchell";
   "Professor Bob Thompson";
   "Dr. Jennifer Walsh";
   "Professor Mike Stevens";
   "Dr. Lisa Chen";
   "Professor David Kumar"].

Definition institutions : list string :=
  ["University of Common Sense";
   "Institute of Obvious Studies";
   "College of Predictable Outcomes";
   "Academy of Expected Results"].

Definition resident_names : list string :=
  ["Karen Johnson";
   "Mike Davis";
   "Jennifer Smith";
   "Bob Wilson";
   "Sarah Brown";
   "Tom Anderson"].

(** Line 64 *)
Definition title_seed (article : NewsItem) : result Z :=
  data <- encode (title article) ;;
  int16 (str_upto 8 (Hashlib.md5_hexdigest data)).

(** Lines 110-125: scenario, expert quote, resident quote. *)
Definition scenario_triple (article : NewsItem) : string * string * string :=
  if str_in "technology" (lower (category article)) then
    ("the latest technological development continues to perplex " ++
      "humanity",
     "We've been studying human-computer interaction for decades, and " ++
      "yet people still act surprised when technology does exactly " ++
      "what it was designed to do.",
     "I had no idea that pressing buttons would make things happen on " ++
      "screens.")
  else if str_in "health" (lower (category article)) then
    ("people are discovering that their bodies still require basic " ++
      "maintenance",
     "After years of research, we've confirmed that the human body " ++
      "continues to function according to established biological " ++
      "principles.",
     "Who could have predicted that what I eat and how much I " ++
      "exercise would affect my health?")
  else if str_in "business" (lower (category article)) then
    ("economic principles continue to operate as economists predicted",
     "Our extensive research has revealed that supply, demand, and " ++
      "market forces are still functioning exactly as textbooks " ++
      "describe.",
     "I'm shocked to learn that businesses exist to make money.")
  else
    ("current events continue to unfold in a logical sequence",
     "We've been observing cause-and-effect relationships for years, " ++
      "yet people remain surprised when actions have consequences.",
     "I had no idea that today would be followed by tomorrow.").

(** Lines 127-143 *)
Definition mock_content (article : NewsItem)
  (expert institution resident : string) (resident_age : Z)
  (scenario expert_quote resident_quote : string) : string :=
  nl ++ upper (category article) ++
  " - In a development that has left researchers at the " ++ institution ++
  " scrambling to update their " ++ dq ++
  "Encyclopedia of Predictable Outcomes," ++ dq ++
  " recent events have confirmed that " ++ scenario ++ "." ++ nl ++ nl ++
  expert ++ ", Professor of Stating the Obvious at " ++ institution ++
  ", expressed measured bewilderment at the public's reaction: " ++ dq ++
  expert_quote ++
  " It's like being surprised that gravity makes things fall down." ++ dq ++
  nl ++ nl ++
  "The discovery came after extensive research involving careful " ++
  "observation of reality and occasionally checking the news. " ++ dq ++
  "The evidence was overwhelming," ++ dq ++
  " said lead researcher Dr. Amanda Foster, who spent nearly four " ++
  "minutes analyzing the situation before reaching her " ++
  "groundbreaking conclusion." ++ nl ++ nl ++ "Local resident " ++
  resident ++ ", " ++ str_of_int resident_age ++ ", was reportedly " ++
  dq ++ "stunned" ++ dq ++ " by this revelation. " ++ dq ++
  resident_quote ++ dq ++
  " she said while simultaneously demonstrating a complete " ++
  "understanding of exactly how these things work." ++ nl ++ nl ++
  "Meanwhile, experts continue to analyze the situation with the " ++
  "same level of accuracy they've maintained since the invention " ++
  "of expertise. " ++ dq ++
  "We're confident that things will continue to happen in roughly " ++
  "the order they happen," ++ dq ++
  " announced analyst Dr. Patricia Moore, before immediately being " ++
  "proven correct by the passage of time." ++ nl ++ nl ++
  "The international community has responded with its customary " ++
  "level of measured confusion, with world leaders issuing " ++
  "statements that can best be summarized as " ++ dq ++
  "We acknowledge that events occurred and will probably continue " ++
  "occurring." ++ dq ++ nl ++ nl ++
  "In related news, the sun rose this morning as scheduled, water " ++
  "remains wet, and people continue to have opinions about things." ++ nl ++
  nl ++ "This story is developing, assuming anyone can agree on what " ++
  "'developing' means when applied to the unstoppable march of " ++
  "causality itself." ++ nl.

Section Service.
Context {R : Random.RandomGen}.

(** Lines 80-89 *)
Definition select_title (article : NewsItem) : Random.M string :=
  if (str_in "trump" (lower (title article)) ||
      str_in "president" (lower (title article)))%bool then
    Random.ret political_title
  else if (str_in "health" (lower (category article)) ||
           str_in "medical" (lower (title article)))%bool then
    Random.ret health_title
  else if (str_in "business" (lower (category article)) ||
           str_in "finance" (lower (title article)))%bool then
    Random.ret business_title
  else if str_in "technology" (lower (category article)) then
    Random.ret technology_title
  else
    Random.choice satirical_angles.

(** Line 97 *)
Definition mock_description (descriptor : string) : string :=
  "In a " ++ descriptor ++
  " that has left experts frantically updating their textbooks, " ++
  "recent events have confirmed what many suspected all along: " ++
  "things continue to happen in the world.".

(** The branch [if not OPENAI_CONFIGURED] of [transform_with_openai].  It
    never awaits, so nothing else touches the module-level generator between
    the seeding and the last draw. *)
Definition mock_transformation (article : NewsItem)
  : Random.M (Dict.dict string) :=
  seed <~ Random.lift (title_seed article) ;;
  _ <~ Random.set_seed seed ;;
  mock_title <~ select_title article ;;
  descriptor <~ Random.choice descriptors ;;
  expert <~ Random.choice expert_names ;;
  institution <~ Random.choice institutions ;;
  resident <~ Random.choice resident_names ;;
  resident_age <~ Random.randint 25 65 ;;
  let '(scenario, expert_quote, resident_quote) := scenario_triple article in
  Random.ret
    [("title", mock_title);
     ("description", mock_description descriptor);
     ("content", strip (mock_content article expert institution resident
                          resident_age scenario expert_quote resident_quote))].

(** ** The backend path (lines 151-261) *)

Definition prompt (article : NewsItem) : string :=
  "You are a brilliant satirical news writer in the style of The " ++
  "Onion, creating clever, witty, and genuinely funny content. " ++
  "Transform this real news story into a masterpiece of satirical " ++
  "journalism." ++ nl ++ nl ++
  "**Your mission**: Create a completely rewritten article that is:" ++
  nl ++ "- Genuinely hilarious and clever" ++ nl ++
  "- Satirical but not mean-spirited" ++ nl ++
  "- Uses absurd hypothetical scenarios and exaggerated quotes" ++ nl ++
  "- Maintains some connection to the original facts but takes " ++
  "creative liberties" ++ nl ++
  "- Written like a professional news article but with satirical " ++
  "content" ++ nl ++ "- Family-friendly and avoids offensive content" ++
  nl ++ nl ++ "**Original Article:**" ++ nl ++ "Title: " ++ title article ++
  nl ++ "Description: " ++ description article ++ nl ++ nl ++
  "**Instructions:**" ++ nl ++
  "1. Create a NEW satirical headline that's completely different " ++
  "but somehow relates to the original story" ++ nl ++
  "2. Write a NEW brief description (2-3 sentences) that sets up " ++
  "the satirical angle  " ++ nl ++
  "3. Write a FULL satirical article (400-600 words) with:" ++ nl ++
  "   - Fictional but believable quotes from made-up experts" ++ nl ++
  "   - Absurd statistics or studies" ++ nl ++
  "   - Creative scenarios that exaggerate the situation" ++ nl ++
  "   - A professional news article structure (location, quotes, " ++
  "context)" ++ nl ++
  "   - Subtle humor throughout, not just obvious jokes" ++ nl ++ nl ++
  "**Output Format:**" ++ nl ++ "TITLE: [Your satirical headline]" ++ nl ++
  "DESCRIPTION: [Your satirical description]" ++ nl ++
  "CONTENT: [Your full satirical article]" ++ nl ++ nl ++
  "Remember: This should read like a real news article that just " ++
  "happens to be completely absurd and funny. Think " ++ dq ++
  "The Onion" ++ dq ++ " quality.".

Definition system_message : string :=
  "You are a world-class satirical news writer with the wit of The " ++
  "Onion and the creativity of Douglas Adams. Your job is to " ++
  "transform mundane news into hilarious, absurd, yet " ++
  "professionally written satirical articles that make people " ++
  "laugh out loud.".

Definition backend_request (article : NewsItem) : Json.json :=
  Json.JObj
    [("model", Json.JStr "gpt-4o");
     ("messages",
      Json.JArr
        [Json.JObj [("role", Json.JStr "system");
                    ("content", Json.JStr system_message)];
         Json.JObj [("role", Json.JStr "user");
                    ("content", Json.JStr (prompt article))]]);
     ("max_tokens", Json.JNum 1500);
     ("temperature", Json.JDec 9 (-1))].

Definition backend_headers (openai_api_key : string) : Dict.dict string :=
  [("Authorization", "Bearer " ++ openai_api_key);
   ("Content-Type", "application/json")].

(** What the backend answers: the status and [response.json()]. *)
Record BackendResponse : Type := mkBackendResponse {
  status_code : Z;
  json : result Json.json
}.

(** [v[key]] and [v[0]] on what [response.json()] returned: an object is a
    [dict] whose keys are all [str]. *)
Definition subscript (v : Json.json) (key : string) : result Json.json :=
  match v with
  | Json.JObj fields =>
      match Dict.get fields key with
      | Some x => Ok x
      | None => Raise (Exception "KeyError" key)
      end
  | _ => Raise (Exception "TypeError" "indices must be integers or the value is not subscriptable")
  end.

Definition subscript0 (v : Json.json) : result Json.json :=
  match v with
  | Json.JArr (x :: _) => Ok x
  | Json.JArr [] => Raise (Exception "IndexError" "list index out of range")
  | Json.JStr (String c _) => Ok (Json.JStr (String c EmptyString))
  | Json.JStr EmptyString => Raise (Exception "IndexError" "string index out of range")
  | Json.JObj _ => Raise (Exception "KeyError" "0")
  | _ => Raise (Exception "TypeError" "the value is not subscriptable")
  end.

(** The receiver of [content.strip()] must be a [str]. *)
Definition as_str (v : Json.json) : result string :=
  match v with
  | Json.JStr s => Ok s
  | _ => Raise (Exception "AttributeError" "the value has no attribute 'strip'")
  end.

Definition default_title : string :=
  "Breaking: Local News Still Happening, Experts Baffled".
Definition default_description : string :=
  "In a shocking turn of events, things continue to occur in the " ++
  "world.".

(** The variables of the loop of lines 217-231. *)
Record parse_state : Type := mkParseState {
  current_section : option string;
  transformed_title : string;
  transformed_description : string;
  transformed_content : string;
  content_lines : list string
}.

Definition section_is (st : parse_state) (name : string) : bool :=
  match current_section st with
  | Some s => String.eqb s name
  | None => false
  end.

Definition parse_line (st : parse_state) (line : string) : parse_state :=
  let line_stripped := strip line in
  if startswith line_stripped "TITLE:" then
    mkParseState (Some "title") (strip (replace line_stripped "TITLE:" ""))
      (transformed_description st) (transformed_content st) (content_lines st)
  else if startswith line_stripped "DESCRIPTION:" then
    mkParseState (Some "description") (transformed_title st)
      (strip (replace line_stripped "DESCRIPTION:" ""))
      (transformed_content st) (content_lines st)
  else if startswith line_stripped "CONTENT:" then
    mkParseState (Some "content") (transformed_title st)
      (transformed_description st)
      (strip (replace line_stripped "CONTENT:" "")) (content_lines st)
  else if (section_is st "description" && truthy line_stripped &&
           negb (startswith line_stripped "CONTENT:"))%bool then
    mkParseState (current_section st) (transformed_title st)
      (transformed_description st ++ " " ++ line_stripped)
      (transformed_content st) (content_lines st)
  else if (section_is st "content" && truthy (strip line))%bool then
    mkParseState (current_section st) (transformed_title st)
      (transformed_description st) (transformed_content st)
      (content_lines st ++ [strip line])%list
  else st.

Definition or_else (s default : string) : string :=
  if truthy s then s else default.

(** Lines 209-252 *)
Definition parse_reply (content : string) : Dict.dict string :=
  let lines := split (strip content) nl in
  let st := fold_left parse_line lines
              (mkParseState None EmptyString EmptyString EmptyString []) in
  let transformed_content :=
    match content_lines st with
    | [] => transformed_content st
    | ls => join nl ls
    end in
  let '(t, d, c) :=
    if (negb (truthy (transformed_title st)) ||
        negb (truthy (transformed_description st)))%bool then
      match split content (nl ++ nl) with
      | s0 :: s1 :: s2 :: _ =>
          (strip (replace s0 "TITLE:" ""),
           strip (replace s1 "DESCRIPTION:" ""),
           strip (replace s2 "CONTENT:" ""))
      | _ => (default_title, default_description, strip content)
      end
    else (transformed_title st, transformed_description st, transformed_content) in
  [("title", or_else t default_title);
   ("description", or_else d default_description);
   ("content", or_else c (strip content))].

(** Lines 257-261: what the handler of the [try] returns. *)
Definition backend_error_article : Dict.dict string :=
  [("title",
    "Local News Event Occurs, Area Residents Moderately Concerned");
   ("description",
    "[AI Transformation temporarily unavailable] Scientists baffled " ++
    "by yet another thing happening.");
   ("content",
    "BREAKING - In what experts are calling 'a thing that happened,' " ++
    "local events continue to unfold at the pace of reality itself. " ++
    "More details as they develop, or don't.")].

(** [client_post url headers body] is the outcome of the call to the backend
    with its 30-second bound. *)
Variable client_post :
  string -> Dict.dict string -> Json.json -> result BackendResponse.

(** The body of the [try] of lines 151-252. *)
Definition backend_body (openai_api_key : string) (article : NewsItem)
  : result (Dict.dict string) :=
  response <- client_post "https://api.openai.com/v1/chat/completions"
                (backend_headers openai_api_key) (backend_request article) ;;
  if negb (status_code response =? 200)
  then Raise (HTTPException 500
                ("OpenAI API error: " ++ str_of_int (status_code response)))
  else
    result <- json response ;;
    choices <- subscript result "choices" ;;
    choice0 <- subscript0 choices ;;
    message <- subscript choice0 "message" ;;
    content <- subscript message "content" ;;
    content <- as_str content ;;
    Ok (parse_reply content).

Definition transform_with_openai (openai_api_key : string)
  (article : NewsItem) (style : string) : Random.M (Dict.dict string) :=
  if negb (OPENAI_CONFIGURED openai_api_key) then mock_transformation article
  else
    Random.lift
      (try_except (backend_body openai_api_key article)
         (fun _ => Ok backend_error_article)).

(** [POST /transform]; [now] is what [datetime.now()] reads. *)
Definition transform_article (openai_api_key : string)
  (now : Datetime.datetime) (request : TransformRequest)
  : Random.M TransformResult :=
  fun g =>
    match transform_with_openai openai_api_key (article request) (style request) g with
    | (Ok transformed, g') =>
        (Ok (mkTransformResult (article request) transformed (style request)
               (Datetime.isoformat now) "success"), g')
    | (Raise e, g') =>
        (Raise (HTTPException 500 ("Transformation failed: " ++ exn_str e)), g')
    end.

End Service.

End Transformer.

(* ================================================================== *)
(** * The terms of the properties *)
(* ================================================================== *)

(** ** Digests *)

Section DigestTerms.

Definition is_byte (b : Z) : Prop := 0 <= b < 256.

(** The big-endian value of four bytes. *)
Definition be32 (b0 b1 b2 b3 : Z) : Z :=
  b0 * 2 ^ 24 + b1 * 2 ^ 16 + b2 * 2 ^ 8 + b3.

End DigestTerms.

(** ** Feeds *)

Section GatewayTerms.
Import Py Gateway.

(** The texts an article was built from: the three elements of a feed item
    and their stripped texts. *)
Definition item_fields (item : ET.Element) (it : NewsItem) : Prop :=
  exists t d l ts ds ls,
    ET.find item "title" = Some t /\ ET.find item "description" = Some d /\
    ET.find item "link" = Some l /\
    ET.text t = Some ts /\ ET.text d = Some ds /\ ET.text l = Some ls /\
    title it = strip ts /\ description it = strip ds /\ link it = strip ls.

(** The text of the date element of an item, when it has one. *)
Definition date_text (item : ET.Element) : option string :=
  match ET.find item "pubDate" with
  | Some e => ET.text e
  | None => None
  end.

(** The date as the specification words it: the first 25 characters are
    parsed; the clock is read when there is no text or the parse fails. *)
Definition claimed_date (now : Datetime.datetime) (text : option string)
  : Datetime.datetime :=
  match text with
  | None => now
  | Some s => match Datetime.strptime (str_upto 25 s) with
              | Ok d => d
              | Raise _ => now
              end
  end.

(** A feed fetch fails: the request raises, the status is not 200, or the
    body cannot be read as a tree. *)
Definition feed_failed (r : result FeedResponse) : Prop :=
  match r with
  | Raise _ => True
  | Ok response =>
      feed_status response <> 200 \/ exists e, feed_xml response = Raise e
  end.

(** One of the three elements is there without text. *)
Definition null_text (item : ET.Element) : Prop :=
  exists t d l,
    ET.find item "title" = Some t /\ ET.find item "description" = Some d /\
    ET.find item "link" = Some l /\
    (ET.text t = None \/ ET.text d = None \/ ET.text l = None).

End GatewayTerms.

(** ** Dates as a feed writes them *)

Section DateTerms.
Import Datetime.

(** The names of the days and of the months, as the C locale abbreviates
    them. *)
Definition day_names : list string :=
  ["Mon"; "Tue"; "Wed"; "Thu"; "Fri"; "Sat"; "Sun"].
Definition month_names : list string :=
  ["Jan"; "Feb"; "Mar"; "Apr"; "May"; "Jun";
   "Jul"; "Aug"; "Sep"; "Oct"; "Nov"; "Dec"].

(** A number in two digits, a year in four. *)
Definition digit_char (k : Z) : ascii := ascii_of_nat (48 + Z.to_nat k).

Definition two_digits (n : Z) : string :=
  String (digit_char (n / 10)) (String (digit_char (n mod 10)) EmptyString).

Definition four_digits (n : Z) : string :=
  two_digits (n / 100) ++ two_digits (n mod 100).

(** A date and time of the calendar, without a fraction of a second. *)
Definition valid_date (d : datetime) : bool :=
  ((1 <=? year d) && (year d <=? 9999) &&
   (1 <=? month d) && (month d <=? 12) &&
   (1 <=? day d) && (day d <=? days_in_month (year d) (month d)) &&
   (0 <=? hour d) && (hour d <=? 23) &&
   (0 <=? minute d) && (minute d <=? 59) &&
   (0 <=? second d) && (second d <=? 59) &&
   (microsecond d =? 0))%bool.

(** The text of a date in the format [%a, %d %b %Y %H:%M:%S]: 25
    characters, whatever the date.  The name of the day is the one at
    position [weekday]; the parse does not check it against the date. *)
Definition rfc_text (weekday : nat) (d : datetime) : string :=
  nth weekday day_names EmptyString ++ ", " ++ two_digits (day d) ++ " " ++
  nth (Z.to_nat (month d - 1)) month_names EmptyString ++ " " ++
  four_digits (year d) ++ " " ++ two_digits (hour d) ++ ":" ++
  two_digits (minute d) ++ ":" ++ two_digits (second d).

(** The first of the characters is white space. *)
Definition head_space (l : list string) : bool :=
  match l with
  | ch :: _ => Py.isspace_char ch
  | [] => false
  end.

Fixpoint all_ascii (s : string) : bool :=
  match s with
  | EmptyString => true
  | String c r => (Py.is_ascii c && all_ascii r)%bool
  end.

End DateTerms.

(** ** The mock generator as a chain of draws *)

Section SeededRun.
Import Py Transformer.
Context {R : Random.RandomGen}.

(** The keyword tests: a word is looked for in the lowered text. *)
Definition mentions (word text : string) : bool := str_in word (lower text).

Definition political (a : NewsItem) : bool :=
  (mentions "trump" (title a) || mentions "president" (title a))%bool.
Definition medical (a : NewsItem) : bool :=
  (mentions "health" (category a) || mentions "medical" (title a))%bool.
Definition financial (a : NewsItem) : bool :=
  (mentions "business" (category a) || mentions "finance" (title a))%bool.
Definition technical (a : NewsItem) : bool :=
  mentions "technology" (category a).

(** One draw: the element at the index the generator gives. *)
Definition pick (l : list string) (g : Random.rng) : string * Random.rng :=
  let (i, g') := Random.randbelow (Z.of_nat (List.length l)) g in
  (nth (Z.to_nat i) l EmptyString, g').

Definition headline_from (a : NewsItem) (g : Random.rng) : string * Random.rng :=
  if political a then (political_title, g)
  else if medical a then (health_title, g)
  else if financial a then (business_title, g)
  else if technical a then (technology_title, g)
  else pick satirical_angles g.

(** The article and the state of the generator after the six (or five)
    draws that start from [random.seed(s)]. *)
Definition seeded_article (a : NewsItem) (s : Z) : Dict.dict string * Random.rng :=
  let g0 := Random.seed s in
  let (headline, g1) := headline_from a g0 in
  let (descriptor, g2) := pick descriptors g1 in
  let (expert, g3) := pick expert_names g2 in
  let (institution, g4) := pick institutions g3 in
  let (resident, g5) := pick resident_names g4 in
  let (k, g6) := Random.randbelow 41 g5 in
  let '(scenario, expert_quote, resident_quote) := scenario_triple a in
  ([("title", headline);
    ("description", mock_description descriptor);
    ("content", strip (mock_content a expert institution resident (25 + k)
                         scenario expert_quote resident_quote))], g6).

(** The big-endian value of the first four bytes of the digest of the
    title: its first eight hexadecimal digits read in base 16. *)
Definition digest_prefix (a : NewsItem) : Z :=
  match Hashlib.md5 (byte_values (title a)) with
  | b0 :: b1 :: b2 :: b3 :: _ => be32 b0 b1 b2 b3
  | _ => 0
  end.






(** The content of a backend reply, [result["choices"][0]["message"]["content"]],
    which must be a [str]. *)
Definition reply_content (v : Json.json) : result string :=
  choices <- subscript v "choices" ;;
  choice0 <- subscript0 choices ;;
  message <- subscript choice0 "message" ;;
  content <- subscript message "content" ;;
  as_str content.



End SeededRun.

(** ** Sample feeds and requests *)

Module Samples.
Import Py.

Definition leaf (tag text : string) : ET.Element := ET.Elem tag (Some text) [].
Definition bare (tag : string) : ET.Element := ET.Elem tag None [].

Definition rss (items : list ET.Element) : ET.Element :=
  ET.Elem "rss" None
    [ET.Elem "channel" None (leaf "title" "BBC News" :: items)].

Definition item_dated : ET.Element :=
  ET.Elem "item" None
    [leaf "title" "  Markets rally "; leaf "description" "Shares rose.";
     leaf "link" "https://www.bbc.co.uk/news/1";
     leaf "pubDate" "Mon, 01 Jan 2024 12:00:00 GMT"].

Definition item_undated : ET.Element :=
  ET.Elem "item" None
    [leaf "title" "Rain expected"; leaf "description" "Bring a coat.";
     leaf "link" "https://www.bbc.co.uk/news/2"].

(** The title is a single space. *)
Definition item_blank_title : ET.Element :=
  ET.Elem "item" None
    [leaf "title" " "; leaf "description" "Bring a coat.";
     leaf "link" "https://www.bbc.co.uk/news/3"].

(** A title without text, and neither description nor link. *)
Definition item_title_only : ET.Element := ET.Elem "item" None [bare "title"].

(** A title without text beside a description and a link. *)
Definition item_null_title : ET.Element :=
  ET.Elem "item" None
    [bare "title"; leaf "description" "Bring a coat.";
     leaf "link" "https://www.bbc.co.uk/news/4"].

Definition world_url : string := "http://feeds.bbci.co.uk/news/world/rss.xml".

(** The world feed answers with the given items; every other feed times
    out. *)
Definition world_only (items : list ET.Element) (url : string)
  : result Gateway.FeedResponse :=
  if String.eqb url world_url
  then Ok (Gateway.mkFeedResponse 200 (Ok (rss items)))
  else Raise TimeoutError.

Definition clock (i : nat) : Datetime.datetime :=
  Datetime.mkDatetime 2024 6 1 9 30 (Z.of_nat i) 0.

Definition article_dated : Gateway.NewsItem :=
  Gateway.mkNewsItem "Markets rally" "Shares rose."
    "https://www.bbc.co.uk/news/1"
    (Datetime.mkDatetime 2024 1 1 12 0 0 0) "world".

Definition article_undated : Gateway.NewsItem :=
  Gateway.mkNewsItem "Rain expected" "Bring a coat."
    "https://www.bbc.co.uk/news/2" (clock 1) "world".

Definition request : Gateway.TransformRequest :=
  Gateway.mkTransformRequest article_dated "satirical".

(** The transformer answers the relay with a 503 and a short body. *)
Definition upstream_503 (url : string) (body : Json.json)
  : result Gateway.RelayResponse :=
  Ok (Gateway.mkRelayResponse 503
        (Raise (Exception "ContentTypeError" "unexpected mimetype"))
        (Ok "upstream down")).

Definition upstream_timeout (url : string) (body : Json.json)
  : result Gateway.RelayResponse :=
  Raise TimeoutError.

End Samples.

(** ** Sample articles *)

Module Articles.
Import Py.

Definition breaking_world : Transformer.NewsItem :=
  Transformer.mkNewsItem "Breaking news" "First words."
    "https://www.bbc.co.uk/news/1" "2024-01-01T12:00:00" "world".

(** The same title and category; every other field differs. *)
Definition breaking_world_again : Transformer.NewsItem :=
  Transformer.mkNewsItem "Breaking news" "Other words."
    "https://www.bbc.co.uk/news/9" "2025-02-03T04:05:06" "world".

(** The same title under another category. *)
Definition breaking_health : Transformer.NewsItem :=
  Transformer.mkNewsItem "Breaking news" "First words."
    "https://www.bbc.co.uk/news/1" "2024-01-01T12:00:00" "health".

Definition president : Transformer.NewsItem :=
  Transformer.mkNewsItem "President signs bill" "A bill was signed."
    "https://www.bbc.co.uk/news/5" "2024-01-01T12:00:00" "politics".

(** A backend that cannot be reached. *)
Definition unreachable (url : string) (headers : Dict.dict string)
  (body : Json.json) : result Transformer.BackendResponse :=
  Raise (Exception "ConnectError" "All connection attempts failed").

(** A backend that answers 429. *)
Definition overloaded (url : string) (headers : Dict.dict string)
  (body : Json.json) : result Transformer.BackendResponse :=
  Ok (Transformer.mkBackendResponse 429 (Ok (Json.JObj []))).

Definition now : Datetime.datetime := Datetime.mkDatetime 2024 6 1 9 30 0 0.



(** A title that ends in the lone surrogate U+D800: JSON writes it with a
    [u] escape, and the request model takes it as a [str]. *)
Definition lone_surrogate : Transformer.NewsItem :=
  Transformer.mkNewsItem ("Breaking " ++ chr 237 ++ chr 160 ++ chr 128)
    "First words." "https://www.bbc.co.uk/news/1" "2024-01-01T12:00:00"
    "world".

End Articles.

(** ** Feeds: what a fetch collects *)

Section FetchTerms.
Import Py Gateway.

(** An item whose title, description and link are all there, one of them
    without text. *)
Definition lacks_text (item : ET.Element) : bool :=
  match ET.find item "title", ET.find item "description", ET.find item "link" with
  | Some t, Some d, Some l =>
      match ET.text t, ET.text d, ET.text l with
      | Some _, Some _, Some _ => false
      | _, _, _ => true
      end
  | _, _, _ => false
  end.

(** The article of a complete item; nothing for an item that lacks one of
    the three elements. *)
Definition article_of (clock : nat -> Datetime.datetime) (category : string)
  (i : nat) (item : ET.Element) : option NewsItem :=
  match ET.find item "title", ET.find item "description", ET.find item "link" with
  | Some t, Some d, Some l =>
      match ET.text t, ET.text d, ET.text l with
      | Some ts, Some ds, Some ls =>
          Some (mkNewsItem (strip ts) (strip ds) (strip ls)
                  (claimed_date (clock i) (date_text item)) category)
      | _, _, _ => None
      end
  | _, _, _ => None
  end.

(** The articles of the complete items, in the order of the feed; [i] is
    the position of the first item. *)
Fixpoint collect (clock : nat -> Datetime.datetime) (category : string)
  (i : nat) (items : list ET.Element) : list NewsItem :=
  match items with
  | [] => []
  | item :: rest =>
      match article_of clock category i item with
      | Some a => a :: collect clock category (S i) rest
      | None => collect clock category (S i) rest
      end
  end.


End FetchTerms.

(** ** The transformer: replies, headlines, the health endpoint *)

Section ReplyTerms.
Import Py Transformer.

(** A text without a line feed. *)
Definition single_line (s : string) : bool := negb (str_in nl s).

(** A field of a reply in the layout the prompt asks for: one line, not
    empty, without white space around it, and without its own marker. *)
Definition field_ok (marker s : string) : bool :=
  (single_line s && truthy s && String.eqb (strip s) s &&
   negb (str_in marker s))%bool.

(** A further line of the reply: one line that, stripped, starts with none
    of the three markers. *)
Definition body_line (l : string) : bool :=
  (single_line l &&
   negb (startswith (strip l) "TITLE:") &&
   negb (startswith (strip l) "DESCRIPTION:") &&
   negb (startswith (strip l) "CONTENT:"))%bool.

(** The bytes of a text, each one as a character. *)
Fixpoint singles (s : string) : list string :=
  match s with
  | EmptyString => []
  | String c r => String c EmptyString :: singles r
  end.

(** The first of the characters starts with a continuation byte. *)
Definition head_continuation (l : list string) : bool :=
  match l with
  | h :: _ => starts_continuation h
  | [] => false
  end.

(** The lines of a text without the white space at its end: the blank
    lines at the end are dropped, and the last line that is not blank is
    cut at its end. *)
Fixpoint trim (ls : list string) : list string :=
  match ls with
  | [] => []
  | l :: r =>
      match trim r with
      | [] => if truthy (rstrip l) then [rstrip l] else []
      | r' => l :: r'
      end
  end.

(** A reply in the layout of the prompt: the three marker lines, then the
    further lines. *)
Definition reply_layout (t d c : string) (body : list string) : string :=
  join nl (("TITLE: " ++ t) :: ("DESCRIPTION: " ++ d) :: ("CONTENT: " ++ c) :: body).

(** The twelve headlines of the mock generator. *)
Definition mock_headlines : list string :=
  political_title :: health_title :: business_title :: technology_title ::
  satirical_angles.

(** Lines 35-38 and 263-270: [GET /health] of the transformer. *)
Record HealthResponse : Type := mkHealthResponse {
  health_status : string;
  health_timestamp : string;
  openai_configured : bool
}.

Definition health_check (openai_api_key : string) (now : Datetime.datetime)
  : HealthResponse :=
  mkHealthResponse "healthy" (Datetime.isoformat now)
    (OPENAI_CONFIGURED openai_api_key).

End ReplyTerms.

(** ** A sample reply of the backend *)

Module Replies.
Import Py.

Definition cats : string :=
  reply_layout "Cats Declare Independence" "A nation watches."
    "It began at dawn." [].

Definition cats_json : Json.json :=
  Json.JObj
    [("choices",
      Json.JArr
        [Json.JObj
           [("message",
             Json.JObj [("role", Json.JStr "assistant");
                        ("content", Json.JStr cats)])]])].

Definition cats_response : Transformer.BackendResponse :=
  Transformer.mkBackendResponse 200 (Ok cats_json).

(** A backend that answers with that reply. *)
Definition answering (url : string) (headers : Dict.dict string)
  (body : Json.json) : result Transformer.BackendResponse :=
  Ok cats_response.

End Replies.

(** An article filed under two categories at once. *)
Definition health_technology : Transformer.NewsItem :=
  Transformer.mkNewsItem "Hospital trials new scanner" "A trial has begun."
    "https://www.bbc.co.uk/news/7" "2024-01-01T12:00:00" "Health Technology".

Definition plain_technology : Transformer.NewsItem :=
  Transformer.mkNewsItem EmptyString EmptyString EmptyString EmptyString
    "technology".

(* ================================================================== *)
(** * Properties of the built-ins *)
(* ================================================================== *)

Section StringFacts.
Import Py.

Lemma map_str_app (f : ascii -> ascii) (a b : string) :
  map_str f (a ++ b) = map_str f a ++ map_str f b.
Proof.
  induction a as [|c a IH]; simpl; [reflexivity | now rewrite IH].
Qed.

Lemma prefix_iff (p s : string) :
  prefix p s = true <-> exists post, s = p ++ post.
Proof.
  revert s; induction p as [|c p IH]; intros s; simpl.
  - destruct s; split; eauto.
  - destruct s as [|c' s].
    + split; [discriminate | intros [post H]; discriminate].
    + cbn [prefix]. destruct (ascii_dec c c') as [->|Hne].
      * rewrite IH. split; intros [post H]; exists post.
        -- now rewrite H.
        -- now inversion H.
      * split; [discriminate | intros [post H]; simpl in H; congruence].
Qed.

(** [needle in hay] holds exactly when [hay] is some text, then [needle],
    then some text. *)
Lemma str_in_iff (needle hay : string) :
  str_in needle hay = true <-> exists pre post, hay = pre ++ needle ++ post.
Proof.
  induction hay as [|c hay IH].
  - cbn [str_in]. rewrite orb_false_r, prefix_iff. split.
    + intros [post H]. exists EmptyString, post. exact H.
    + intros [pre [post H]]. destruct pre; [eauto | discriminate].
  - cbn [str_in]. rewrite orb_true_iff, prefix_iff, IH. split.
    + intros [[post H] | [pre [post H]]].
      * exists EmptyString, post. exact H.
      * exists (String c pre), post. simpl. now rewrite H.
    + intros [pre [post H]]. destruct pre as [|c' pre].
      * left. exists post. exact H.
      * right. exists pre, post. now inversion H.
Qed.

Lemma app_assoc_str (a b c : string) : (a ++ b) ++ c = a ++ b ++ c.
Proof. induction a as [|x a IH]; simpl; [reflexivity | now rewrite IH]. Qed.

Lemma length_app_str (a b : string) :
  String.length (a ++ b) = (String.length a + String.length b)%nat.
Proof. induction a as [|c a IH]; cbn; [reflexivity | now rewrite IH]. Qed.

End StringFacts.

(** ** Characters *)

Section TextFacts.
Import Py.

(** An ASCII byte is a character of its own. *)
Lemma chars_ascii (c : ascii) (r : string) :
  is_ascii c = true -> chars (String c r) = String c EmptyString :: chars r.
Proof.
  intros H. cbn [chars]. rewrite H. destruct (chars r); reflexivity.
Qed.

(** The characters of a text, put together, are the text. *)
Lemma cat_chars (s : string) : cat (chars s) = s.
Proof.
  induction s as [|c s IH]; [reflexivity|].
  cbn [chars]. destruct (chars s) as [|h t]; cbn [cat] in *.
  - rewrite <- IH. reflexivity.
  - destruct (negb (is_ascii c) && starts_continuation h)%bool;
      cbn [cat append]; rewrite IH; reflexivity.
Qed.

Lemma str_upto_ascii (c : ascii) (n : nat) (r : string) :
  is_ascii c = true -> str_upto (S n) (String c r) = String c (str_upto n r).
Proof.
  intros H. unfold str_upto. rewrite (chars_ascii c r H). reflexivity.
Qed.

Lemma cat_app (a b : list string) : cat (a ++ b) = cat a ++ cat b.
Proof.
  induction a as [|x a IH]; [reflexivity|].
  cbn [app cat]. rewrite IH.
  clear. induction x as [|c x IH]; [reflexivity|]. cbn [append]. now rewrite IH.
Qed.

(** [s[:n]] is the start of [s]. *)
Lemma str_upto_prefix (n : nat) (s : string) :
  exists rest, s = str_upto n s ++ rest.
Proof.
  exists (cat (skipn n (chars s))). unfold str_upto.
  rewrite <- cat_app, firstn_skipn, cat_chars. reflexivity.
Qed.

(** The first characters of a text are the characters of its start. *)
Lemma chars_firstn (n : nat) (s : string) :
  chars (cat (firstn n (chars s))) = firstn n (chars s).
Proof.
  revert n. induction s as [|c s IH]; intros n; [destruct n; reflexivity|].
  destruct n as [|n]; [reflexivity|].
  cbn [chars]. destruct (chars s) as [|h t] eqn:E.
  - cbn [firstn cat append]. destruct n; reflexivity.
  - destruct (negb (is_ascii c) && starts_continuation h)%bool eqn:J.
    + specialize (IH (S n)). cbn [firstn cat append] in *.
      cbn [chars]. rewrite IH, J. reflexivity.
    + specialize (IH n). cbn [firstn cat append].
      cbn [chars]. rewrite IH.
      destruct n as [|n]; [reflexivity|]. cbn [firstn]. rewrite J. reflexivity.
Qed.

(** [s[:n]] has [n] characters, or all of them when [s] has fewer. *)
Lemma str_upto_len (n : nat) (s : string) :
  len (str_upto n s) = Nat.min n (len s).
Proof.
  unfold len, str_upto. rewrite chars_firstn. apply length_firstn.
Qed.

Lemma chars_nil (s : string) : chars s = [] -> s = EmptyString.
Proof.
  destruct s as [|c s]; [reflexivity|]. cbn [chars].
  destruct (chars s) as [|h t]; [discriminate|].
  destruct (negb (is_ascii c) && starts_continuation h)%bool; discriminate.
Qed.

Lemma head_continuation_chars (s : string) :
  head_continuation (chars s) = starts_continuation s.
Proof.
  destruct s as [|c s]; [reflexivity|]. cbn [chars].
  destruct (chars s) as [|h t]; [reflexivity|].
  destruct (negb (is_ascii c) && starts_continuation h)%bool; reflexivity.
Qed.

Lemma chars_app (s x : string) :
  starts_continuation x = false -> chars (s ++ x) = (chars s ++ chars x)%list.
Proof.
  intros H. induction s as [|c s IH]; [reflexivity|].
  cbn [append chars]. rewrite IH.
  destruct (chars s) as [|h t] eqn:E.
  - cbn [app]. pose proof (head_continuation_chars x) as Hx. rewrite H in Hx.
    destruct (chars x) as [|h' t']; [reflexivity|].
    cbn [head_continuation] in Hx. rewrite Hx, andb_false_r. reflexivity.
  - cbn [app].
    destruct (negb (is_ascii c) && starts_continuation h)%bool; reflexivity.
Qed.

Lemma chars_singles (p s : string) :
  all_ascii p = true -> chars (p ++ s) = (singles p ++ chars s)%list.
Proof.
  induction p as [|c p IH]; intros H; [reflexivity|].
  cbn [all_ascii] in H. apply andb_true_iff in H. destruct H as [Hc Hp].
  cbn [append singles app]. rewrite (chars_ascii c _ Hc), (IH Hp). reflexivity.
Qed.

Lemma cat_singles (p : string) : cat (singles p) = p.
Proof. induction p as [|c p IH]; [reflexivity|]. cbn. now rewrite IH. Qed.

Lemma chars_nonempty (s : string) : Forall (fun ch => ch <> EmptyString) (chars s).
Proof.
  induction s as [|c s IH]; [constructor|]. cbn [chars].
  destruct (chars s) as [|h t]; [repeat constructor; discriminate|].
  destruct (negb (is_ascii c) && starts_continuation h)%bool.
  - inversion IH; subst. constructor; [discriminate | assumption].
  - constructor; [discriminate | assumption].
Qed.

Lemma cat_nil (l : list string) :
  Forall (fun ch => ch <> EmptyString) l -> cat l = EmptyString -> l = [].
Proof.
  destruct l as [|x l]; [reflexivity|]. intros H E. inversion H; subst.
  cbn [cat] in E. destruct x; [contradiction | discriminate].
Qed.


Lemma singles_app (a b : string) : singles (a ++ b) = (singles a ++ singles b)%list.
Proof. induction a as [|c a IH]; [reflexivity|]. cbn. now rewrite IH. Qed.

Lemma chars_all_ascii (p : string) : all_ascii p = true -> chars p = singles p.
Proof.
  induction p as [|c p IH]; intros H; [reflexivity|].
  cbn [all_ascii] in H. apply andb_true_iff in H. destruct H as [Hc Hp].
  rewrite (chars_ascii c p Hc), (IH Hp). reflexivity.
Qed.

Lemma length_singles (p : string) : List.length (singles p) = String.length p.
Proof. induction p as [|c p IH]; cbn; [reflexivity | now rewrite IH]. Qed.

Lemma hex_digit_ascii (n : Z) : 0 <= n < 16 -> is_ascii (hex_digit n) = true.
Proof.
  intros H. rewrite <- (Z2Nat.id n) by lia.
  assert (Z.to_nat n < 16)%nat as Hk by lia.
  revert Hk. generalize (Z.to_nat n) as k. intros k Hk.
  do 16 (destruct k as [|k]; [reflexivity|]). lia.
Qed.

(** A text without a surrogate is encoded to its bytes; any other text
    raises. *)
Lemma encode_error_none (l : list string) (i : nat) :
  forallb (fun ch => negb (is_surrogate ch)) l = true -> encode_error i l = None.
Proof.
  revert i. induction l as [|ch l IH]; intros i H; [reflexivity|].
  cbn [forallb] in H. apply andb_true_iff in H. destruct H as [H1 H2].
  cbn [encode_error]. apply negb_true_iff in H1. rewrite H1. apply IH, H2.
Qed.

Lemma encode_error_some (l : list string) (i : nat) :
  forallb (fun ch => negb (is_surrogate ch)) l = false ->
  exists e, encode_error i l = Some e.
Proof.
  revert i. induction l as [|ch l IH]; intros i H; [discriminate|].
  cbn [forallb] in H. cbn [encode_error].
  destruct (is_surrogate ch); [eauto|]. cbn [negb andb] in H. apply IH, H.
Qed.

Lemma encode_encodable (s : string) :
  encodable s = true -> encode s = Ok (byte_values s).
Proof.
  unfold encodable, encode. intros H. rewrite (encode_error_none _ _ H).
  reflexivity.
Qed.

Lemma encode_surrogate (s : string) :
  encodable s = false -> exists e, encode s = Raise e.
Proof.
  unfold encodable, encode. intros H.
  destruct (encode_error_some _ 0 H) as [e ->]. eauto.
Qed.

End TextFacts.

(** ** Lowering *)

Section LowerFacts.
Import Py.

Lemma sigma_not_single (c : ascii) : String.eqb (String c EmptyString) "Σ" = false.
Proof.
  apply String.eqb_neq. intros H. inversion H.
Qed.

(** ASCII characters are lowered one by one, whatever stands around
    them. *)
Lemma lower_chars_singles (w : string) (before l : list string) :
  lower_chars before (singles w ++ l)
  = (singles (map_str lower_char w)
     ++ lower_chars (rev (singles w) ++ before) l)%list.
Proof.
  revert before. induction w as [|c w IH]; intros before; [reflexivity|].
  cbn [singles app lower_chars map_str]. rewrite sigma_not_single.
  cbn [lower_of]. rewrite IH. cbn [rev]. rewrite <- app_assoc. reflexivity.
Qed.

Lemma lower_chars_app (before x y : list string) :
  exists p, lower_chars before (x ++ y) = (p ++ lower_chars (rev x ++ before) y)%list.
Proof.
  revert before. induction x as [|ch x IH]; intros before.
  - exists []. reflexivity.
  - cbn [app lower_chars]. destruct (IH (ch :: before)) as [p ->].
    eexists (_ :: p). cbn [rev app]. rewrite <- app_assoc. reflexivity.
Qed.

Lemma lower_ascii (s : string) :
  all_ascii s = true -> lower s = map_str lower_char s.
Proof.
  intros H. unfold lower. rewrite (chars_all_ascii s H).
  rewrite <- (app_nil_r (singles s)), lower_chars_singles.
  cbn [lower_chars]. rewrite app_nil_r. apply cat_singles.
Qed.

(** A text that contains an ASCII word contains, once lowered, the lowered
    word. *)
Lemma str_in_lower (w s : string) :
  all_ascii w = true -> w <> EmptyString ->
  str_in w s = true -> str_in (map_str lower_char w) (lower s) = true.
Proof.
  intros Hw Hne H. apply str_in_iff in H. destruct H as (pre & post & ->).
  apply str_in_iff. unfold lower.
  assert (starts_continuation (w ++ post) = false) as Hs.
  { destruct w as [|c w]; [contradiction|]. cbn [all_ascii] in Hw.
    apply andb_true_iff in Hw. destruct Hw as [Hc _].
    cbn [append starts_continuation]. unfold is_continuation, in_range.
    unfold is_ascii in Hc. apply Nat.ltb_lt in Hc.
    apply andb_false_iff. left. apply Nat.leb_gt. exact Hc. }
  rewrite (chars_app pre _ Hs), (chars_singles w post Hw).
  destruct (lower_chars_app [] (chars pre) (singles w ++ chars post)) as [p ->].
  rewrite lower_chars_singles, !cat_app, cat_singles.
  eexists. eexists. reflexivity.
Qed.












End LowerFacts.

Section SliceFacts.

Lemma slice_upto_length {A} (n : Z) (l : list A) :
  0 <= n -> Z.of_nat (List.length (Py.slice_upto n l)) <= n.
Proof.
  intros Hn. unfold Py.slice_upto.
  destruct (0 <=? n) eqn:E; [|apply Z.leb_gt in E; lia].
  rewrite length_firstn. lia.
Qed.

Lemma in_firstn {A} (k : nat) (l : list A) (x : A) :
  In x (firstn k l) -> In x l.
Proof.
  revert l. induction k as [|k IH]; intros [|a l]; simpl; try tauto.
  intros [H | H]; [left; exact H | right; apply IH; exact H].
Qed.

Lemma slice_upto_incl {A} (n : Z) (l : list A) (x : A) :
  In x (Py.slice_upto n l) -> In x l.
Proof.
  unfold Py.slice_upto. destruct (0 <=? n); apply in_firstn.
Qed.

End SliceFacts.

(** ** A date written in the format is read back *)

Section DateFacts.
Import Py Datetime.

Lemma hd_pbind {A B} (p : parser A) (k : A -> parser B) (s r : list string)
  (a : A) (x : B * list string) :
  hd_error (p s) = Some (a, r) -> hd_error (k a r) = Some x ->
  hd_error (pbind p k s) = Some x.
Proof.
  unfold pbind. destruct (p s) as [|[a' r'] t]; [discriminate|].
  cbn [hd_error flat_map]. intros H. inversion H; subst.
  destruct (k a r); [discriminate|]. cbn. auto.
Qed.

Lemma p_day_text (d : Z) (rest : list string) :
  1 <= d <= 31 ->
  hd_error (p_day (singles (two_digits d) ++ rest)%list) = Some (d, rest).
Proof.
  intros H. rewrite <- (Z2Nat.id d) in * by lia.
  assert (Z.to_nat d < 32)%nat as Hk by lia.
  revert H Hk. generalize (Z.to_nat d) as k. intros k H Hk.
  do 32 (destruct k as [|k]; [first [exfalso; lia | vm_compute; reflexivity]|]).
  lia.
Qed.

Lemma length_map_str (f : ascii -> ascii) (s : string) :
  String.length (Py.map_str f s) = String.length s.
Proof. induction s as [|c s IH]; cbn; [reflexivity | now rewrite IH]. Qed.

Lemma firstn_singles (N : string) (rest : list string) :
  firstn (String.length N) (singles N ++ rest)%list = singles N /\
  skipn (String.length N) (singles N ++ rest)%list = rest.
Proof.
  rewrite <- (length_singles N). split.
  - rewrite firstn_app, Nat.sub_diag, firstn_all. cbn. apply app_nil_r.
  - rewrite skipn_app, Nat.sub_diag, skipn_all. reflexivity.
Qed.

(** A name of the list at the head of a text is found at its position, and
    the text goes on behind it. *)
Lemma name_index_text (names : list string) (k : Z) (i : nat)
  (N : string) (rest : list string) :
  (i < List.length names)%nat ->
  all_ascii N = true ->
  Py.lower N = nth i names EmptyString ->
  forallb (fun m =>
             (Nat.eqb (String.length m) (String.length (nth i names EmptyString)) &&
              negb (String.eqb m (nth i names EmptyString)))%bool)
    (firstn i names) = true ->
  hd_error (name_index names k (singles N ++ rest)%list) = Some (k + Z.of_nat i, rest).
Proof.
  revert k i. induction names as [|m r IH]; intros k i Hi Ha HN Hd;
    [cbn in Hi; lia|].
  assert (String.length (nth i (m :: r) EmptyString) = String.length N) as HL
    by (rewrite <- HN, (lower_ascii N Ha); apply length_map_str).
  destruct i as [|i]; cbn [nth firstn forallb name_index] in *.
  - rewrite HL. destruct (firstn_singles N rest) as [-> ->].
    rewrite cat_singles, HN, String.eqb_refl.
    cbn [app hd_error]. f_equal. f_equal. lia.
  - apply andb_true_iff in Hd. destruct Hd as [Hm Hd].
    apply andb_true_iff in Hm. destruct Hm as [Hlen Hne].
    apply Nat.eqb_eq in Hlen. apply negb_true_iff in Hne.
    rewrite Hlen, HL. destruct (firstn_singles N rest) as [-> _].
    rewrite cat_singles, HN, Hne.
    cbn [app].
    rewrite (IH (k + 1) i); [f_equal; f_equal; lia | | exact Ha | exact HN | exact Hd].
    cbn in Hi. lia.
Qed.

Lemma p_weekday_text (w : nat) (rest : list string) :
  (w < 7)%nat ->
  hd_error (p_weekday (singles (nth w day_names EmptyString) ++ rest)%list)
  = Some (1 + Z.of_nat w, rest).
Proof.
  intros H. unfold p_weekday. apply name_index_text.
  - exact H.
  - do 7 (destruct w as [|w]; [reflexivity|]). lia.
  - do 7 (destruct w as [|w]; [reflexivity|]). lia.
  - do 7 (destruct w as [|w]; [reflexivity|]). lia.
Qed.

Lemma p_month_text (m : Z) (rest : list string) :
  1 <= m <= 12 ->
  hd_error (p_month (singles (nth (Z.to_nat (m - 1)) month_names EmptyString)
                       ++ rest)%list)
  = Some (m, rest).
Proof.
  intros H. unfold p_month.
  replace m with (1 + Z.of_nat (Z.to_nat (m - 1))) at 2 by lia.
  assert (Z.to_nat (m - 1) < 12)%nat as Hk by lia.
  revert Hk. generalize (Z.to_nat (m - 1)) as k. intros k Hk.
  apply name_index_text.
  - exact Hk.
  - do 12 (destruct k as [|k]; [reflexivity|]). lia.
  - do 12 (destruct k as [|k]; [reflexivity|]). lia.
  - do 12 (destruct k as [|k]; [reflexivity|]). lia.
Qed.

Lemma p_char_text (c : ascii) (rest : list string) :
  hd_error (p_char c (String c EmptyString :: rest)) = Some (tt, rest).
Proof. cbn [p_char]. rewrite String.eqb_refl. reflexivity. Qed.

Lemma p_spaces_text (rest : list string) :
  head_space rest = false ->
  hd_error (p_spaces (" " :: rest)) = Some (tt, rest).
Proof.
  intros H. cbn [p_spaces]. change (isspace_char " ") with true. cbn iota.
  destruct rest as [|c r]; [reflexivity|].
  cbn [head_space] in H. cbn [p_spaces0]. rewrite H. reflexivity.
Qed.

Lemma p_hour_text (h : Z) (rest : list string) :
  0 <= h <= 23 ->
  hd_error (p_hour (singles (two_digits h) ++ rest)%list) = Some (h, rest).
Proof.
  intros H. rewrite <- (Z2Nat.id h) in * by lia.
  assert (Z.to_nat h < 24)%nat as Hk by lia.
  revert H Hk. generalize (Z.to_nat h) as k. intros k H Hk.
  do 24 (destruct k as [|k]; [first [exfalso; lia | vm_compute; reflexivity]|]).
  lia.
Qed.

Lemma p_minute_text (m : Z) (rest : list string) :
  0 <= m <= 59 ->
  hd_error (p_minute (singles (two_digits m) ++ rest)%list) = Some (m, rest).
Proof.
  intros H. rewrite <- (Z2Nat.id m) in * by lia.
  assert (Z.to_nat m < 60)%nat as Hk by lia.
  revert H Hk. generalize (Z.to_nat m) as k. intros k H Hk.
  do 60 (destruct k as [|k]; [first [exfalso; lia | vm_compute; reflexivity]|]).
  lia.
Qed.

Lemma p_second_text (m : Z) (rest : list string) :
  0 <= m <= 59 ->
  hd_error (p_second (singles (two_digits m) ++ rest)%list) = Some (m, rest).
Proof.
  intros H. rewrite <- (Z2Nat.id m) in * by lia.
  assert (Z.to_nat m < 60)%nat as Hk by lia.
  revert H Hk. generalize (Z.to_nat m) as k. intros k H Hk.
  do 60 (destruct k as [|k]; [first [exfalso; lia | vm_compute; reflexivity]|]).
  lia.
Qed.

Lemma digit_class (k : Z) :
  0 <= k <= 9 ->
  digit (String (digit_char k) EmptyString) = true /\
  Py.digit_value (String (digit_char k) EmptyString) = Some k /\
  Py.isspace_char (String (digit_char k) EmptyString) = false /\
  Py.is_ascii (digit_char k) = true.
Proof.
  intros H. rewrite <- (Z2Nat.id k) in * by lia.
  assert (Z.to_nat k < 10)%nat as Hk by lia.
  revert H Hk. generalize (Z.to_nat k) as n. intros n H Hk.
  do 10 (destruct n as [|n]; [repeat split; reflexivity|]). lia.
Qed.

Lemma p_year_text (y : Z) (rest : list string) :
  0 <= y <= 9999 ->
  hd_error (p_year (singles (four_digits y) ++ rest)%list) = Some (y, rest).
Proof.
  intros H. unfold p_year, number, four_digits, two_digits.
  cbn [append singles app flat_map match_classes].
  assert (0 <= y / 100 / 10 <= 9) as H1 by (Z.to_euclidean_division_equations; lia).
  assert (0 <= (y / 100) mod 10 <= 9) as H2 by (Z.to_euclidean_division_equations; lia).
  assert (0 <= y mod 100 / 10 <= 9) as H3 by (Z.to_euclidean_division_equations; lia).
  assert (0 <= (y mod 100) mod 10 <= 9) as H4 by (Z.to_euclidean_division_equations; lia).
  destruct (digit_class _ H1) as (A1 & B1 & _).
  destruct (digit_class _ H2) as (A2 & B2 & _).
  destruct (digit_class _ H3) as (A3 & B3 & _).
  destruct (digit_class _ H4) as (A4 & B4 & _).
  rewrite A1, A2, A3, A4. cbn [app hd_error digits_value].
  rewrite B1, B2, B3, B4.
  f_equal. f_equal. Z.to_euclidean_division_equations. lia.
Qed.

Lemma valid_date_facts (d : datetime) :
  valid_date d = true ->
  1 <= year d <= 9999 /\ 1 <= month d <= 12 /\
  1 <= day d <= days_in_month (year d) (month d) /\
  0 <= hour d <= 23 /\ 0 <= minute d <= 59 /\ 0 <= second d <= 59 /\
  microsecond d = 0.
Proof.
  unfold valid_date. rewrite !andb_true_iff, !Z.leb_le, Z.eqb_eq. tauto.
Qed.

Lemma days_in_month_max (y m : Z) : days_in_month y m <= 31.
Proof.
  unfold days_in_month.
  destruct (m =? 2); [destruct (is_leap y); lia|].
  destruct ((m =? 4) || (m =? 6) || (m =? 9) || (m =? 11))%bool; lia.
Qed.

Lemma two_digits_no_space (n : Z) (rest : list string) :
  0 <= n <= 99 -> head_space (singles (two_digits n) ++ rest)%list = false.
Proof.
  intros H. cbn [two_digits singles app head_space].
  assert (0 <= n / 10 <= 9) as H1 by (Z.to_euclidean_division_equations; lia).
  apply (digit_class _ H1).
Qed.

Lemma month_no_space (k : nat) (rest : list string) :
  (k < 12)%nat ->
  head_space (singles (nth k month_names EmptyString) ++ rest)%list = false.
Proof. intros H. do 12 (destruct k as [|k]; [reflexivity|]). lia. Qed.

(** The characters of a date in the format. *)
Lemma singles_rfc_text (w : nat) (d : datetime) :
  singles (rfc_text w d)
  = (singles (nth w day_names EmptyString) ++ "," :: " " ::
     singles (two_digits (day d)) ++ " " ::
     singles (nth (Z.to_nat (month d - 1)) month_names EmptyString) ++ " " ::
     singles (four_digits (year d)) ++ " " ::
     singles (two_digits (hour d)) ++ ":" ::
     singles (two_digits (minute d)) ++ ":" ::
     singles (two_digits (second d)) ++ [])%list.
Proof.
  unfold rfc_text. rewrite !singles_app. cbn [singles app].
  rewrite app_nil_r. reflexivity.
Qed.

Lemma p_rfc_text (w : nat) (d : datetime) :
  (w < 7)%nat -> valid_date d = true ->
  hd_error (p_rfc (singles (rfc_text w d)))
  = Some ((year d, month d, day d, hour d, minute d, second d), []).
Proof.
  intros Hw Hv.
  destruct (valid_date_facts d Hv) as (Hy & Hm & Hd & Hh & Hmi & Hs & _).
  pose proof (days_in_month_max (year d) (month d)) as Hmax.
  rewrite singles_rfc_text. unfold p_rfc.
  eapply hd_pbind; [apply p_weekday_text; exact Hw|].
  eapply hd_pbind; [apply p_char_text|].
  eapply hd_pbind; [apply p_spaces_text; apply two_digits_no_space; lia|].
  eapply hd_pbind; [apply p_day_text; lia|].
  eapply hd_pbind; [apply p_spaces_text; apply month_no_space; lia|].
  eapply hd_pbind; [apply p_month_text; lia|].
  eapply hd_pbind.
  { apply p_spaces_text. unfold four_digits. rewrite singles_app, <- app_assoc.
    apply two_digits_no_space. Z.to_euclidean_division_equations; lia. }
  eapply hd_pbind; [apply p_year_text; lia|].
  eapply hd_pbind; [apply p_spaces_text; apply two_digits_no_space; lia|].
  eapply hd_pbind; [apply p_hour_text; lia|].
  eapply hd_pbind; [apply p_char_text|].
  eapply hd_pbind; [apply p_minute_text; lia|].
  eapply hd_pbind; [apply p_char_text|].
  eapply hd_pbind; [apply p_second_text; lia|].
  reflexivity.
Qed.

Lemma all_ascii_app (a b : string) :
  all_ascii (a ++ b) = (all_ascii a && all_ascii b)%bool.
Proof.
  induction a as [|c a IH]; [reflexivity|].
  cbn [append all_ascii]. rewrite IH. apply andb_assoc.
Qed.

Lemma str_upto_ascii_app (p s : string) :
  all_ascii p = true -> Py.str_upto (String.length p) (p ++ s) = p.
Proof.
  induction p as [|c p IH]; intros H; [reflexivity|].
  cbn [all_ascii] in H. apply andb_true_iff in H. destruct H as [Hc Hp].
  cbn [String.length append]. rewrite (str_upto_ascii c _ _ Hc), (IH Hp).
  reflexivity.
Qed.

Lemma two_digits_ascii (n : Z) :
  0 <= n <= 99 ->
  all_ascii (two_digits n) = true /\ String.length (two_digits n) = 2%nat.
Proof.
  intros H. split; [|reflexivity]. unfold two_digits. cbn [all_ascii].
  assert (0 <= n / 10 <= 9) as H1 by (Z.to_euclidean_division_equations; lia).
  assert (0 <= n mod 10 <= 9) as H2 by (Z.to_euclidean_division_equations; lia).
  destruct (digit_class _ H1) as (_ & _ & _ & ->).
  destruct (digit_class _ H2) as (_ & _ & _ & ->). reflexivity.
Qed.

Lemma rfc_text_ascii (w : nat) (d : datetime) :
  (w < 7)%nat -> valid_date d = true ->
  all_ascii (rfc_text w d) = true /\ String.length (rfc_text w d) = 25%nat.
Proof.
  intros Hw Hv.
  destruct (valid_date_facts d Hv) as (Hy & Hm & Hd & Hh & Hmi & Hs & _).
  pose proof (days_in_month_max (year d) (month d)) as Hmax.
  unfold rfc_text, four_digits.
  assert (all_ascii (nth w day_names EmptyString) = true /\
          String.length (nth w day_names EmptyString) = 3%nat) as [A1 L1].
  { do 7 (destruct w as [|w]; [split; reflexivity|]). lia. }
  assert (all_ascii (nth (Z.to_nat (month d - 1)) month_names EmptyString) = true /\
          String.length (nth (Z.to_nat (month d - 1)) month_names EmptyString)
          = 3%nat) as [A2 L2].
  { assert (Z.to_nat (month d - 1) < 12)%nat as Hk by lia.
    revert Hk. generalize (Z.to_nat (month d - 1)) as k. intros k Hk.
    do 12 (destruct k as [|k]; [split; reflexivity|]). lia. }
  destruct (two_digits_ascii (day d) ltac:(lia)) as [A3 L3].
  destruct (two_digits_ascii (year d / 100)
              ltac:(Z.to_euclidean_division_equations; lia)) as [A4 L4].
  destruct (two_digits_ascii (year d mod 100)
              ltac:(Z.to_euclidean_division_equations; lia)) as [A5 L5].
  destruct (two_digits_ascii (hour d) ltac:(lia)) as [A6 L6].
  destruct (two_digits_ascii (minute d) ltac:(lia)) as [A7 L7].
  destruct (two_digits_ascii (second d) ltac:(lia)) as [A8 L8].
  split.
  - rewrite !all_ascii_app, A1, A2, A3, A4, A5, A6, A7, A8. reflexivity.
  - rewrite !length_app_str, L1, L2, L3, L4, L5, L6, L7, L8. reflexivity.
Qed.

(** A date written in the format is read back. *)
Lemma strptime_rfc_text (w : nat) (d : datetime) :
  (w < 7)%nat -> valid_date d = true -> strptime (rfc_text w d) = Py.Ok d.
Proof.
  intros Hw Hv. pose proof (p_rfc_text w d Hw Hv) as H.
  destruct (valid_date_facts d Hv) as (Hy & Hm & Hd & Hh & Hmi & Hs & Hu).
  unfold strptime.
  rewrite (chars_all_ascii _ (proj1 (rfc_text_ascii w d Hw Hv))).
  destruct (p_rfc (singles (rfc_text w d))) as [|[x r] t]; [discriminate|].
  cbn [hd_error] in H. inversion H; subst.
  assert ((year d <? 1) = false) as -> by (apply Z.ltb_ge; lia).
  assert ((days_in_month (year d) (month d) <? day d) = false) as ->
    by (apply Z.ltb_ge; lia).
  assert ((59 <? second d) = false) as -> by (apply Z.ltb_ge; lia).
  destruct d; cbn in *. subst. reflexivity.
Qed.

Lemma str_upto_rfc_text (w : nat) (d : datetime) (rest : string) :
  (w < 7)%nat -> valid_date d = true ->
  Py.str_upto 25 (rfc_text w d ++ rest) = rfc_text w d.
Proof.
  intros Hw Hv. destruct (rfc_text_ascii w d Hw Hv) as [A L].
  rewrite <- L. apply str_upto_ascii_app, A.
Qed.

End DateFacts.

(** ** The digest is 16 bytes, and its text 32 hexadecimal digits *)

Section DigestFacts.
Import Hashlib.

Lemma le_byte_range (w k : Z) : is_byte (Z.land (Z.shiftr w k) 255).
Proof.
  unfold is_byte. split.
  - apply Z.land_nonneg. right. lia.
  - change 255 with (Z.ones 8). rewrite Z.land_ones by lia.
    apply Z.mod_pos_bound. lia.
Qed.

(** The digest as its sixteen bytes. *)
Lemma md5_bytes (msg : list Z) :
  exists b0 b1 b2 b3 rest,
    md5 msg = b0 :: b1 :: b2 :: b3 :: rest /\
    is_byte b0 /\ is_byte b1 /\ is_byte b2 /\ is_byte b3 /\
    List.length rest = 12%nat /\ Forall is_byte rest.
Proof.
  unfold md5. set (st := blocks _ _ _). clearbody st.
  cbn [le_bytes map seq app].
  do 5 eexists. split; [reflexivity|].
  repeat split; try apply le_byte_range.
  repeat constructor; apply le_byte_range.
Qed.

Lemma hex_value_digit (n : Z) :
  0 <= n < 16 -> Py.hex_value (Py.hex_digit n) = Some n.
Proof.
  intros H. rewrite <- (Z2Nat.id n) by lia.
  assert (Z.to_nat n < 16)%nat as Hk by lia.
  revert Hk. generalize (Z.to_nat n) as k. intros k Hk.
  do 16 (destruct k as [|k]; [reflexivity|]). lia.
Qed.

Lemma nibble_hi (b : Z) : 0 <= b < 256 -> 0 <= b / 16 < 16.
Proof.
  intros H. split; [apply Z.div_pos; lia | apply Z.div_lt_upper_bound; lia].
Qed.

Lemma nibble_lo (b : Z) : 0 <= b < 256 -> 0 <= b mod 16 < 16.
Proof. intros _. apply Z.mod_pos_bound. lia. Qed.

Lemma int16_hex4 (b0 b1 b2 b3 : Z) (rest : list Z) :
  is_byte b0 -> is_byte b1 -> is_byte b2 -> is_byte b3 ->
  Py.int16 (Py.str_upto 8 (hex (b0 :: b1 :: b2 :: b3 :: rest)))
  = Py.Ok (be32 b0 b1 b2 b3).
Proof.
  unfold is_byte. intros H0 H1 H2 H3.
  cbn [hex].
  rewrite !str_upto_ascii
    by (apply hex_digit_ascii; first [apply nibble_hi | apply nibble_lo];
        assumption).
  change (Py.str_upto 0 (hex rest)) with EmptyString.
  unfold Py.int16. cbn [Py.int16_go].
  rewrite !hex_value_digit by (first [apply nibble_hi | apply nibble_lo]; assumption).
  cbn [Py.int16_go]. f_equal. unfold be32.
  pose proof (Z.div_mod b0 16 ltac:(lia)) as E0.
  pose proof (Z.div_mod b1 16 ltac:(lia)) as E1.
  pose proof (Z.div_mod b2 16 ltac:(lia)) as E2.
  pose proof (Z.div_mod b3 16 ltac:(lia)) as E3.
  generalize dependent (b0 / 16). generalize dependent (b0 mod 16).
  generalize dependent (b1 / 16). generalize dependent (b1 mod 16).
  generalize dependent (b2 / 16). generalize dependent (b2 mod 16).
  generalize dependent (b3 / 16). generalize dependent (b3 mod 16).
  intros. lia.
Qed.

Lemma be32_range (b0 b1 b2 b3 : Z) :
  is_byte b0 -> is_byte b1 -> is_byte b2 -> is_byte b3 ->
  0 <= be32 b0 b1 b2 b3 < 2 ^ 32.
Proof. unfold is_byte, be32. lia. Qed.

Lemma hex_length (bs : list Z) :
  String.length (hex bs) = (2 * List.length bs)%nat.
Proof. induction bs as [|b bs IH]; simpl; [reflexivity | rewrite IH; lia]. Qed.

End DigestFacts.

(** ** The Mersenne Twister satisfies the laws of the generator *)

Section TwisterFacts.
Import MT19937.

Lemma genrand_nonneg (g : state) : 0 <= fst (genrand_uint32 g).
Proof.
  unfold genrand_uint32. cbn [fst]. unfold temper.
  apply Z.land_nonneg. right. unfold mask32. lia.
Qed.

Lemma getrandbits_go_nonneg (w : nat) (k : Z) (g : state) :
  0 <= fst (getrandbits_go w k g).
Proof.
  revert k g. induction w as [|w IH]; intros k g; cbn [getrandbits_go].
  - simpl. lia.
  - pose proof (genrand_nonneg g) as Hr.
    destruct (genrand_uint32 g) as [r g1]. cbn [fst] in Hr.
    specialize (IH (k - 32) g1).
    destruct (getrandbits_go w (k - 32) g1) as [hi g2]. cbn [fst] in *.
    assert (0 <= (if k <? 32 then Z.shiftr r (32 - k) else r)).
    { destruct (k <? 32); [apply Z.shiftr_nonneg|]; assumption. }
    lia.
Qed.

Lemma randbelow_go_range (fuel : nat) (n k : Z) (g : state) :
  0 < n -> 0 <= fst (randbelow_go fuel n k g) < n.
Proof.
  intros Hn. revert g. induction fuel as [|f IH]; intros g; cbn [randbelow_go];
    pose proof (getrandbits_go_nonneg (Z.to_nat ((k - 1) / 32 + 1)) k g) as Hr;
    fold (getrandbits k g) in Hr;
    destruct (getrandbits k g) as [r g']; cbn [fst] in Hr;
    destruct (r <? n) eqn:E.
  - apply Z.ltb_lt in E. cbn [fst]. lia.
  - cbn [fst]. lia.
  - apply Z.ltb_lt in E. cbn [fst]. lia.
  - apply IH.
Qed.

End TwisterFacts.

#[export] Instance MT_laws : Random.RandomGenLaws MT.
Proof.
  constructor. intros n g Hn. apply randbelow_go_range. exact Hn.
Qed.

(* ================================================================== *)
(** * Properties of the gateway *)
(* ================================================================== *)

Section GatewayFacts.
Import Py Gateway.

Variable session_get : string -> result FeedResponse.
Variable clock : nat -> Datetime.datetime.

Lemma parse_date_claimed (now : Datetime.datetime) (item : ET.Element) :
  parse_date now (ET.find item "pubDate") = claimed_date now (date_text item).
Proof.
  unfold parse_date, claimed_date, date_text.
  destruct (ET.find item "pubDate") as [e|]; [|reflexivity].
  destruct (ET.text e) as [s|]; [|reflexivity].
  destruct s as [|c s]; reflexivity.
Qed.

Lemma item_article_some (c : string) (i : nat) (item : ET.Element) (it : NewsItem) :
  item_article clock c i item = Ok (Some it) ->
  category it = c /\ item_fields item it /\
  pub_date it = parse_date (clock i) (ET.find item "pubDate").
Proof.
  unfold item_article, item_fields, text_strip.
  destruct (ET.find item "title") as [t|];
    destruct (ET.find item "description") as [d|];
    destruct (ET.find item "link") as [l|]; try discriminate.
  destruct (ET.text t) as [ts|] eqn:Ets; [|discriminate].
  destruct (ET.text d) as [ds|] eqn:Eds; [|discriminate].
  destruct (ET.text l) as [ls|] eqn:Els; [|discriminate].
  cbn [bind]. intros H. inversion H; subst; clear H. cbn.
  split; [reflexivity|]. split; [|reflexivity].
  exists t, d, l, ts, ds, ls. repeat split; auto.
Qed.

Lemma item_article_cases (c : string) (i : nat) (item : ET.Element) :
  (exists o, item_article clock c i item = Ok o) \/
  item_article clock c i item = Raise attribute_error.
Proof.
  unfold item_article, text_strip.
  destruct (ET.find item "title") as [t|];
    destruct (ET.find item "description") as [d|];
    destruct (ET.find item "link") as [l|];
    try (left; eexists; reflexivity).
  destruct (ET.text t); [|right; reflexivity].
  destruct (ET.text d); [|right; reflexivity].
  destruct (ET.text l); [|right; reflexivity].
  left. eexists. reflexivity.
Qed.

Lemma item_article_null (c : string) (i : nat) (item : ET.Element) :
  null_text item -> item_article clock c i item = Raise attribute_error.
Proof.
  intros (t & d & l & Ht & Hd & Hl & H).
  unfold item_article, text_strip. rewrite Ht, Hd, Hl.
  destruct (ET.text t); [|reflexivity].
  destruct (ET.text d); [|reflexivity].
  destruct (ET.text l); [|reflexivity].
  destruct H as [H | [H | H]]; discriminate.
Qed.

Lemma articles_loop_ok (c : string) (items : list ET.Element) :
  forall i acc l,
    articles_loop clock c i items acc = Ok l ->
    exists new,
      l = (acc ++ new)%list /\ (List.length new <= List.length items)%nat /\
      Forall (fun it => category it = c /\
                        exists item, In item items /\ item_fields item it) new.
Proof.
  induction items as [|item items IH]; intros i acc l H; cbn [articles_loop] in H.
  - inversion H; subst. exists []. rewrite app_nil_r. repeat split; auto.
  - destruct (item_article clock c i item) as [o|e] eqn:E; [|discriminate].
    cbn [bind] in H. apply IH in H. destruct H as (new & -> & Hlen & Hall).
    assert (Forall (fun it => category it = c /\
              exists x, In x (item :: items) /\ item_fields x it) new) as Hall'.
    { eapply Forall_impl; [|exact Hall]. intros it [Hc [x [Hin Hf]]].
      split; [exact Hc|]. exists x. split; [right; exact Hin | exact Hf]. }
    destruct o as [x|].
    + exists (x :: new). rewrite <- app_assoc. split; [reflexivity|].
      split; [simpl; lia|]. constructor; [|exact Hall'].
      apply item_article_some in E. destruct E as (Hc & Hf & _).
      split; [exact Hc|]. exists item. split; [left; reflexivity | exact Hf].
    + exists new. split; [reflexivity|]. split; [simpl; lia | exact Hall'].
Qed.

Lemma articles_loop_null (c : string) (items : list ET.Element) :
  forall i acc item,
    In item items -> null_text item ->
    articles_loop clock c i items acc = Raise attribute_error.
Proof.
  induction items as [|x items IH]; intros i acc item Hin Hnull; [contradiction|].
  cbn [articles_loop]. destruct Hin as [-> | Hin].
  - rewrite (item_article_null c i item Hnull). reflexivity.
  - destruct (item_article_cases c i x) as [[o ->] | ->]; [|reflexivity].
    cbn [bind]. eapply IH; eassumption.
Qed.

(** A fetch answers with at most [n] articles when [n] is not negative. *)
Lemma fetch_length (c url : string) (n : Z) :
  0 <= n ->
  Z.of_nat (List.length (fetch_bbc_feed session_get clock c url n)) <= n.
Proof.
  intros Hn. unfold fetch_bbc_feed, fetch_body.
  destruct (session_get url) as [response|e]; cbn [bind]; [|simpl; lia].
  destruct (negb (feed_status response =? 200)); [simpl; lia|].
  destruct (feed_xml response) as [root|e]; cbn [bind]; [|simpl; lia].
  destruct (articles_loop _ _ _ _ _) as [l|e] eqn:E; [|simpl; lia].
  apply articles_loop_ok in E. destruct E as (new & -> & Hlen & _).
  pose proof (slice_upto_length n (ET.findall_descendants root "item") Hn).
  simpl. lia.
Qed.

(** A failed fetch answers with the empty list. *)
Lemma fetch_failed (c url : string) (n : Z) :
  feed_failed (session_get url) -> fetch_bbc_feed session_get clock c url n = [].
Proof.
  unfold feed_failed, fetch_bbc_feed, fetch_body.
  destruct (session_get url) as [response|e]; cbn [bind]; [|reflexivity].
  intros [H | [e H]].
  - apply Z.eqb_neq in H. rewrite H. reflexivity.
  - rewrite H. destruct (negb _); reflexivity.
Qed.

(** Where the articles of a fetch come from. *)
Lemma fetch_articles (c url : string) (n : Z) (it : NewsItem) :
  In it (fetch_bbc_feed session_get clock c url n) ->
  category it = c /\
  exists root item,
    session_get url = Ok (mkFeedResponse 200 (Ok root)) /\
    In item (slice_upto n (ET.findall_descendants root "item")) /\
    item_fields item it.
Proof.
  unfold fetch_bbc_feed, fetch_body.
  destruct (session_get url) as [[st x]|e]; cbn [bind feed_status feed_xml];
    [|contradiction].
  destruct (st =? 200) eqn:Est; cbn [negb]; [|contradiction].
  apply Z.eqb_eq in Est. subst st.
  destruct x as [root|e]; cbn [bind]; [|contradiction].
  destruct (articles_loop _ _ _ _ _) as [l|e] eqn:E; [|contradiction].
  apply articles_loop_ok in E. destruct E as (new & -> & _ & Hall).
  cbn [app]. intros Hin. rewrite Forall_forall in Hall.
  destruct (Hall it Hin) as [Hc [item [Hitem Hf]]].
  split; [exact Hc|]. exists root, item. auto.
Qed.

End GatewayFacts.

Section GatewayClaims.
Import Py Http Gateway.

(** The relay call ran into its 60-second bound: the gateway answers 504. *)
Lemma relay_timeout_504 (url : option string)
  (session_post : string -> Json.json -> result RelayResponse)
  (request : TransformRequest) :
  (forall u b, session_post u b = Raise TimeoutError) ->
  transform_article url session_post request
  = Raise (HTTPException 504 "Transformer service timeout").
Proof.
  intros H. unfold transform_article, relay. rewrite H. reflexivity.
Qed.

(** The relay call came back with another status than 200: the exception
    that carries that status is raised inside the [try], so the last handler
    turns it into a 500. *)
Lemma relay_non200_500 (url : option string)
  (session_post : string -> Json.json -> result RelayResponse)
  (request : TransformRequest) (response : RelayResponse) (body : string) :
  (forall u b, session_post u b = Ok response) ->
  relay_status response <> 200 ->
  relay_text response = Ok body ->
  transform_article url session_post request
  = Raise (HTTPException 500
             ("Transformation failed: " ++ str_of_int (relay_status response)
              ++ ": Transformer service error: " ++ body)).
Proof.
  intros H Hs Ht. unfold transform_article, relay. rewrite H. cbn [bind].
  apply Z.eqb_neq in Hs. rewrite Hs, Ht. reflexivity.
Qed.

Lemma relay_timeout_504_witness :
  transform_article None Samples.upstream_timeout Samples.request
  = Raise (HTTPException 504 "Transformer service timeout").
Proof.
  apply (relay_timeout_504 None Samples.upstream_timeout Samples.request).
  reflexivity.
Defined.

Lemma relay_non200_500_witness :
  http_status (transform_article None Samples.upstream_503 Samples.request) = 500.
Proof.
  rewrite (relay_non200_500 None Samples.upstream_503 Samples.request
             (mkRelayResponse 503
                (Raise (Exception "ContentTypeError" "unexpected mimetype"))
                (Ok "upstream down")) "upstream down").
  - reflexivity.
  - reflexivity.
  - cbn. lia.
  - reflexivity.
Defined.

(** C1, at an upstream answer of 503 with the body [upstream down]: the
    gateway answers 500, not 503; the upstream status and body only appear
    inside the detail. *)
Theorem relay_503_answered_with_500 :
  transform_article None Samples.upstream_503 Samples.request
  = Raise (HTTPException 500
             "Transformation failed: 503: Transformer service error: upstream down")
  /\ http_status (transform_article None Samples.upstream_503 Samples.request) = 500
  /\ http_status (transform_article None Samples.upstream_503 Samples.request) <> 503.
Proof.
  assert (transform_article None Samples.upstream_503 Samples.request
          = Raise (HTTPException 500
              "Transformation failed: 503: Transformer service error: upstream down"))
    as E by (vm_compute; reflexivity).
  rewrite E. cbn [http_status]. repeat split. discriminate.
Qed.

Lemma get_of_zip {V W} (f : string -> V -> W) (d : Dict.dict V) (c : string) :
  Dict.get (Dict.of_zip (Dict.keys d) (map (fun '(k, v) => f k v) d)) c
  = option_map (f c) (Dict.get d c).
Proof.
  unfold Dict.of_zip, Dict.keys.
  induction d as [|[k v] d IH]; cbn [map fst combine Dict.get]; [reflexivity|].
  destruct (String.eqb k c) eqn:E; [|exact IH].
  apply String.eqb_eq in E. subst. reflexivity.
Qed.

(** A fetch only looks at what its own feed answers. *)
Lemma fetch_ext (sg sg' : string -> result FeedResponse)
  (clock : nat -> Datetime.datetime) (c url : string) (n : Z) :
  sg' url = sg url ->
  fetch_bbc_feed sg' clock c url n = fetch_bbc_feed sg clock c url n.
Proof.
  intros H. unfold fetch_bbc_feed, fetch_body. rewrite H. reflexivity.
Qed.

(** C4, amended: for [limit = n] with [0 <= n], [GET /news] returns a
    dictionary (no exception) whose keys are the configured categories; the
    entry of each category has at most [n] articles, is empty when the fetch
    of that feed failed, and is the same whatever the other feeds answer. *)
Theorem all_news_entries (session_get : string -> result FeedResponse)
  (clock : string -> nat -> Datetime.datetime) (n : Z) :
  0 <= n ->
  exists d,
    get_all_news session_get clock (Some n) = Ok d /\
    Dict.keys d = Dict.keys BBC_FEEDS /\
    forall c url,
      Dict.get BBC_FEEDS c = Some url ->
      exists l,
        Dict.get d c = Some l /\
        Z.of_nat (List.length l) <= n /\
        (feed_failed (session_get url) -> l = []) /\
        forall session_get',
          session_get' url = session_get url ->
          exists d', get_all_news session_get' clock (Some n) = Ok d' /\
                     Dict.get d' c = Some l.
Proof.
  intros Hn. unfold get_all_news. eexists. split; [reflexivity|].
  split; [reflexivity|]. intros c url Hc.
  exists (fetch_bbc_feed session_get (clock c) c url n).
  split; [|split; [|split]].
  - rewrite (get_of_zip (fun k v => fetch_bbc_feed session_get (clock k) k v n)).
    rewrite Hc. reflexivity.
  - apply fetch_length. exact Hn.
  - apply fetch_failed.
  - intros sg' H. eexists. split; [reflexivity|].
    rewrite (get_of_zip (fun k v => fetch_bbc_feed sg' (clock k) k v n)).
    rewrite Hc. cbn [option_map]. f_equal. apply fetch_ext. exact H.
Qed.

Lemma all_news_entries_witness :
  0 <= 1 /\
  exists d,
    get_all_news (Samples.world_only [Samples.item_dated; Samples.item_undated])
      (fun _ => Samples.clock) (Some 1) = Ok d /\
    Dict.get d "world" = Some [Samples.article_dated] /\
    Dict.get d "health" = Some [].
Proof.
  split; [lia|].
  destruct (all_news_entries
              (Samples.world_only [Samples.item_dated; Samples.item_undated])
              (fun _ => Samples.clock) 1 ltac:(lia)) as (d & Hd & _ & _).
  exists d. split; [exact Hd|].
  vm_compute in Hd. inversion Hd; subst d. vm_compute. split; reflexivity.
Defined.

(** C4 as stated fails at [limit = -1]: of the two articles of the world
    feed one is returned, which is more than [-1]. *)
Lemma all_news_negative_limit :
  exists d l,
    get_all_news (Samples.world_only [Samples.item_dated; Samples.item_undated])
      (fun _ => Samples.clock) (Some (-1)) = Ok d /\
    Dict.get d "world" = Some l /\
    ~ Z.of_nat (List.length l) <= -1.
Proof.
  eexists. eexists. split; [vm_compute; reflexivity|].
  split; [vm_compute; reflexivity|]. cbn. lia.
Qed.

(** C5, amended: an unknown category is answered 404; for a configured one
    and [limit = n] with [0 <= n] the answer has at most [n] articles, each
    labelled with the requested key and holding the stripped texts of the
    title, description and link of one of the first [n] items of the feed
    (a stripped text may be empty); without a [limit] the bound is 10. *)
Theorem news_by_category (session_get : string -> result FeedResponse)
  (clock : nat -> Datetime.datetime) (c : string) (n : Z) :
  (Dict.get BBC_FEEDS c = None ->
   forall limit,
     get_news_by_category session_get clock c limit
     = Raise (HTTPException 404 ("Category '" ++ c ++ "' not found")) /\
     http_status (get_news_by_category session_get clock c limit) = 404) /\
  (forall url,
     Dict.get BBC_FEEDS c = Some url -> 0 <= n ->
     exists l,
       get_news_by_category session_get clock c (Some n) = Ok l /\
       Z.of_nat (List.length l) <= n /\
       Forall (fun it =>
                 category it = c /\
                 exists root item,
                   session_get url = Ok (mkFeedResponse 200 (Ok root)) /\
                   In item (slice_upto n (ET.findall_descendants root "item")) /\
                   item_fields item it) l) /\
  get_news_by_category session_get clock c None
  = get_news_by_category session_get clock c (Some 10).
Proof.
  split; [|split].
  - intros H limit. unfold get_news_by_category. rewrite H. split; reflexivity.
  - intros url H Hn. unfold get_news_by_category. rewrite H.
    eexists. split; [reflexivity|]. split; [apply fetch_length; exact Hn|].
    apply Forall_forall. intros it Hin. eapply fetch_articles. exact Hin.
  - reflexivity.
Qed.

Lemma news_by_category_witness :
  http_status (get_news_by_category
                 (Samples.world_only [Samples.item_dated; Samples.item_undated])
                 Samples.clock "sport" (Some 1)) = 404 /\
  exists l,
    get_news_by_category
      (Samples.world_only [Samples.item_dated; Samples.item_undated])
      Samples.clock "world" (Some 1) = Ok l /\
    l = [Samples.article_dated] /\ Z.of_nat (List.length l) <= 1.
Proof.
  split.
  - apply (proj1 (news_by_category
                    (Samples.world_only [Samples.item_dated; Samples.item_undated])
                    Samples.clock "sport" 1)); reflexivity.
  - destruct (proj1 (proj2 (news_by_category
                    (Samples.world_only [Samples.item_dated; Samples.item_undated])
                    Samples.clock "world" 1)) Samples.world_url eq_refl ltac:(lia))
      as (l & Hl & Hlen & _).
    exists l. split; [exact Hl|]. split; [|exact Hlen].
    vm_compute in Hl. inversion Hl. reflexivity.
Defined.

(** C5 as stated fails twice: a title that is a single space gives an
    article with an empty title, and [limit = -1] gives one article of two,
    which is more than [-1]. *)
Lemma news_by_category_empty_title :
  (exists it,
     get_news_by_category (Samples.world_only [Samples.item_blank_title])
       Samples.clock "world" (Some 10) = Ok [it] /\
     title it = EmptyString) /\
  (exists l,
     get_news_by_category
       (Samples.world_only [Samples.item_dated; Samples.item_undated])
       Samples.clock "world" (Some (-1)) = Ok l /\
     ~ Z.of_nat (List.length l) <= -1).
Proof.
  split.
  - eexists. split; [vm_compute; reflexivity | reflexivity].
  - eexists. split; [vm_compute; reflexivity | cbn; lia].
Qed.

(** C8: an accepted item carries the date the specification describes, the
    parse of the first 25 characters of the date text or else the reading
    of the clock.  A date text that starts with a day name, a comma, the day
    in two digits, a month name, the year in four digits and the time,
    whatever follows these 25 characters, gives that date and time; an item
    without a date text, or with one that the parse refuses, gets the
    reading of the clock; an item with its three texts is accepted whatever
    its date field holds; and [s[:25]] is the start of [s], 25 characters
    long unless [s] is shorter. *)
Theorem accepted_item_date (clock : nat -> Datetime.datetime) (c : string)
  (i : nat) (item : ET.Element) :
  (forall it,
     item_article clock c i item = Ok (Some it) ->
     pub_date it = claimed_date (clock i) (date_text item)) /\
  (forall it weekday d rest,
     item_article clock c i item = Ok (Some it) ->
     (weekday < 7)%nat -> valid_date d = true ->
     date_text item = Some (rfc_text weekday d ++ rest) ->
     pub_date it = d) /\
  (forall it,
     item_article clock c i item = Ok (Some it) ->
     date_text item = None -> pub_date it = clock i) /\
  (forall it s e,
     item_article clock c i item = Ok (Some it) ->
     date_text item = Some s ->
     Datetime.strptime (str_upto 25 s) = Raise e ->
     pub_date it = clock i) /\
  (forall t d l ts ds ls,
     ET.find item "title" = Some t -> ET.find item "description" = Some d ->
     ET.find item "link" = Some l ->
     ET.text t = Some ts -> ET.text d = Some ds -> ET.text l = Some ls ->
     item_article clock c i item
     = Ok (Some (mkNewsItem (strip ts) (strip ds) (strip ls)
                   (claimed_date (clock i) (date_text item)) c))) /\
  (forall s,
     (exists rest, s = str_upto 25 s ++ rest) /\
     len (str_upto 25 s) = Nat.min 25 (len s)).
Proof.
  assert (forall it,
            item_article clock c i item = Ok (Some it) ->
            pub_date it = claimed_date (clock i) (date_text item)) as Hdate.
  { intros it H. apply item_article_some in H. destruct H as (_ & _ & H).
    rewrite H. apply parse_date_claimed. }
  split; [exact Hdate|]. split; [|split; [|split; [|split]]].
  - intros it w d rest H Hw Hv Ht. rewrite (Hdate it H), Ht.
    cbn [claimed_date]. rewrite (str_upto_rfc_text w d rest Hw Hv).
    rewrite (strptime_rfc_text w d Hw Hv). reflexivity.
  - intros it H Ht. rewrite (Hdate it H), Ht. reflexivity.
  - intros it s e H Ht He. rewrite (Hdate it H), Ht.
    cbn [claimed_date]. rewrite He. reflexivity.
  - intros t d l ts ds ls Ht Hd Hl Hts Hds Hls.
    unfold item_article, text_strip. rewrite Ht, Hd, Hl, Hts, Hds, Hls.
    cbn [bind]. rewrite parse_date_claimed. reflexivity.
  - intros s. split; [apply str_upto_prefix | apply str_upto_len].
Qed.

Lemma accepted_item_date_witness :
  item_article Samples.clock "world" 0 Samples.item_dated
  = Ok (Some Samples.article_dated) /\
  date_text Samples.item_dated
  = Some (rfc_text 0 (Datetime.mkDatetime 2024 1 1 12 0 0 0) ++ " GMT") /\
  pub_date Samples.article_dated = Datetime.mkDatetime 2024 1 1 12 0 0 0 /\
  item_article Samples.clock "world" 1 Samples.item_undated
  = Ok (Some Samples.article_undated) /\
  pub_date Samples.article_undated = Samples.clock 1.
Proof.
  assert (item_article Samples.clock "world" 0 Samples.item_dated
          = Ok (Some Samples.article_dated)) as E0 by (vm_compute; reflexivity).
  assert (item_article Samples.clock "world" 1 Samples.item_undated
          = Ok (Some Samples.article_undated)) as E1 by (vm_compute; reflexivity).
  split; [exact E0|]. split; [reflexivity|]. split.
  - apply (proj1 (proj2 (accepted_item_date Samples.clock "world" 0
                           Samples.item_dated))
             Samples.article_dated 0%nat (Datetime.mkDatetime 2024 1 1 12 0 0 0)
             " GMT" E0); [lia | reflexivity | reflexivity].
  - split; [exact E1|].
    apply (proj1 (proj2 (proj2 (accepted_item_date Samples.clock "world" 1
                                  Samples.item_undated)))
             Samples.article_undated E1).
    reflexivity.
Defined.

(** C9, amended: when one of the first [limit] items of a fetched feed has
    its title, description and link all present and one of them without
    text, stripping that text raises inside the [try] and the fetch of the
    whole category answers with the empty list. *)
Theorem null_text_empties_feed (session_get : string -> result FeedResponse)
  (clock : nat -> Datetime.datetime) (c url : string) (limit : Z)
  (response : FeedResponse) (root item : ET.Element) :
  session_get url = Ok response ->
  feed_status response = 200 ->
  feed_xml response = Ok root ->
  In item (slice_upto limit (ET.findall_descendants root "item")) ->
  null_text item ->
  fetch_body session_get clock c url limit = Raise attribute_error /\
  fetch_bbc_feed session_get clock c url limit = [].
Proof.
  intros Hget Hst Hxml Hin Hnull.
  assert (fetch_body session_get clock c url limit = Raise attribute_error) as E.
  { unfold fetch_body. rewrite Hget. cbn [bind]. rewrite Hst, Hxml. cbn [bind].
    change (negb (200 =? 200)) with false. cbv iota.
    eapply articles_loop_null; eassumption. }
  split; [exact E|]. unfold fetch_bbc_feed. rewrite E. reflexivity.
Qed.

Lemma null_text_empties_feed_witness :
  fetch_bbc_feed
    (Samples.world_only [Samples.item_dated; Samples.item_null_title])
    Samples.clock "world" Samples.world_url 10 = [].
Proof.
  apply (null_text_empties_feed
           (Samples.world_only [Samples.item_dated; Samples.item_null_title])
           Samples.clock "world" Samples.world_url 10
           (mkFeedResponse 200
              (Ok (Samples.rss [Samples.item_dated; Samples.item_null_title])))
           (Samples.rss [Samples.item_dated; Samples.item_null_title])
           Samples.item_null_title).
  - reflexivity.
  - reflexivity.
  - reflexivity.
  - vm_compute. right. left. reflexivity.
  - exists (Samples.bare "title"), (Samples.leaf "description" "Bring a coat."),
      (Samples.leaf "link" "https://www.bbc.co.uk/news/4").
    repeat split. left. reflexivity.
Defined.

(** C9 as stated fails when the item lacks another of the three elements:
    a first item that is only a title without text is skipped, and the
    article of the second item is returned. *)
Lemma null_title_alone_is_skipped :
  In Samples.item_title_only
    (slice_upto 10
       (ET.findall_descendants
          (Samples.rss [Samples.item_title_only; Samples.item_undated]) "item")) /\
  (exists t, ET.find Samples.item_title_only "title" = Some t /\ ET.text t = None) /\
  fetch_bbc_feed
    (Samples.world_only [Samples.item_title_only; Samples.item_undated])
    Samples.clock "world" Samples.world_url 10
  = [Samples.article_undated] /\
  fetch_bbc_feed
    (Samples.world_only [Samples.item_title_only; Samples.item_undated])
    Samples.clock "world" Samples.world_url 10 <> [].
Proof.
  assert (fetch_bbc_feed
            (Samples.world_only [Samples.item_title_only; Samples.item_undated])
            Samples.clock "world" Samples.world_url 10
          = [Samples.article_undated]) as E by (vm_compute; reflexivity).
  split; [vm_compute; left; reflexivity|].
  split; [eexists; split; reflexivity|].
  split; [exact E|]. rewrite E. discriminate.
Qed.

End GatewayClaims.

(* ================================================================== *)
(** * Properties of the transformer *)
(* ================================================================== *)

Section TransformerFacts.
Import Py Transformer.
Context {R : Random.RandomGen} {L : Random.RandomGenLaws R}.

Lemma digest_prefix_range (a : NewsItem) : 0 <= digest_prefix a < 2 ^ 32.
Proof.
  unfold digest_prefix.
  destruct (md5_bytes (byte_values (title a)))
    as (b0 & b1 & b2 & b3 & rest & -> & H0 & H1 & H2 & H3 & _).
  apply be32_range; assumption.
Qed.

Lemma title_seed_ok (a : NewsItem) :
  encodable (title a) = true -> title_seed a = Ok (digest_prefix a).
Proof.
  intros He. unfold title_seed, digest_prefix, Hashlib.md5_hexdigest.
  rewrite (encode_encodable _ He). cbn [bind].
  destruct (md5_bytes (byte_values (title a)))
    as (b0 & b1 & b2 & b3 & rest & -> & H0 & H1 & H2 & H3 & _).
  apply int16_hex4; assumption.
Qed.

(** A title that cannot be encoded: the exception of [encode] leaves the
    generator before the seeding, with the state it had. *)
Lemma mock_transformation_raises (a : NewsItem) (g : Random.rng) :
  encodable (title a) = false ->
  exists e, encode (title a) = Raise e /\ mock_transformation a g = (Raise e, g).
Proof.
  intros He. destruct (encode_surrogate _ He) as [e E]. exists e.
  split; [exact E|].
  unfold mock_transformation, Random.mbind at 1, Random.lift, title_seed.
  rewrite E. reflexivity.
Qed.

Lemma index_ok {A} (l : list A) (i : Z) (d : A) :
  0 <= i < Z.of_nat (List.length l) ->
  Random.index l i = Ok (nth (Z.to_nat i) l d).
Proof.
  intros H. unfold Random.index.
  destruct (i <? 0) eqn:E; [apply Z.ltb_lt in E; lia|]. rewrite E.
  rewrite (nth_error_nth' l d) by lia. reflexivity.
Qed.

Lemma choice_pick (l : list string) (g : Random.rng) :
  l <> [] ->
  Random.choice l g = (Ok (fst (pick l g)), snd (pick l g)).
Proof.
  intros Hl. unfold Random.choice, pick.
  destruct l as [|x l]; [contradiction|].
  pose proof (Random.randbelow_range (Z.of_nat (List.length (x :: l))) g) as Hr.
  destruct (Random.randbelow _ g) as [i g']. cbn [fst snd] in *.
  rewrite (index_ok (x :: l) i EmptyString); [reflexivity|].
  apply Hr. simpl List.length. lia.
Qed.

Lemma pick_in (l : list string) (g : Random.rng) :
  l <> [] -> In (fst (pick l g)) l.
Proof.
  intros Hl. unfold pick.
  pose proof (Random.randbelow_range (Z.of_nat (List.length l)) g) as Hr.
  destruct (Random.randbelow _ g) as [i g']. cbn [fst] in *.
  apply nth_In. destruct l; [contradiction|]. simpl List.length in *. lia.
Qed.

Lemma select_title_headline (a : NewsItem) (g : Random.rng) :
  select_title a g = (Ok (fst (headline_from a g)), snd (headline_from a g)).
Proof.
  unfold select_title, headline_from, political, medical, financial, technical,
    mentions.
  repeat match goal with
         | |- context [if ?b then _ else _] => destruct b
         end; try reflexivity.
  apply choice_pick. discriminate.
Qed.

Lemma randint_age (g : Random.rng) :
  Random.randint 25 65 g
  = (Ok (25 + fst (Random.randbelow 41 g)), snd (Random.randbelow 41 g)).
Proof.
  unfold Random.randint. change (65 + 1 - 25) with 41.
  destruct (Random.randbelow 41 g). reflexivity.
Qed.

(** The mock generator is the chain of draws from the seed of the title,
    whatever the state of the generator was before. *)
Lemma mock_transformation_seeded (a : NewsItem) (g : Random.rng) :
  encodable (title a) = true ->
  mock_transformation a g
  = (Ok (fst (seeded_article a (digest_prefix a))),
     snd (seeded_article a (digest_prefix a))).
Proof.
  intros He. unfold mock_transformation, seeded_article.
  unfold Random.mbind at 1. unfold Random.lift.
  rewrite (title_seed_ok a He).
  unfold Random.mbind at 1. unfold Random.set_seed.
  unfold Random.mbind at 1. rewrite select_title_headline.
  destruct (headline_from a (Random.seed (digest_prefix a))) as [t g1].
  cbn [fst snd].
  unfold Random.mbind at 1. rewrite choice_pick by discriminate.
  destruct (pick descriptors g1) as [de g2]. cbn [fst snd].
  unfold Random.mbind at 1. rewrite choice_pick by discriminate.
  destruct (pick expert_names g2) as [ex g3]. cbn [fst snd].
  unfold Random.mbind at 1. rewrite choice_pick by discriminate.
  destruct (pick institutions g3) as [ins g4]. cbn [fst snd].
  unfold Random.mbind at 1. rewrite choice_pick by discriminate.
  destruct (pick resident_names g4) as [res g5]. cbn [fst snd].
  unfold Random.mbind at 1. rewrite randint_age.
  destruct (Random.randbelow 41 g5) as [k g6]. cbn [fst snd].
  destruct (scenario_triple a) as [[sc eq] rq].
  reflexivity.
Qed.

(** The chain of draws reads the article's title and category only. *)
Lemma seeded_article_fields (a1 a2 : NewsItem) (s : Z) :
  title a1 = title a2 -> category a1 = category a2 ->
  seeded_article a1 s = seeded_article a2 s.
Proof.
  destruct a1 as [t1 d1 l1 p1 c1], a2 as [t2 d2 l2 p2 c2].
  cbn [title category]. intros -> ->.
  unfold seeded_article, headline_from, political, medical, financial,
    technical, scenario_triple, mock_content.
  cbn [title category]. reflexivity.
Qed.

Lemma digest_prefix_title (a1 a2 : NewsItem) :
  title a1 = title a2 -> digest_prefix a1 = digest_prefix a2.
Proof. unfold digest_prefix. now intros ->. Qed.

End TransformerFacts.

Section TransformerClaims.
Import Py Http Transformer.

Lemma seeded_title {R : Random.RandomGen} (a : NewsItem) (s : Z) :
  Dict.get (fst (seeded_article a s)) "title"
  = Some (fst (headline_from a (Random.seed s))).
Proof.
  unfold seeded_article.
  destruct (headline_from a (Random.seed s)) as [t g1].
  destruct (pick descriptors g1) as [de g2].
  destruct (pick expert_names g2) as [ex g3].
  destruct (pick institutions g3) as [ins g4].
  destruct (pick resident_names g4) as [res g5].
  destruct (Random.randbelow 41 g5) as [k g6].
  destruct (scenario_triple a) as [[sc eq] rq]. reflexivity.
Qed.

(** C2, amended: with no usable credential, two calls of the generator on
    articles with the same title and the same category return the same
    dictionary of [title], [description] and [content], whatever the other
    fields of the articles, the styles, the backends and the states of the
    random generator before the calls.  (A title that cannot be encoded
    makes both calls raise, and then the same exception.) *)
Theorem mock_same_title_and_category
  {R : Random.RandomGen} {L : Random.RandomGenLaws R}
  (post1 post2 : string -> Dict.dict string -> Json.json -> result BackendResponse)
  (key1 key2 : string) (a1 a2 : NewsItem) (style1 style2 : string)
  (g1 g2 : Random.rng) :
  OPENAI_CONFIGURED key1 = false -> OPENAI_CONFIGURED key2 = false ->
  title a1 = title a2 -> category a1 = category a2 ->
  fst (transform_with_openai post1 key1 a1 style1 g1)
  = fst (transform_with_openai post2 key2 a2 style2 g2) /\
  (encodable (title a1) = true ->
   exists d,
     fst (transform_with_openai post1 key1 a1 style1 g1) = Ok d /\
     fst (transform_with_openai post2 key2 a2 style2 g2) = Ok d).
Proof.
  intros K1 K2 Ht Hc. unfold transform_with_openai. rewrite K1, K2. cbn [negb].
  destruct (encodable (title a1)) eqn:He.
  - assert (encodable (title a2) = true) as He2 by (rewrite <- Ht; exact He).
    rewrite (mock_transformation_seeded a1 g1 He),
      (mock_transformation_seeded a2 g2 He2). cbn [fst].
    rewrite (digest_prefix_title a1 a2 Ht).
    rewrite (seeded_article_fields a1 a2 _ Ht Hc).
    split; [reflexivity|]. intros _. eexists. split; reflexivity.
  - assert (encodable (title a2) = false) as He2 by (rewrite <- Ht; exact He).
    destruct (mock_transformation_raises a1 g1 He) as (e1 & E1 & ->).
    destruct (mock_transformation_raises a2 g2 He2) as (e2 & E2 & ->).
    cbn [fst]. split; [|discriminate].
    rewrite Ht in E1. congruence.
Qed.

Lemma mock_same_title_and_category_witness :
  exists d,
    fst (transform_with_openai Articles.unreachable "" Articles.breaking_world
           "satirical" (MT19937.seed 0)) = Ok d /\
    fst (transform_with_openai Articles.overloaded "sk-your-openai-api-key-here"
           Articles.breaking_world_again "absurd" (MT19937.seed 99)) = Ok d.
Proof.
  apply (mock_same_title_and_category (R := MT)); reflexivity.
Defined.

(** C2 as stated fails: the same title under the categories [world] and
    [health] gives two different titles, descriptions and contents. *)
Lemma mock_same_title_other_category :
  title Articles.breaking_world = title Articles.breaking_health /\
  OPENAI_CONFIGURED "" = false /\
  exists d1 d2,
    fst (transform_with_openai (R := MT) Articles.unreachable ""
           Articles.breaking_world "satirical" (MT19937.seed 0)) = Ok d1 /\
    fst (transform_with_openai (R := MT) Articles.unreachable ""
           Articles.breaking_health "satirical" (MT19937.seed 0)) = Ok d2 /\
    Dict.get d1 "title" <> Dict.get d2 "title" /\
    Dict.get d1 "description" <> Dict.get d2 "description" /\
    Dict.get d1 "content" <> Dict.get d2 "content".
Proof.
  split; [reflexivity|]. split; [reflexivity|].
  eexists. eexists.
  split; [vm_compute; reflexivity|]. split; [vm_compute; reflexivity|].
  repeat split; vm_compute; discriminate.
Qed.





(** C6: the headline of the mock article, for a title that can be
    encoded, follows the keyword tests in their order: the political one for a title that mentions [trump] or
    [president]; else the health one when the category mentions [health] or
    the title [medical]; else the business one when the category mentions
    [business] or the title [finance]; else the technology one when the
    category mentions [technology]; else the generic headline at the index
    the generator, seeded from the title, gives first among the eight.  A
    title containing [President] under the category [politics] gets the
    political headline, whatever the generator. *)
Theorem headline_precedence
  {R : Random.RandomGen} {L : Random.RandomGenLaws R}
  (a : NewsItem) (g : Random.rng) :
  encodable (title a) = true ->
  exists d t,
    fst (mock_transformation a g) = Ok d /\
    Dict.get d "title" = Some t /\
    (political a = true -> t = political_title) /\
    (political a = false -> medical a = true -> t = health_title) /\
    (political a = false -> medical a = false -> financial a = true ->
     t = business_title) /\
    (political a = false -> medical a = false -> financial a = false ->
     technical a = true -> t = technology_title) /\
    (political a = false -> medical a = false -> financial a = false ->
     technical a = false ->
     List.length satirical_angles = 8%nat /\
     In t satirical_angles /\
     t = nth (Z.to_nat (fst (Random.randbelow 8 (Random.seed (digest_prefix a)))))
           satirical_angles EmptyString) /\
    (str_in "President" (title a) = true -> category a = "politics" ->
     t = political_title).
Proof.
  intros He. rewrite (mock_transformation_seeded a g He). cbn [fst].
  exists (fst (seeded_article a (digest_prefix a))),
         (fst (headline_from a (Random.seed (digest_prefix a)))).
  split; [reflexivity|]. split; [apply seeded_title|].
  unfold headline_from.
  split; [intros ->; reflexivity|].
  split; [intros -> ->; reflexivity|].
  split; [intros -> -> ->; reflexivity|].
  split; [intros -> -> -> ->; reflexivity|].
  split.
  - intros -> -> -> ->. split; [reflexivity|].
    split; [apply pick_in; discriminate|].
    unfold pick. change (Z.of_nat (List.length satirical_angles)) with 8.
    destruct (Random.randbelow 8 _). reflexivity.
  - intros Hp _. assert (political a = true) as ->; [|reflexivity].
    unfold political, mentions. apply orb_true_iff. right.
    apply (str_in_lower "President"); [reflexivity | discriminate | exact Hp].
Qed.

Lemma headline_precedence_witness :
  political Articles.president = true /\
  str_in "President" (title Articles.president) = true /\
  exists d,
    fst (mock_transformation (R := MT) Articles.president (MT19937.seed 0)) = Ok d /\
    Dict.get d "title" = Some political_title.
Proof.
  split; [reflexivity|]. split; [reflexivity|].
  destruct (headline_precedence (R := MT) Articles.president (MT19937.seed 0)
              eq_refl)
    as (d & t & Hd & Ht & _ & _ & _ & _ & _ & Hp).
  exists d. split; [exact Hd|]. rewrite Ht. f_equal.
  apply Hp; reflexivity.
Defined.

(** C7: for a title that can be encoded, the seed of the mock generator is
    the integer the first eight hexadecimal digits of the digest of the
    encoded title spell, that is the
    big-endian value of its first four bytes, a value below [2 ^ 32]; and the
    article returned is the one the draws give in their order from the
    generator seeded with that value, the state before the call playing no
    part. *)
Theorem seed_from_digest
  {R : Random.RandomGen} {L : Random.RandomGenLaws R}
  (a : NewsItem) (g : Random.rng) :
  encodable (title a) = true ->
  encode (title a) = Ok (byte_values (title a)) /\
  title_seed a
  = int16 (str_upto 8 (Hashlib.md5_hexdigest (byte_values (title a)))) /\
  String.length (Hashlib.md5_hexdigest (byte_values (title a))) = 32%nat /\
  title_seed a = Ok (digest_prefix a) /\
  0 <= digest_prefix a < 2 ^ 32 /\
  mock_transformation a g
  = (Ok (fst (seeded_article a (digest_prefix a))),
     snd (seeded_article a (digest_prefix a))).
Proof.
  intros He. split; [apply encode_encodable, He|]. split.
  { unfold title_seed. rewrite (encode_encodable _ He). reflexivity. }
  split.
  - unfold Hashlib.md5_hexdigest. rewrite hex_length.
    destruct (md5_bytes (byte_values (title a)))
      as (b0 & b1 & b2 & b3 & rest & -> & _ & _ & _ & _ & Hlen & _).
    simpl List.length. rewrite Hlen. reflexivity.
  - split; [apply title_seed_ok, He|]. split; [apply digest_prefix_range|].
    apply mock_transformation_seeded, He.
Qed.

Lemma seed_from_digest_witness :
  title_seed Articles.breaking_world = Ok 682422510 /\
  fst (mock_transformation (R := MT) Articles.breaking_world (MT19937.seed 0))
  = Ok (fst (seeded_article (R := MT) Articles.breaking_world 682422510)).
Proof.
  destruct (seed_from_digest (R := MT) Articles.breaking_world (MT19937.seed 0)
              eq_refl)
    as (_ & _ & _ & Hs & _ & Hm).
  assert (digest_prefix Articles.breaking_world = 682422510) as E
    by (vm_compute; reflexivity).
  rewrite E in Hs, Hm. split; [exact Hs|]. rewrite Hm. reflexivity.
Defined.




End TransformerClaims.

(* ================================================================== *)
(** * Further properties of the gateway *)
(* ================================================================== *)

Section GatewayMore.
Import Py Http Gateway.

Variable session_get : string -> result FeedResponse.
Variable clock : nat -> Datetime.datetime.

Lemma item_article_of (c : string) (i : nat) (item : ET.Element) :
  lacks_text item = false ->
  item_article clock c i item = Ok (article_of clock c i item).
Proof.
  unfold lacks_text, item_article, article_of, text_strip.
  rewrite parse_date_claimed.
  destruct (ET.find item "title") as [t|];
    destruct (ET.find item "description") as [d|];
    destruct (ET.find item "link") as [l|]; try reflexivity.
  destruct (ET.text t); destruct (ET.text d); destruct (ET.text l);
    try discriminate. reflexivity.
Qed.

Lemma articles_loop_collect (c : string) (items : list ET.Element) :
  forall i acc,
    forallb (fun item => negb (lacks_text item)) items = true ->
    articles_loop clock c i items acc
    = Ok (acc ++ collect clock c i items)%list.
Proof.
  induction items as [|item items IH]; intros i acc H; cbn [articles_loop collect].
  - rewrite app_nil_r. reflexivity.
  - cbn [forallb] in H. apply andb_true_iff in H. destruct H as [H1 H2].
    apply negb_true_iff in H1. rewrite (item_article_of c i item H1).
    cbn [bind]. rewrite (IH _ _ H2).
    destruct (article_of clock c i item); [|reflexivity].
    rewrite <- app_assoc. reflexivity.
Qed.

Lemma articles_loop_app (c : string) (xs ys : list ET.Element) :
  forall i acc,
    articles_loop clock c i (xs ++ ys) acc
    = (acc' <- articles_loop clock c i xs acc ;;
       articles_loop clock c (i + List.length xs) ys acc').
Proof.
  induction xs as [|x xs IH]; intros i acc; cbn [app articles_loop List.length].
  - cbn [bind]. rewrite Nat.add_0_r. reflexivity.
  - destruct (item_article clock c i x) as [o|e]; cbn [bind]; [|reflexivity].
    rewrite IH. rewrite Nat.add_succ_r. reflexivity.
Qed.

(** A fetched feed in which no item of the slice has an element without
    text: the fetch returns the articles of the complete items among the
    first [limit] items, in the order of the feed; an item that lacks its
    title, description or link contributes nothing. *)
Theorem fetch_collects (c url : string) (limit : Z)
  (response : FeedResponse) (root : ET.Element) :
  session_get url = Ok response ->
  feed_status response = 200 ->
  feed_xml response = Ok root ->
  forallb (fun item => negb (lacks_text item))
    (slice_upto limit (ET.findall_descendants root "item")) = true ->
  fetch_bbc_feed session_get clock c url limit
  = collect clock c 0 (slice_upto limit (ET.findall_descendants root "item")) /\
  forall i item,
    (ET.find item "title" = None \/ ET.find item "description" = None \/
     ET.find item "link" = None) ->
    article_of clock c i item = None.
Proof.
  intros Hget Hst Hxml Hall. split.
  - unfold fetch_bbc_feed, fetch_body. rewrite Hget. cbn [bind].
    rewrite Hst, Hxml. cbn [bind].
    change (negb (200 =? 200)) with false. cbv iota.
    rewrite (articles_loop_collect c _ 0 [] Hall). reflexivity.
  - intros i item H. unfold article_of.
    destruct (ET.find item "title") as [t|];
      destruct (ET.find item "description") as [d|];
      destruct (ET.find item "link") as [l|]; try reflexivity.
    destruct H as [H | [H | H]]; discriminate.
Qed.

(** Raising the limit from [n] to [m] either empties the answer (the fetch
    failed, or an item among the first [m] has an element without text) or
    extends it: the articles returned for [n] come first, unchanged. *)
Theorem fetch_limit_prefix (c url : string) (n m : Z) :
  0 <= n <= m ->
  fetch_bbc_feed session_get clock c url m = [] \/
  exists more,
    fetch_bbc_feed session_get clock c url m
    = (fetch_bbc_feed session_get clock c url n ++ more)%list.
Proof.
  intros Hnm. unfold fetch_bbc_feed, fetch_body.
  destruct (session_get url) as [response|e]; cbn [bind]; [|left; reflexivity].
  destruct (negb (feed_status response =? 200)); [left; reflexivity|].
  destruct (feed_xml response) as [root|e]; cbn [bind]; [|left; reflexivity].
  set (items := ET.findall_descendants root "item").
  assert (slice_upto m items
          = (slice_upto n items ++ skipn (Z.to_nat n) (slice_upto m items))%list)
    as Hsplit.
  { unfold slice_upto.
    destruct (0 <=? n) eqn:En; [|apply Z.leb_gt in En; lia].
    destruct (0 <=? m) eqn:Em; [|apply Z.leb_gt in Em; lia].
    rewrite <- (firstn_skipn (Z.to_nat n) (firstn (Z.to_nat m) items)) at 1.
    rewrite firstn_firstn. rewrite Nat.min_l by lia. reflexivity. }
  rewrite Hsplit. rewrite articles_loop_app.
  destruct (articles_loop clock c 0 (slice_upto n items) []) as [ln|e];
    cbn [bind]; [|left; reflexivity].
  destruct (articles_loop clock c _ _ ln) as [lm|e] eqn:E; [|left; reflexivity].
  apply articles_loop_ok in E. destruct E as (new & -> & _).
  right. exists new. reflexivity.
Qed.

End GatewayMore.

Section GatewayEndpoints.
Import Py Http Gateway.

Lemma fetch_collects_witness :
  fetch_bbc_feed
    (Samples.world_only
       [Samples.item_dated; Samples.item_title_only; Samples.item_undated])
    Samples.clock "world" Samples.world_url 10
  = [Samples.article_dated;
     mkNewsItem "Rain expected" "Bring a coat." "https://www.bbc.co.uk/news/2"
       (Samples.clock 2) "world"].
Proof.
  rewrite (proj1 (fetch_collects
             (Samples.world_only
                [Samples.item_dated; Samples.item_title_only; Samples.item_undated])
             Samples.clock "world" Samples.world_url 10
             (mkFeedResponse 200
                (Ok (Samples.rss [Samples.item_dated; Samples.item_title_only;
                                  Samples.item_undated])))
             (Samples.rss [Samples.item_dated; Samples.item_title_only;
                           Samples.item_undated])
             eq_refl eq_refl eq_refl eq_refl)).
  vm_compute. reflexivity.
Defined.

Lemma fetch_limit_prefix_witness :
  exists more,
    fetch_bbc_feed
      (Samples.world_only [Samples.item_dated; Samples.item_undated])
      Samples.clock "world" Samples.world_url 2
    = (fetch_bbc_feed
         (Samples.world_only [Samples.item_dated; Samples.item_undated])
         Samples.clock "world" Samples.world_url 1 ++ more)%list.
Proof.
  destruct (fetch_limit_prefix
              (Samples.world_only [Samples.item_dated; Samples.item_undated])
              Samples.clock "world" Samples.world_url 1 2 ltac:(lia))
    as [H | H]; [|exact H].
  vm_compute in H. discriminate H.
Defined.

(** [GET /news] and [GET /news/{category}] agree: with the same limit, the
    entry of a configured category in the mapping is the list the category
    endpoint returns, and a category without an entry is one the category
    endpoint answers 404. *)
Theorem all_news_agrees_with_category
  (session_get : string -> result FeedResponse)
  (clock : string -> nat -> Datetime.datetime) (n : Z) (c : string) :
  exists d,
    get_all_news session_get clock (Some n) = Ok d /\
    (forall url,
       Dict.get BBC_FEEDS c = Some url ->
       exists l,
         Dict.get d c = Some l /\
         get_news_by_category session_get (clock c) c (Some n) = Ok l) /\
    (Dict.get d c = None <->
     http_status (get_news_by_category session_get (clock c) c (Some n)) = 404).
Proof.
  unfold get_all_news. eexists. split; [reflexivity|].
  rewrite (get_of_zip (fun k v => fetch_bbc_feed session_get (clock k) k v n)).
  unfold get_news_by_category.
  destruct (Dict.get BBC_FEEDS c) as [url|] eqn:E; cbn [option_map].
  - split.
    + intros url' H. inversion H; subst. eexists. split; reflexivity.
    + cbn [http_status]. split; [discriminate | lia].
  - split; [discriminate|]. cbn [http_status]. split; reflexivity.
Qed.

Lemma all_news_agrees_with_category_witness :
  exists d l,
    get_all_news (Samples.world_only [Samples.item_dated; Samples.item_undated])
      (fun _ => Samples.clock) (Some 2) = Ok d /\
    Dict.get d "world" = Some l /\
    get_news_by_category
      (Samples.world_only [Samples.item_dated; Samples.item_undated])
      Samples.clock "world" (Some 2) = Ok l /\
    Dict.get d "sport" = None.
Proof.
  destruct (all_news_agrees_with_category
              (Samples.world_only [Samples.item_dated; Samples.item_undated])
              (fun _ => Samples.clock) 2 "world") as (d & Hd & Hin & _).
  destruct (Hin Samples.world_url eq_refl) as (l & Hl & Hc).
  exists d, l. split; [exact Hd|]. split; [exact Hl|]. split; [exact Hc|].
  vm_compute in Hd. inversion Hd. reflexivity.
Defined.



End GatewayEndpoints.

(* ================================================================== *)
(** * Further properties of the transformer *)
(* ================================================================== *)

Section StripFacts.
Import Py.

(** ** Stripping the characters of a text *)

Lemma rstrip_chars_app (a b : list string) :
  rstrip_chars (a ++ b)
  = match rstrip_chars b with
    | [] => rstrip_chars a
    | r => (a ++ r)%list
    end.
Proof.
  induction a as [|x a IH]; cbn [app rstrip_chars].
  - destruct (rstrip_chars b); reflexivity.
  - rewrite IH. destruct (rstrip_chars b) as [|y r]; [reflexivity|].
    destruct a; reflexivity.
Qed.

Lemma rstrip_chars_firstn (l : list string) :
  exists k, rstrip_chars l = firstn k l.
Proof.
  induction l as [|x l [k IH]]; [exists O; reflexivity|].
  cbn [rstrip_chars]. rewrite IH. destruct (firstn k l) as [|y r] eqn:E.
  - destruct (isspace_char x); [exists O | exists 1%nat]; reflexivity.
  - exists (S k). cbn [firstn]. rewrite E. reflexivity.
Qed.

Lemma lstrip_chars_skipn (l : list string) :
  exists k, lstrip_chars l = skipn k l.
Proof.
  induction l as [|x l [k IH]]; [exists O; reflexivity|].
  cbn [lstrip_chars]. destruct (isspace_char x).
  - exists (S k). exact IH.
  - exists O. reflexivity.
Qed.

Lemma rstrip_chars_idem (l : list string) :
  rstrip_chars (rstrip_chars l) = rstrip_chars l.
Proof.
  induction l as [|x l IH]; [reflexivity|]. cbn [rstrip_chars].
  destruct (rstrip_chars l) as [|y r] eqn:E.
  - destruct (isspace_char x) eqn:S; [reflexivity|].
    cbn [rstrip_chars]. rewrite S. reflexivity.
  - cbn [rstrip_chars] in *. rewrite IH. reflexivity.
Qed.

Lemma rstrip_chars_blank (l : list string) :
  rstrip_chars l = [] -> lstrip_chars l = [].
Proof.
  induction l as [|x l IH]; [reflexivity|]. cbn [rstrip_chars lstrip_chars].
  destruct (rstrip_chars l); [|discriminate].
  destruct (isspace_char x); [intros _; apply IH; reflexivity | discriminate].
Qed.

Lemma strip_chars_rstrip (l : list string) :
  rstrip_chars (lstrip_chars (rstrip_chars l)) = rstrip_chars (lstrip_chars l).
Proof.
  induction l as [|x l IH]; [reflexivity|].
  cbn [rstrip_chars]. destruct (isspace_char x) eqn:S.
  - cbn [lstrip_chars]. rewrite S.
    destruct (rstrip_chars l) as [|y r] eqn:E.
    + cbn [lstrip_chars rstrip_chars].
      rewrite (rstrip_chars_blank l E). reflexivity.
    + cbn [lstrip_chars]. rewrite S. exact IH.
  - cbn [lstrip_chars]. rewrite S.
    assert (match rstrip_chars l with
            | [] => [x]
            | y :: r => x :: y :: r
            end = x :: rstrip_chars l) as -> by (destruct (rstrip_chars l); reflexivity).
    cbn [lstrip_chars]. rewrite S. cbn [rstrip_chars].
    rewrite rstrip_chars_idem. reflexivity.
Qed.

(** ** Stripping a text *)

Lemma chars_rstrip (s : string) : chars (rstrip s) = rstrip_chars (chars s).
Proof.
  unfold rstrip. destruct (rstrip_chars_firstn (chars s)) as [k ->].
  apply chars_firstn.
Qed.

Lemma strip_rstrip (s : string) : strip (rstrip s) = strip s.
Proof. unfold strip. rewrite chars_rstrip, strip_chars_rstrip. reflexivity. Qed.

Lemma Forall_firstn {A} (P : A -> Prop) (k : nat) (l : list A) :
  Forall P l -> Forall P (firstn k l).
Proof.
  revert l. induction k as [|k IH]; intros [|x l] H; cbn; try constructor.
  - inversion H; assumption.
  - apply IH. inversion H; assumption.
Qed.

Lemma Forall_skipn {A} (P : A -> Prop) (k : nat) (l : list A) :
  Forall P l -> Forall P (skipn k l).
Proof.
  revert l. induction k as [|k IH]; intros [|x l] H; cbn; try assumption.
  apply IH. inversion H; assumption.
Qed.

Lemma rstrip_chars_nil (s : string) :
  rstrip s = EmptyString -> rstrip_chars (chars s) = [].
Proof.
  unfold rstrip. destruct (rstrip_chars_firstn (chars s)) as [k E].
  rewrite E. apply cat_nil, Forall_firstn, chars_nonempty.
Qed.

Lemma rstrip_blank (s : string) : rstrip s = EmptyString -> strip s = EmptyString.
Proof.
  intros H. unfold strip.
  rewrite (rstrip_chars_blank _ (rstrip_chars_nil s H)). reflexivity.
Qed.

Lemma rstrip_prefix (s : string) : exists x, s = rstrip s ++ x.
Proof.
  unfold rstrip. destruct (rstrip_chars_firstn (chars s)) as [k ->].
  exists (cat (skipn k (chars s))).
  rewrite <- cat_app, firstn_skipn, cat_chars. reflexivity.
Qed.

(** A text that stripping leaves alone has no white space at either end. *)
Lemma strip_fixed (s : string) :
  strip s = s ->
  lstrip_chars (chars s) = chars s /\ rstrip_chars (chars s) = chars s.
Proof.
  unfold strip. intros H.
  destruct (lstrip_chars_skipn (chars s)) as [a Ea].
  destruct (rstrip_chars_firstn (lstrip_chars (chars s))) as [b Eb].
  rewrite Eb, Ea in H.
  pose proof (chars_nonempty s) as Hne.
  assert (String.length (cat (chars s))
          = (String.length (cat (firstn a (chars s))) +
             (String.length (cat (firstn b (skipn a (chars s)))) +
              String.length (cat (skipn b (skipn a (chars s))))))%nat) as Hlen.
  { rewrite <- (firstn_skipn a (chars s)) at 1.
    rewrite cat_app, length_app_str.
    rewrite <- (firstn_skipn b (skipn a (chars s))) at 1.
    rewrite cat_app, length_app_str. reflexivity. }
  rewrite H, cat_chars in Hlen.
  assert (firstn a (chars s) = []) as Ha.
  { apply cat_nil; [apply Forall_firstn, Hne|].
    destruct (cat (firstn a (chars s))); [reflexivity | cbn in Hlen; lia]. }
  assert (skipn b (skipn a (chars s)) = []) as Hb.
  { apply cat_nil; [apply Forall_skipn, Forall_skipn, Hne|].
    destruct (cat (skipn b (skipn a (chars s)))); [reflexivity | cbn in Hlen; lia]. }
  assert (skipn a (chars s) = chars s) as Ea'.
  { rewrite <- (firstn_skipn a (chars s)) at 2. rewrite Ha. reflexivity. }
  rewrite Ea, Ea' in *. split; [reflexivity|].
  rewrite Eb. rewrite <- (firstn_skipn b (chars s)) at 2.
  rewrite Hb, app_nil_r. reflexivity.
Qed.

(** A line made of an ASCII head that starts with no white space and of a
    stripped, non-empty tail is left alone by [strip] and by [rstrip]. *)
Lemma strip_headed (c : ascii) (p s : string) :
  isspace c = false -> all_ascii (String c p) = true ->
  strip s = s -> s <> EmptyString ->
  strip (String c p ++ s) = String c p ++ s /\
  rstrip (String c p ++ s) = String c p ++ s.
Proof.
  intros Hc Hp Hs Hne. destruct (strip_fixed s Hs) as [_ Hr].
  assert (rstrip_chars (chars (String c p ++ s))
          = (singles (String c p) ++ chars s)%list) as E.
  { rewrite (chars_singles _ s Hp), rstrip_chars_app, Hr.
    destruct (chars s) as [|h t] eqn:Es; [|reflexivity].
    apply chars_nil in Es. contradiction. }
  assert (cat (singles (String c p) ++ chars s) = String c p ++ s) as Ec
    by (rewrite cat_app, cat_singles, cat_chars; reflexivity).
  split.
  - unfold strip. rewrite (chars_singles _ s Hp) at 1.
    cbn [singles app lstrip_chars isspace_char]. rewrite Hc.
    change (String c EmptyString :: (singles p ++ chars s)%list)
      with (singles (String c p) ++ chars s)%list.
    rewrite <- (chars_singles _ s Hp), E. exact Ec.
  - unfold rstrip. rewrite E. exact Ec.
Qed.

Lemma str_in_cons_false (w : string) (c : ascii) (s : string) :
  str_in w (String c s) = false ->
  prefix w (String c s) = false /\ str_in w s = false.
Proof. cbn [str_in]. intros H. apply orb_false_iff in H. exact H. Qed.

(** Replacing a word that does not occur changes nothing. *)
Lemma replace_absent (old new s : string) :
  str_in old s = false -> replace_go old new 0 s = s.
Proof.
  induction s as [|c s IH]; intros H; [reflexivity|].
  destruct (str_in_cons_false old c s H) as [Hp Hs].
  cbn [replace_go]. rewrite Hp. rewrite (IH Hs). reflexivity.
Qed.

Lemma single_line_cons (c : ascii) (s : string) :
  single_line (String c s) = true ->
  prefix nl (String c s) = false /\ single_line s = true.
Proof.
  unfold single_line. intros H. apply negb_true_iff in H.
  destruct (str_in_cons_false nl c s H) as [Hp Hs].
  split; [exact Hp | now rewrite Hs].
Qed.

Lemma prefix_nl (rest : string) :
  prefix nl (String (ascii_of_nat 10) rest) = true.
Proof. apply prefix_iff. exists rest. reflexivity. Qed.

Lemma split_line (a rest : string) :
  single_line a = true ->
  split_go nl 0 (a ++ nl ++ rest) = a :: split_go nl 0 rest.
Proof.
  induction a as [|c a IH]; intros H.
  - change (EmptyString ++ nl ++ rest) with (String (ascii_of_nat 10) rest).
    cbn [split_go]. rewrite prefix_nl. reflexivity.
  - destruct (single_line_cons c a H) as [Hp Hs].
    cbn [append split_go].
    assert (prefix nl (String c (a ++ nl ++ rest)) = false) as ->.
    { revert Hp. unfold nl, chr. cbn [prefix].
      destruct (ascii_dec (ascii_of_nat 10) c); [|reflexivity].
      intros Hp. destruct a; discriminate Hp. }
    rewrite (IH Hs). reflexivity.
Qed.

Lemma split_last (a : string) :
  single_line a = true -> split_go nl 0 a = [a].
Proof.
  induction a as [|c a IH]; intros H; [reflexivity|].
  destruct (single_line_cons c a H) as [Hp Hs].
  cbn [split_go]. rewrite Hp. rewrite (IH Hs). reflexivity.
Qed.

(** Splitting the lines joined by line feeds gives the lines back. *)
Lemma split_join (l : string) (lines : list string) :
  forallb single_line (l :: lines) = true ->
  split (join nl (l :: lines)) nl = l :: lines.
Proof.
  unfold split. revert l.
  induction lines as [|l' ls IH]; intros l H; cbn [forallb] in H;
    apply andb_true_iff in H; destruct H as [Hl H].
  - cbn [join]. apply split_last. exact Hl.
  - change (join nl (l :: l' :: ls)) with (l ++ nl ++ join nl (l' :: ls)).
    rewrite (split_line l _ Hl). rewrite (IH l' H). reflexivity.
Qed.

Lemma truthy_nonempty (s : string) : truthy s = true <-> s <> EmptyString.
Proof. destruct s; simpl; split; congruence. Qed.

End StripFacts.

Section ReplyFacts.
Import Py Transformer.

Lemma field_ok_facts (marker s : string) :
  field_ok marker s = true ->
  single_line s = true /\ s <> EmptyString /\ strip s = s /\
  str_in marker s = false.
Proof.
  unfold field_ok. intros H.
  apply andb_true_iff in H. destruct H as [H H4].
  apply andb_true_iff in H. destruct H as [H H3].
  apply andb_true_iff in H. destruct H as [H1 H2].
  split; [exact H1|]. split; [apply truthy_nonempty; exact H2|].
  split; [apply String.eqb_eq; exact H3 | apply negb_true_iff; exact H4].
Qed.

Lemma prefix_head_diff (c1 c2 : ascii) (x y : string) :
  c1 <> c2 -> prefix (String c2 x) (String c1 y) = false.
Proof.
  intros Hne. destruct (prefix _ _) eqn:E; [|reflexivity].
  apply prefix_iff in E. destruct E as [post E]. simpl in E. congruence.
Qed.

Lemma replace_go_skip (old new p s : string) :
  replace_go old new (String.length p) (p ++ s) = replace_go old new 0 s.
Proof.
  induction p as [|c p IH]; [reflexivity|].
  cbn [String.length append replace_go]. exact IH.
Qed.

(** A text that starts with the word: the word is replaced and the scan
    goes on behind it. *)
Lemma replace_head (c : ascii) (m new s : string) :
  replace_go (String c m) new 0 (String c m ++ s)
  = new ++ replace_go (String c m) new 0 s.
Proof.
  cbn [append replace_go].
  assert (prefix (String c m) (String c (m ++ s)) = true) as ->
    by (apply prefix_iff; exists s; reflexivity).
  replace (String.length (String c m) - 1)%nat with (String.length m)
    by (cbn [String.length]; lia).
  rewrite replace_go_skip. reflexivity.
Qed.


(** A marker line: stripping leaves it alone, it starts with its marker,
    and removing the marker and stripping gives the field. *)
Lemma marker_line (c : ascii) (m t : string) :
  isspace c = false -> all_ascii (String c m) = true ->
  field_ok (String c m) t = true ->
  strip (String c m ++ " " ++ t) = String c m ++ " " ++ t /\
  rstrip (String c m ++ " " ++ t) = String c m ++ " " ++ t /\
  startswith (String c m ++ " " ++ t) (String c m) = true /\
  strip (replace (String c m ++ " " ++ t) (String c m) "") = t.
Proof.
  intros Hc Ha H. destruct (field_ok_facts _ _ H) as (_ & Hne & Hs & Hm).
  assert (all_ascii (String c (m ++ " ")) = true) as Ha'.
  { change (String c (m ++ " ")) with (String c m ++ " ").
    rewrite all_ascii_app, Ha. reflexivity. }
  destruct (strip_headed c (m ++ " ") t Hc Ha' Hs Hne) as [E1 E2].
  change (String c (m ++ " ") ++ t) with (String c ((m ++ " ") ++ t)) in E1, E2.
  rewrite app_assoc_str in E1, E2.
  split; [exact E1|]. split; [exact E2|]. split.
  - unfold startswith. apply prefix_iff. eexists. reflexivity.
  - unfold replace. rewrite replace_head. cbn [append].
    rewrite replace_absent.
    + destruct (strip_fixed t Hs) as [Hl Hr].
      unfold strip. rewrite (chars_ascii " " t eq_refl).
      cbn [lstrip_chars]. change (isspace_char " ") with true. cbn iota.
      rewrite Hl, Hr. apply cat_chars.
    + cbn [str_in]. rewrite Hm. rewrite orb_false_r.
      apply prefix_head_diff. intros E. rewrite <- E in Hc. discriminate Hc.
Qed.

Lemma parse_title_line (st : parse_state) (t : string) :
  field_ok "TITLE:" t = true ->
  parse_line st ("TITLE: " ++ t)
  = mkParseState (Some "title") t (transformed_description st)
      (transformed_content st) (content_lines st).
Proof.
  intros H.
  destruct (marker_line "T" "ITLE:" t eq_refl eq_refl H) as (H1 & _ & H2 & H3).
  change ("TITLE:" ++ " " ++ t) with ("TITLE: " ++ t) in *.
  unfold parse_line. rewrite H1, H2, H3. reflexivity.
Qed.

Lemma parse_description_line (st : parse_state) (d : string) :
  field_ok "DESCRIPTION:" d = true ->
  parse_line st ("DESCRIPTION: " ++ d)
  = mkParseState (Some "description") (transformed_title st) d
      (transformed_content st) (content_lines st).
Proof.
  intros H.
  destruct (marker_line "D" "ESCRIPTION:" d eq_refl eq_refl H)
    as (H1 & _ & H2 & H3).
  change ("DESCRIPTION:" ++ " " ++ d) with ("DESCRIPTION: " ++ d) in *.
  unfold parse_line. rewrite H1, H2, H3.
  assert (startswith ("DESCRIPTION: " ++ d) "TITLE:" = false) as ->
    by (apply prefix_head_diff; discriminate).
  reflexivity.
Qed.

Lemma parse_content_line (st : parse_state) (c : string) :
  field_ok "CONTENT:" c = true ->
  parse_line st ("CONTENT: " ++ c)
  = mkParseState (Some "content") (transformed_title st)
      (transformed_description st) c (content_lines st).
Proof.
  intros H.
  destruct (marker_line "C" "ONTENT:" c eq_refl eq_refl H) as (H1 & _ & H2 & H3).
  change ("CONTENT:" ++ " " ++ c) with ("CONTENT: " ++ c) in *.
  unfold parse_line. rewrite H1, H2, H3.
  assert (startswith ("CONTENT: " ++ c) "TITLE:" = false) as ->
    by (apply prefix_head_diff; discriminate).
  assert (startswith ("CONTENT: " ++ c) "DESCRIPTION:" = false) as ->
    by (apply prefix_head_diff; discriminate).
  reflexivity.
Qed.

(** The lines behind the content marker: each one that is not blank is
    kept, stripped. *)
Lemma parse_body_lines (body : list string) :
  forall t d c ls,
    forallb body_line body = true ->
    fold_left parse_line body (mkParseState (Some "content") t d c ls)
    = mkParseState (Some "content") t d c
        (ls ++ filter truthy (map strip body))%list.
Proof.
  induction body as [|l body IH]; intros t d c ls H.
  - cbn. rewrite app_nil_r. reflexivity.
  - cbn [forallb] in H. apply andb_true_iff in H. destruct H as [Hl H].
    unfold body_line in Hl.
    apply andb_true_iff in Hl. destruct Hl as [Hl H3].
    apply andb_true_iff in Hl. destruct Hl as [Hl H2].
    apply andb_true_iff in Hl. destruct Hl as [_ H1].
    apply negb_true_iff in H1, H2, H3.
    cbn [fold_left map filter]. unfold parse_line at 2.
    rewrite H1, H2, H3. cbn [section_is current_section].
    change (String.eqb "content" "description") with false.
    change (String.eqb "content" "content") with true.
    cbn [andb transformed_title transformed_description transformed_content
         content_lines].
    destruct (truthy (strip l)).
    + rewrite (IH _ _ _ _ H). rewrite <- app_assoc. reflexivity.
    + rewrite (IH _ _ _ _ H). reflexivity.
Qed.

Lemma single_line_headed (p s : string) :
  single_line p = true -> single_line s = true -> single_line (p ++ s) = true.
Proof.
  unfold single_line. intros Hp Hs.
  apply negb_true_iff in Hp, Hs. apply negb_true_iff.
  induction p as [|c p IH]; [exact Hs|].
  destruct (str_in_cons_false nl c p Hp) as [H1 H2].
  cbn [append str_in]. rewrite (IH H2), orb_false_r.
  destruct (prefix nl (String c (p ++ s))) eqn:E; [|reflexivity].
  apply prefix_iff in E. destruct E as [post E].
  assert (prefix nl (String c p) = true) as E'.
  { apply prefix_iff. exists p. unfold nl, chr in *. simpl in *. congruence. }
  congruence.
Qed.

Lemma join_truthy (x : string) (ls : list string) :
  truthy x = true -> truthy (join nl (x :: ls)) = true.
Proof.
  destruct x as [|c x]; [discriminate|]. intros _.
  destruct ls; reflexivity.
Qed.

Lemma or_else_nonempty (s default : string) :
  default <> EmptyString -> or_else s default <> EmptyString.
Proof.
  intros H. unfold or_else. destruct s; [exact H | discriminate].
Qed.

Lemma parse_reply_keys (content : string) :
  exists t d c,
    parse_reply content = [("title", t); ("description", d); ("content", c)] /\
    t <> EmptyString /\ d <> EmptyString.
Proof.
  unfold parse_reply.
  destruct (if (negb _ || negb _)%bool then _ else _) as [[t d] c].
  do 3 eexists. split; [reflexivity|].
  split; apply or_else_nonempty; discriminate.
Qed.

(** Whatever the backend replied, the parsed article has its three keys in
    order, a title and a description that are not empty, and a content that
    is empty only when the reply is blank. *)
Theorem parse_reply_fields (content : string) :
  exists t d c,
    parse_reply content = [("title", t); ("description", d); ("content", c)] /\
    t <> EmptyString /\ d <> EmptyString /\
    (c = EmptyString -> strip content = EmptyString).
Proof.
  unfold parse_reply.
  destruct (if (negb _ || negb _)%bool then _ else _) as [[t d] c].
  do 3 eexists. split; [reflexivity|].
  split; [apply or_else_nonempty; discriminate|].
  split; [apply or_else_nonempty; discriminate|].
  unfold or_else. destruct c; cbn [truthy]; [intros H; exact H | discriminate].
Qed.


(** ** The lines of a stripped reply *)

Lemma single_line_prefix (a x : string) :
  single_line (a ++ x) = true -> single_line a = true.
Proof.
  unfold single_line. rewrite !negb_true_iff. intros H.
  destruct (str_in nl a) eqn:E; [|reflexivity].
  apply str_in_iff in E. destruct E as (pre & post & ->).
  assert (str_in nl ((pre ++ nl ++ post) ++ x) = true) as E'.
  { apply str_in_iff. exists pre, (post ++ x).
    rewrite !app_assoc_str. reflexivity. }
  congruence.
Qed.

Lemma single_line_rstrip (s : string) :
  single_line s = true -> single_line (rstrip s) = true.
Proof.
  intros H. destruct (rstrip_prefix s) as [x E]. rewrite E in H.
  exact (single_line_prefix _ _ H).
Qed.

Lemma body_line_rstrip (l : string) :
  body_line l = true -> body_line (rstrip l) = true.
Proof.
  unfold body_line. rewrite strip_rstrip. intros H.
  apply andb_true_iff in H. destruct H as [H H3].
  apply andb_true_iff in H. destruct H as [H H2].
  apply andb_true_iff in H. destruct H as [H0 H1].
  rewrite (single_line_rstrip l H0), H1, H2, H3. reflexivity.
Qed.

Lemma trim_body_line (ls : list string) :
  forallb body_line ls = true -> forallb body_line (trim ls) = true.
Proof.
  induction ls as [|l r IH]; intros H; [reflexivity|].
  cbn [forallb] in H. apply andb_true_iff in H. destruct H as [Hl Hr].
  cbn [trim]. specialize (IH Hr). destruct (trim r) as [|y r'].
  - destruct (truthy (rstrip l)); [|reflexivity].
    cbn [forallb]. rewrite (body_line_rstrip l Hl). reflexivity.
  - cbn [forallb] in *. rewrite Hl, IH. reflexivity.
Qed.

(** The lines dropped at the end are blank, and the line cut at its end
    strips to the same text. *)
Lemma trim_strip (ls : list string) :
  filter truthy (map strip (trim ls)) = filter truthy (map strip ls).
Proof.
  induction ls as [|l r IH]; [reflexivity|].
  cbn [trim]. destruct (trim r) as [|y r'].
  - cbn [map filter] in *. rewrite <- IH.
    destruct (truthy (rstrip l)) eqn:E.
    + cbn [map filter]. rewrite strip_rstrip.
      destruct (truthy (strip l)); reflexivity.
    + assert (rstrip l = EmptyString) as E0
        by (destruct (rstrip l); [reflexivity | discriminate]).
      rewrite (rstrip_blank l E0). reflexivity.
  - set (T := y :: r') in *. cbn [map filter]. rewrite IH. reflexivity.
Qed.

Lemma trim_nonempty (ls : list string) :
  trim ls <> [] -> join nl (trim ls) <> EmptyString.
Proof.
  destruct ls as [|l r]; [intros H; contradiction|].
  cbn [trim]. destruct (trim r) as [|y r'].
  - destruct (truthy (rstrip l)) eqn:E; [|intros H; contradiction].
    intros _. cbn [join]. destruct (rstrip l); discriminate.
  - intros _. change (join nl (l :: y :: r')) with (l ++ nl ++ join nl (y :: r')).
    destruct l; discriminate.
Qed.

(** Cutting the white space at the end of the joined lines cuts the blank
    lines at the end and the end of the last line that is not blank. *)
Lemma rstrip_join (ls : list string) : rstrip (join nl ls) = join nl (trim ls).
Proof.
  induction ls as [|l r IH]; [reflexivity|].
  destruct r as [|l' r'].
  - cbn [join trim]. destruct (rstrip l) eqn:E; reflexivity.
  - change (join nl (l :: l' :: r')) with (l ++ nl ++ join nl (l' :: r')).
    set (J := join nl (l' :: r')) in *.
    assert (chars (l ++ nl ++ J)
            = (chars l ++ (nl :: chars J))%list) as Ec.
    { rewrite chars_app by reflexivity.
      change (nl ++ J) with (String (ascii_of_nat 10) J).
      rewrite chars_ascii by reflexivity. reflexivity. }
    unfold rstrip at 1. rewrite Ec, rstrip_chars_app.
    cbn [rstrip_chars]. change (isspace_char nl) with true. cbn iota.
    change (trim (l :: l' :: r'))
      with (match trim (l' :: r') with
            | [] => if truthy (rstrip l) then [rstrip l] else []
            | x :: y => l :: x :: y
            end).
    destruct (rstrip_chars (chars J)) as [|x xs] eqn:E.
    + assert (rstrip J = EmptyString) as EJ by (unfold rstrip; rewrite E; reflexivity).
      rewrite EJ in IH.
      destruct (trim (l' :: r')) as [|y ys] eqn:Et.
      * fold (rstrip l). destruct (rstrip l) eqn:El; reflexivity.
      * exfalso. apply (trim_nonempty (l' :: r')); [rewrite Et; discriminate|].
        rewrite Et. symmetry. exact IH.
    + assert (rstrip J = cat (x :: xs)) as EJ by (unfold rstrip; rewrite E; reflexivity).
      assert (rstrip J <> EmptyString) as Hne.
      { rewrite EJ. intros H0.
        assert (Forall (fun ch => ch <> EmptyString) (x :: xs)) as Hf.
        { rewrite <- E. destruct (rstrip_chars_firstn (chars J)) as [k ->].
          apply Forall_firstn, chars_nonempty. }
        apply (cat_nil _ Hf) in H0. discriminate. }
      destruct (trim (l' :: r')) as [|y ys] eqn:Et.
      * exfalso. apply Hne. rewrite IH. reflexivity.
      * rewrite cat_app, cat_chars.
        change (cat (nl :: x :: xs)) with (nl ++ cat (x :: xs)).
        rewrite <- EJ, IH. reflexivity.
Qed.

Lemma strip_ascii_head (c : ascii) (s : string) :
  is_ascii c = true -> isspace c = false ->
  strip (String c s) = rstrip (String c s).
Proof.
  intros Ha Hc. unfold strip, rstrip. rewrite (chars_ascii c s Ha).
  cbn [lstrip_chars isspace_char]. rewrite Hc. reflexivity.
Qed.

Lemma trim_headed (l : string) (r : list string) :
  rstrip l = l -> l <> EmptyString -> trim (l :: r) = l :: trim r.
Proof.
  intros E Hne. cbn [trim]. rewrite E.
  destruct (trim r); [|reflexivity].
  destruct l; [contradiction | reflexivity].
Qed.

(** A reply in the layout the prompt asks for is read back field by field,
    whatever white space ends it.  When further lines follow the content
    marker, the content is those lines, stripped, without the blank ones,
    joined by line feeds, and the text on the marker's own line is
    dropped. *)
Theorem parse_reply_layout (t d c : string) (body : list string) :
  field_ok "TITLE:" t = true ->
  field_ok "DESCRIPTION:" d = true ->
  field_ok "CONTENT:" c = true ->
  forallb body_line body = true ->
  parse_reply (reply_layout t d c body)
  = [("title", t); ("description", d);
     ("content", match filter truthy (map strip body) with
                 | [] => c
                 | ls => join nl ls
                 end)].
Proof.
  intros Ht Hd Hc Hbody.
  destruct (field_ok_facts _ _ Ht) as (Ht1 & Ht2 & _ & _).
  destruct (field_ok_facts _ _ Hd) as (Hd1 & Hd2 & _ & _).
  destruct (field_ok_facts _ _ Hc) as (Hc1 & Hc2 & _ & _).
  destruct (marker_line "T" "ITLE:" t eq_refl eq_refl Ht) as (_ & Rt & _).
  destruct (marker_line "D" "ESCRIPTION:" d eq_refl eq_refl Hd) as (_ & Rd & _).
  destruct (marker_line "C" "ONTENT:" c eq_refl eq_refl Hc) as (_ & Rc & _).
  change ("TITLE:" ++ " " ++ t) with ("TITLE: " ++ t) in Rt.
  change ("DESCRIPTION:" ++ " " ++ d) with ("DESCRIPTION: " ++ d) in Rd.
  change ("CONTENT:" ++ " " ++ c) with ("CONTENT: " ++ c) in Rc.
  assert (strip (reply_layout t d c body)
          = join nl (("TITLE: " ++ t) :: ("DESCRIPTION: " ++ d) ::
                     ("CONTENT: " ++ c) :: trim body)) as Hstrip.
  { transitivity (rstrip (reply_layout t d c body)).
    - unfold reply_layout.
      change (join nl (("TITLE: " ++ t) :: ("DESCRIPTION: " ++ d) ::
                       ("CONTENT: " ++ c) :: body))
        with (String "T" (("ITLE: " ++ t) ++ nl ++
                join nl (("DESCRIPTION: " ++ d) :: ("CONTENT: " ++ c) :: body))).
      apply strip_ascii_head; reflexivity.
    - unfold reply_layout. rewrite rstrip_join.
      rewrite (trim_headed _ _ Rt) by discriminate.
      rewrite (trim_headed _ _ Rd) by discriminate.
      rewrite (trim_headed _ _ Rc) by discriminate.
      reflexivity. }
  pose proof (trim_body_line body Hbody) as Htrim.
  assert (fold_left parse_line (split (strip (reply_layout t d c body)) nl)
            (mkParseState None EmptyString EmptyString EmptyString [])
          = mkParseState (Some "content") t d c
              (filter truthy (map strip body))) as Hfold.
  { rewrite Hstrip. rewrite split_join.
    2:{ cbn [forallb].
        rewrite (single_line_headed "TITLE: " t eq_refl Ht1).
        rewrite (single_line_headed "DESCRIPTION: " d eq_refl Hd1).
        rewrite (single_line_headed "CONTENT: " c eq_refl Hc1).
        cbn [andb]. clear - Htrim.
        induction (trim body) as [|l ls IH]; [reflexivity|].
        cbn [forallb] in *. apply andb_true_iff in Htrim.
        destruct Htrim as [Hl H].
        rewrite (IH H), andb_true_r. unfold body_line in Hl.
        destruct (single_line l); [reflexivity | discriminate Hl]. }
    cbn [fold_left].
    rewrite (parse_title_line _ t Ht), (parse_description_line _ d Hd),
      (parse_content_line _ c Hc).
    cbn [transformed_title transformed_description transformed_content
         content_lines].
    rewrite (parse_body_lines (trim body) t d c [] Htrim).
    rewrite trim_strip. reflexivity. }
  unfold parse_reply. rewrite Hfold.
  cbn [transformed_title transformed_description transformed_content
       content_lines].
  apply truthy_nonempty in Ht2, Hd2, Hc2.
  rewrite Ht2, Hd2. cbn [negb orb]. unfold or_else. rewrite Ht2, Hd2.
  destruct (filter truthy (map strip body)) as [|x ls] eqn:E.
  - rewrite Hc2. reflexivity.
  - assert (truthy x = true) as Hx.
    { assert (In x (filter truthy (map strip body))) as Hin
        by (rewrite E; left; reflexivity).
      apply filter_In in Hin. tauto. }
    rewrite (join_truthy x ls Hx). reflexivity.
Qed.

Lemma parse_reply_layout_witness :
  parse_reply
    (reply_layout "Cats Declare Independence" "A nation watches."
       "MILTON KEYNES - It began at dawn."
       [EmptyString; "  Experts were unsurprised. "; EmptyString; "More at 11. ";
        EmptyString])
  = [("title", "Cats Declare Independence");
     ("description", "A nation watches.");
     ("content", "Experts were unsurprised." ++ nl ++ "More at 11.")].
Proof.
  apply (parse_reply_layout "Cats Declare Independence" "A nation watches."
           "MILTON KEYNES - It began at dawn."
           [EmptyString; "  Experts were unsurprised. "; EmptyString;
            "More at 11. "; EmptyString]);
    vm_compute; reflexivity.
Defined.

End ReplyFacts.

Section ServiceFacts.
Import Py Http Transformer.

Lemma headline_in {R : Random.RandomGen} {L : Random.RandomGenLaws R}
  (a : NewsItem) (g : Random.rng) :
  In (fst (headline_from a g)) mock_headlines.
Proof.
  unfold headline_from, mock_headlines.
  destruct (political a); [left; reflexivity|].
  destruct (medical a); [right; left; reflexivity|].
  destruct (financial a); [right; right; left; reflexivity|].
  destruct (technical a); [right; right; right; left; reflexivity|].
  do 4 right. apply pick_in. discriminate.
Qed.

Lemma mock_headlines_nonempty (h : string) :
  In h mock_headlines -> h <> EmptyString.
Proof.
  unfold mock_headlines, satirical_angles. cbn [In].
  intros H. repeat (destruct H as [<- | H]; [discriminate|]). contradiction.
Qed.

Lemma seeded_article_keys {R : Random.RandomGen} (a : NewsItem) (s : Z) :
  exists d c,
    fst (seeded_article a s)
    = [("title", fst (headline_from a (Random.seed s)));
       ("description", d); ("content", c)] /\
    d <> EmptyString.
Proof.
  unfold seeded_article.
  destruct (headline_from a (Random.seed s)) as [t g1].
  destruct (pick descriptors g1) as [de g2].
  destruct (pick expert_names g2) as [ex g3].
  destruct (pick institutions g3) as [ins g4].
  destruct (pick resident_names g4) as [res g5].
  destruct (Random.randbelow 41 g5) as [k g6].
  destruct (scenario_triple a) as [[sc eq] rq].
  do 2 eexists. split; [reflexivity | discriminate].
Qed.

(** The mock article, which every title that can be encoded gets, is the
    template filled from the fixed lists: its title is one of the twelve
    headlines (never empty), its description the fixed sentence around one of
    the six descriptors, and its content the fixed paragraphs around an
    expert, an institution and a resident of the lists, an age from 25 to 65
    and the scenario triple of the category. *)
Theorem mock_article_shape {R : Random.RandomGen} {L : Random.RandomGenLaws R}
  (a : NewsItem) (g : Random.rng) :
  encodable (title a) = true ->
  exists headline descriptor expert institution resident age,
    In headline mock_headlines /\ headline <> EmptyString /\
    In descriptor descriptors /\ In expert expert_names /\
    In institution institutions /\ In resident resident_names /\
    25 <= age <= 65 /\
    fst (mock_transformation a g)
    = Ok [("title", headline);
          ("description", mock_description descriptor);
          ("content",
           strip (mock_content a expert institution resident age
                    (fst (fst (scenario_triple a)))
                    (snd (fst (scenario_triple a)))
                    (snd (scenario_triple a))))].
Proof.
  intros He. rewrite (mock_transformation_seeded a g He). cbn [fst].
  unfold seeded_article.
  pose proof (headline_in a (Random.seed (digest_prefix a))) as Hh.
  destruct (headline_from a (Random.seed (digest_prefix a))) as [t g1].
  pose proof (pick_in descriptors g1 ltac:(discriminate)) as H1.
  destruct (pick descriptors g1) as [de g2].
  pose proof (pick_in expert_names g2 ltac:(discriminate)) as H2.
  destruct (pick expert_names g2) as [ex g3].
  pose proof (pick_in institutions g3 ltac:(discriminate)) as H3.
  destruct (pick institutions g3) as [ins g4].
  pose proof (pick_in resident_names g4 ltac:(discriminate)) as H4.
  destruct (pick resident_names g4) as [res g5].
  pose proof (Random.randbelow_range 41 g5 ltac:(lia)) as H5.
  destruct (Random.randbelow 41 g5) as [k g6].
  destruct (scenario_triple a) as [[sc eq] rq].
  cbn [fst snd] in *.
  exists t, de, ex, ins, res, (25 + k).
  split; [exact Hh|]. split; [apply mock_headlines_nonempty; exact Hh|].
  repeat (split; [assumption|]). split; [lia | reflexivity].
Qed.

Lemma mock_article_shape_witness :
  exists headline descriptor expert institution resident age,
    In headline mock_headlines /\ 25 <= age <= 65 /\
    fst (mock_transformation (R := MT) Articles.breaking_world (MT19937.seed 7))
    = Ok [("title", headline);
          ("description", mock_description descriptor);
          ("content",
           strip (mock_content Articles.breaking_world expert institution
                    resident age
                    (fst (fst (scenario_triple Articles.breaking_world)))
                    (snd (fst (scenario_triple Articles.breaking_world)))
                    (snd (scenario_triple Articles.breaking_world))))].
Proof.
  destruct (mock_article_shape (R := MT) Articles.breaking_world (MT19937.seed 7)
              eq_refl)
    as (h & de & ex & ins & res & age & H1 & _ & _ & _ & _ & _ & H7 & H8).
  exists h, de, ex, ins, res, age. auto.
Defined.

Variable client_post :
  string -> Dict.dict string -> Json.json -> result BackendResponse.

Lemma backend_body_reply (key : string) (a : NewsItem)
  (response : BackendResponse) (v : Json.json) (content : string) :
  client_post "https://api.openai.com/v1/chat/completions"
    (backend_headers key) (backend_request a) = Ok response ->
  status_code response = 200 -> json response = Ok v ->
  reply_content v = Ok content ->
  backend_body client_post key a = Ok (parse_reply content).
Proof.
  intros Hp Hs Hj Hc. unfold backend_body. rewrite Hp. cbn [bind].
  rewrite Hs, Hj. change (negb (200 =? 200)) with false. cbn [bind].
  unfold reply_content in Hc.
  destruct (subscript v "choices") as [x1|]; cbn [bind] in *; [|discriminate].
  destruct (subscript0 x1) as [x2|]; cbn [bind] in *; [|discriminate].
  destruct (subscript x2 "message") as [x3|]; cbn [bind] in *; [|discriminate].
  destruct (subscript x3 "content") as [x4|]; cbn [bind] in *; [|discriminate].
  rewrite Hc. reflexivity.
Qed.

Lemma backend_body_parsed (key : string) (a : NewsItem) (d : Dict.dict string) :
  backend_body client_post key a = Ok d -> exists content, d = parse_reply content.
Proof.
  unfold backend_body.
  destruct (client_post _ _ _) as [response|]; cbn [bind]; [|discriminate].
  destruct (negb _); [discriminate|].
  destruct (json response) as [v|]; cbn [bind]; [|discriminate].
  destruct (subscript v "choices") as [x1|]; cbn [bind]; [|discriminate].
  destruct (subscript0 x1) as [x2|]; cbn [bind]; [|discriminate].
  destruct (subscript x2 "message") as [x3|]; cbn [bind]; [|discriminate].
  destruct (subscript x3 "content") as [x4|]; cbn [bind]; [|discriminate].
  destruct (as_str x4) as [content|]; cbn [bind]; [|discriminate].
  intros H. inversion H. exists content. reflexivity.
Qed.

End ServiceFacts.

Section ServiceClaims.
Import Py Http Transformer.

(** With a usable credential and a backend that answers 200 with a reply of
    the expected shape, the transformed article is the parse of the reply's
    content, and the random generator is left as it was. *)
Theorem backend_reply_parsed {R : Random.RandomGen}
  (client_post : string -> Dict.dict string -> Json.json -> result BackendResponse)
  (key : string) (a : NewsItem) (style : string) (g : Random.rng)
  (response : BackendResponse) (v : Json.json) (content : string) :
  OPENAI_CONFIGURED key = true ->
  client_post "https://api.openai.com/v1/chat/completions"
    (backend_headers key) (backend_request a) = Ok response ->
  status_code response = 200 -> json response = Ok v ->
  reply_content v = Ok content ->
  transform_with_openai client_post key a style g
  = (Ok (parse_reply content), g).
Proof.
  intros K Hp Hs Hj Hc. unfold transform_with_openai. rewrite K. cbn [negb].
  unfold Random.lift.
  rewrite (backend_body_reply client_post key a response v content Hp Hs Hj Hc).
  reflexivity.
Qed.

Lemma backend_reply_parsed_witness :
  transform_with_openai (R := MT) Replies.answering "sk-live"
    Articles.president "satirical" (MT19937.seed 0)
  = (Ok [("title", "Cats Declare Independence");
         ("description", "A nation watches."); ("content", "It began at dawn.")],
     MT19937.seed 0).
Proof.
  rewrite (backend_reply_parsed (R := MT) Replies.answering "sk-live"
             Articles.president "satirical" (MT19937.seed 0)
             Replies.cats_response Replies.cats_json Replies.cats
             eq_refl eq_refl eq_refl eq_refl eq_refl).
  f_equal.
Defined.

(** Whenever a usable credential is configured or the title can be
    encoded, that is whenever the transformer answers 200, the article it
    returns has the three keys [title], [description] and [content] in this
    order, and neither its title nor its description is empty, whatever the
    backend did. *)
Theorem transformed_never_blank
  {R : Random.RandomGen} {L : Random.RandomGenLaws R}
  (client_post : string -> Dict.dict string -> Json.json -> result BackendResponse)
  (key : string) (now : Datetime.datetime) (request : TransformRequest)
  (g : Random.rng) :
  OPENAI_CONFIGURED key = true \/ encodable (title (article request)) = true ->
  exists r t d c,
    fst (transform_article client_post key now request g) = Ok r /\
    transformed r = [("title", t); ("description", d); ("content", c)] /\
    t <> EmptyString /\ d <> EmptyString.
Proof.
  intros H. unfold transform_article, transform_with_openai.
  destruct (OPENAI_CONFIGURED key); cbn [negb].
  - unfold Random.lift.
    destruct (backend_body client_post key (article request)) as [x|e] eqn:E;
      cbn [try_except fst].
    + apply backend_body_parsed in E. destruct E as [content ->].
      destruct (parse_reply_keys content) as (t & d & c & Hp & Ht & Hd).
      eexists. exists t, d, c. split; [reflexivity|]. cbn [transformed].
      split; [exact Hp|]. split; assumption.
    + eexists. do 3 eexists. split; [reflexivity|]. cbn [transformed].
      split; [reflexivity|]. split; discriminate.
  - destruct H as [H | H]; [discriminate|].
    rewrite (mock_transformation_seeded _ _ H). cbn [fst].
    destruct (seeded_article_keys (article request)
                (digest_prefix (article request))) as (d & c & Hk & Hd).
    eexists. do 3 eexists. split; [reflexivity|]. cbn [transformed].
    split; [exact Hk|]. split; [|exact Hd].
    apply mock_headlines_nonempty. apply headline_in.
Qed.

Lemma transformed_never_blank_witness :
  (exists r t d c,
     fst (transform_article (R := MT) Articles.overloaded "sk-live" Articles.now
            (mkTransformRequest Articles.lone_surrogate "satirical")
            (MT19937.seed 0))
     = Ok r /\
     transformed r = [("title", t); ("description", d); ("content", c)] /\
     t <> EmptyString /\ d <> EmptyString) /\
  (exists r t d c,
     fst (transform_article (R := MT) Articles.unreachable "" Articles.now
            (mkTransformRequest Articles.president "satirical") (MT19937.seed 0))
     = Ok r /\
     transformed r = [("title", t); ("description", d); ("content", c)] /\
     t <> EmptyString /\ d <> EmptyString).
Proof.
  split.
  - exact (transformed_never_blank (R := MT) Articles.overloaded "sk-live"
             Articles.now (mkTransformRequest Articles.lone_surrogate "satirical")
             (MT19937.seed 0) (or_introl eq_refl)).
  - exact (transformed_never_blank (R := MT) Articles.unreachable ""
             Articles.now (mkTransformRequest Articles.president "satirical")
             (MT19937.seed 0) (or_intror eq_refl)).
Defined.

(** The credential is usable exactly when it is neither empty nor the
    placeholder, and [GET /health] reports just that.  When it reports
    false the backend plays no part in [POST /transform]; when it reports
    true, [POST /transform] leaves the random generator as it was. *)
Theorem path_selection {R : Random.RandomGen}
  (key : string) (now : Datetime.datetime) :
  (openai_configured (health_check key now) = true <->
   key <> EmptyString /\ key <> "sk-your-openai-api-key-here") /\
  (openai_configured (health_check key now) = false ->
   forall post post' request g,
     transform_article post key now request g
     = transform_article post' key now request g) /\
  (openai_configured (health_check key now) = true ->
   forall post request g,
     snd (transform_article post key now request g) = g).
Proof.
  cbn [health_check openai_configured]. split; [|split].
  - unfold OPENAI_CONFIGURED. rewrite andb_true_iff, negb_true_iff.
    rewrite truthy_nonempty, String.eqb_neq. reflexivity.
  - intros K post post' request g.
    unfold transform_article, transform_with_openai. rewrite K. reflexivity.
  - intros K post request g.
    unfold transform_article, transform_with_openai. rewrite K. cbn [negb].
    unfold Random.lift.
    destruct (try_except _ _); reflexivity.
Qed.

Lemma path_selection_witness :
  openai_configured (health_check "sk-your-openai-api-key-here" Articles.now)
  = false /\
  transform_article (R := MT) Articles.unreachable "sk-your-openai-api-key-here"
    Articles.now (mkTransformRequest Articles.president "satirical")
    (MT19937.seed 0)
  = transform_article (R := MT) Articles.overloaded "sk-your-openai-api-key-here"
      Articles.now (mkTransformRequest Articles.president "satirical")
      (MT19937.seed 0) /\
  snd (transform_article (R := MT) Articles.overloaded "sk-live" Articles.now
         (mkTransformRequest Articles.president "satirical") (MT19937.seed 0))
  = MT19937.seed 0.
Proof.
  split; [reflexivity|]. split.
  - apply (proj1 (proj2 (path_selection (R := MT)
             "sk-your-openai-api-key-here" Articles.now))). reflexivity.
  - apply (proj2 (proj2 (path_selection (R := MT) "sk-live" Articles.now))).
    reflexivity.
Defined.

(** The headline and the body do not test in the same order: the body
    looks at the category alone and tries [technology] first, so an article
    whose category mentions both [health] and [technology] (and whose title
    can be encoded and is not political) gets the health headline above the technology
    scenario and quotes. *)
Theorem headline_and_body_disagree
  {R : Random.RandomGen} {L : Random.RandomGenLaws R}
  (a : NewsItem) (g : Random.rng) :
  encodable (title a) = true ->
  political a = false ->
  mentions "health" (category a) = true ->
  mentions "technology" (category a) = true ->
  exists d,
    fst (mock_transformation a g) = Ok d /\
    Dict.get d "title" = Some health_title /\
    scenario_triple a = scenario_triple plain_technology.
Proof.
  intros He Hp Hh Ht. rewrite (mock_transformation_seeded a g He). cbn [fst].
  eexists. split; [reflexivity|]. split.
  - rewrite seeded_title. unfold headline_from, medical. rewrite Hp, Hh.
    reflexivity.
  - unfold scenario_triple. unfold mentions in Ht. rewrite Ht. reflexivity.
Qed.

Lemma headline_and_body_disagree_witness :
  exists d,
    fst (mock_transformation (R := MT) health_technology (MT19937.seed 0)) = Ok d /\
    Dict.get d "title" = Some health_title /\
    scenario_triple health_technology = scenario_triple plain_technology.
Proof.
  apply (headline_and_body_disagree (R := MT) health_technology (MT19937.seed 0));
    reflexivity.
Defined.

End ServiceClaims.

(* ================================================================== *)
(** * The models of the libraries on known values *)
(* ================================================================== *)

Example md5_empty :
  Hashlib.md5_hexdigest (Py.byte_values "") = "d41d8cd98f00b204e9800998ecf8427e".
Proof. vm_compute. reflexivity. Qed.

Example md5_abc :
  Hashlib.md5_hexdigest (Py.byte_values "abc") = "900150983cd24fb0d6963f7d28e17f72".
Proof. vm_compute. reflexivity. Qed.

(** A message of 56 bytes needs a second block. *)
Example md5_two_blocks :
  Hashlib.md5_hexdigest
    (Py.byte_values "aaaaaaaaaaaaaaaaaaaaaaaaaaaaaaaaaaaaaaaaaaaaaaaaaaaaaaaa")
  = "3b0c8ac703f828b04c6c197006d17218".
Proof. vm_compute. reflexivity. Qed.

(** [random.seed(42)], then three times [random.getrandbits(32)]. *)
Example twister_seed_42 :
  (let g := MT19937.seed 42 in
   let (a, g) := MT19937.genrand_uint32 g in
   let (b, g) := MT19937.genrand_uint32 g in
   let (c, _) := MT19937.genrand_uint32 g in [a; b; c])
  = [2746317213; 478163327; 107420369].
Proof. vm_compute. reflexivity. Qed.

(** [random.seed(682422510)], then the draws of the mock generator. *)
Example twister_draws :
  (let g := MT19937.seed 682422510 in
   let (a, g) := MT19937.randbelow 8 g in
   let (b, g) := MT19937.randbelow 6 g in
   let (c, g) := MT19937.randbelow 6 g in
   let (d, g) := MT19937.randbelow 4 g in
   let (e, g) := MT19937.randbelow 6 g in
   let (f, _) := MT19937.randbelow 41 g in [a; b; c; d; e; 25 + f])
  = [0; 3; 5; 3; 1; 39].
Proof. vm_compute. reflexivity. Qed.

Example strptime_bbc :
  Datetime.strptime (Py.str_upto 25 "Mon, 01 Jan 2024 12:00:00 GMT")
  = Py.Ok (Datetime.mkDatetime 2024 1 1 12 0 0 0).
Proof. vm_compute. reflexivity. Qed.

(** With a day of one digit the 25 characters end in a space. *)
Example strptime_short_day :
  Datetime.strptime (Py.str_upto 25 "Mon, 1 Jan 2024 12:00:00 GMT")
  = Py.Raise (Datetime.value_error "unconverted data remains").
Proof. vm_compute. reflexivity. Qed.

Example strptime_any_case_and_space :
  Datetime.strptime ("mon," ++ Py.chr 9 ++ " 31 DEC 1999 23:59:59")
  = Py.Ok (Datetime.mkDatetime 1999 12 31 23 59 59 0).
Proof. vm_compute. reflexivity. Qed.

Example strptime_leap_day :
  Datetime.strptime "Tue, 29 Feb 2000 1:2:3"
  = Py.Ok (Datetime.mkDatetime 2000 2 29 1 2 3 0) /\
  Datetime.strptime "Tue, 29 Feb 1900 1:2:3"
  = Py.Raise (Datetime.value_error "day is out of range for month").
Proof. split; vm_compute; reflexivity. Qed.

Example strptime_leap_second :
  Datetime.strptime "Mon, 01 Jan 2024 12:00:60"
  = Py.Raise (Datetime.value_error "second must be in 0..59").
Proof. vm_compute. reflexivity. Qed.

Example strptime_empty :
  Datetime.strptime ""
  = Py.Raise (Datetime.value_error "time data does not match format").
Proof. vm_compute. reflexivity. Qed.

(** The built-ins on text that is not ASCII. *)
Example upper_special_casing :
  Py.upper "Preſident" = "PRESIDENT" /\ Py.upper "busineß" = "BUSINESS" /\
  Py.upper "ﬁnance" = "FINANCE" /\ Py.upper "écrit" = "ÉCRIT".
Proof. repeat split; vm_compute; reflexivity. Qed.

Example lower_other_letters :
  Py.lower "ÉCRIT" = "écrit" /\ Py.lower "Preſident" = "preſident" /\
  Py.lower "ΟΔΟΣ ΣΟΦΟΣ" = "οδος σοφος" /\ Py.lower "K" = "k".
Proof. repeat split; vm_compute; reflexivity. Qed.

Example strip_other_spaces :
  Py.strip (" " ++ Py.nl ++ " x y 　") = "x y" /\
  Py.strip "​x​" = "​x​".
Proof. split; vm_compute; reflexivity. Qed.

Example characters_not_bytes :
  Py.len "Preſident" = 9%nat /\ String.length "Preſident" = 10%nat /\
  Py.str_upto 4 "Preſident" = "Preſ" /\ Py.len "日本語 😀" = 5%nat.
Proof. repeat split; vm_compute; reflexivity. Qed.

Example encode_surrogates :
  Py.encode "日本" = Py.Ok [230; 151; 165; 230; 156; 172] /\
  Py.encode ("é" ++ Py.chr 237 ++ Py.chr 160 ++ Py.chr 128 ++
             Py.chr 237 ++ Py.chr 191 ++ Py.chr 191 ++ "z")
  = Py.Raise (Py.Exception "UnicodeEncodeError"
                ("'utf-8' codec can't encode characters in position 1-2: " ++
                 "surrogates not allowed")).
Proof. split; vm_compute; reflexivity. Qed.

(** A digit after the first may be of another script, and so may the white
    space. *)
Example strptime_other_digits :
  Datetime.strptime "Mon, 1１ Jan ２０２４ 12:0０:59"
  = Py.Ok (Datetime.mkDatetime 2024 1 11 12 0 59 0) /\
  Datetime.strptime "Mon, ٠١ Jan 2024 12:00:00"
  = Py.Raise (Datetime.value_error "time data does not match format").
Proof. split; vm_compute; reflexivity. Qed.

Example split_blank_lines :
  Py.split ("a" ++ Py.nl ++ Py.nl ++ "b" ++ Py.nl ++ Py.nl ++ Py.nl ++ "c")
    (Py.nl ++ Py.nl)
  = ["a"; "b"; Py.nl ++ "c"].
Proof. vm_compute. reflexivity. Qed.

Example parse_reply_markers :
  Transformer.parse_reply
    ("TITLE: A" ++ Py.nl ++ "DESCRIPTION: B" ++ Py.nl ++ "more" ++ Py.nl ++
     "CONTENT: C" ++ Py.nl ++ Py.nl ++ " line2 " ++ Py.nl)
  = [("title", "A"); ("description", "B more"); ("content", "line2")].
Proof. vm_compute. reflexivity. Qed.

Example parse_reply_plain :
  Transformer.parse_reply "hello"
  = [("title", Transformer.default_title);
     ("description", Transformer.default_description); ("content", "hello")].
Proof. vm_compute. reflexivity. Qed.
